(** * historical_data.py: schema inference, normalisation and time-window
      filtering of an uploaded traffic data set

    A shallow embedding of [src/historical_data.py].  Header strings are
    [string]s (bytes); a pandas frame is a list of column labels and a list
    of rows; the pandas, datetime and streamlit calls the program makes are
    modelled by the functions below, each next to the line it stands for. *)

From Stdlib Require Import List String Ascii Bool Arith ZArith QArith Lia.
From Stdlib Require Import DecimalString Sorted.
From Stdlib Require DecimalFacts DecimalPos DecimalN.
Import ListNotations.
Set Warnings "-abstract-large-number".
Local Close Scope Q_scope.
Local Open Scope list_scope.
Local Open Scope string_scope.
Local Open Scope nat_scope.

(** ** Text: [str.lower] and the [in] operator on strings *)

Module Text.

(** [str.lower] on one character: the letters A..Z move to a..z, every other
    byte is kept. *)
Definition lower_ascii (c : ascii) : ascii :=
  let n := nat_of_ascii c in
  if (65 <=? n)%nat && (n <=? 90)%nat then ascii_of_nat (n + 32) else c.

Fixpoint lower (s : string) : string :=
  match s with
  | EmptyString => EmptyString
  | String c s' => String (lower_ascii c) (lower s')
  end.

(** [starts_with kw s]: [s] begins with [kw]. *)
Fixpoint starts_with (kw s : string) : bool :=
  match kw, s with
  | EmptyString, _ => true
  | String _ _, EmptyString => false
  | String a kw', String b s' => Ascii.eqb a b && starts_with kw' s'
  end.

(** Python's [kw in s] for strings: [kw] occurs at some offset of [s]. *)
Fixpoint str_in (kw s : string) : bool :=
  starts_with kw s ||
  match s with
  | EmptyString => false
  | String _ s' => str_in kw s'
  end.

(** The declarative reading of [kw in s]. *)
Definition Substring (kw s : string) : Prop :=
  exists pre post, s = pre ++ kw ++ post.

(** [any(keyword in col.lower() for keyword in keywords)] *)
Definition any_keyword_in (keywords : list string) (col : string) : bool :=
  existsb (fun keyword => str_in keyword (lower col)) keywords.

(** A header mentions one of the keywords, case-insensitively. *)
Definition Mentions (keywords : list string) (col : string) : Prop :=
  exists keyword, In keyword keywords /\ Substring keyword (lower col).

(** *** Containment up to case, said without [lower]

    Two characters are the same up to case when they are equal, or one is a
    letter A..Z (codes 65 to 90) and the other the letter a..z that lies 32
    codes after it. *)
Definition CaseVariant (a b : ascii) : Prop :=
  a = b \/
  (65 <= nat_of_ascii a <= 90 /\ nat_of_ascii b = nat_of_ascii a + 32) \/
  (65 <= nat_of_ascii b <= 90 /\ nat_of_ascii a = nat_of_ascii b + 32).

(** Two texts of the same length, character by character the same up to
    case. *)
Inductive SameIgnoringCase : string -> string -> Prop :=
| same_empty : SameIgnoringCase "" ""
| same_char a b s t :
    CaseVariant a b -> SameIgnoringCase s t ->
    SameIgnoringCase (String a s) (String b t).

(** [col] contains [keyword] case-insensitively: some stretch of [col] is
    [keyword] up to case. *)
Definition ContainsIgnoringCase (col keyword : string) : Prop :=
  exists pre mid post,
    col = pre ++ mid ++ post /\ SameIgnoringCase mid keyword.

End Text.

(** ** Column classification (lines 30-41) *)

Module Classifier.
Import Text.

Definition volume_keywords : list string :=
  ["traffic_volume"; "volume"; "traffic"; "count"].

Definition datetime_keywords : list string :=
  ["datetime"; "date_time"; "timestamp"; "date"].

(** The list comprehension of [detect_traffic_volume_columns], for a keyword
    list [keywords]: the columns are visited in order and a column is
    appended when the [any(...)] test holds. *)
Fixpoint columns_mentioning (keywords columns : list string) : list string :=
  match columns with
  | [] => []
  | col :: rest =>
      if any_keyword_in keywords col
      then col :: columns_mentioning keywords rest
      else columns_mentioning keywords rest
  end.

Definition detect_traffic_volume_columns (columns : list string) : list string :=
  columns_mentioning volume_keywords columns.

(** The [for] loop of [detect_datetime_column], for a keyword list
    [keywords]: return at the first column passing the test, [None] when the
    loop runs out. *)
Fixpoint first_mentioning (keywords columns : list string) : option string :=
  match columns with
  | [] => None
  | col :: rest =>
      if any_keyword_in keywords col then Some col
      else first_mentioning keywords rest
  end.

Definition detect_datetime_column (columns : list string) : option string :=
  first_mentioning datetime_keywords columns.

(** The specification's [classify]: both detections over one header list. *)
Record classification := {
  datetimeColumn : option string;
  volumeColumns : list string
}.

Definition classify (columns : list string) : classification :=
  {| datetimeColumn := detect_datetime_column columns;
     volumeColumns := detect_traffic_volume_columns columns |}.

(** [Subseq l out]: [out] is obtained from [l] by deleting elements, so it
    keeps the order of [l] and takes no position of [l] twice. *)
Inductive Subseq {A : Type} : list A -> list A -> Prop :=
| Subseq_nil : Subseq [] []
| Subseq_skip x l out : Subseq l out -> Subseq (x :: l) out
| Subseq_take x l out : Subseq l out -> Subseq (x :: l) (x :: out).

(** The two header tests as the specification words them, the keywords
    written out: a header is datetime-like, or volume-like, when it contains
    one of the four texts case-insensitively. *)
Definition DatetimeHeader (h : string) : Prop :=
  ContainsIgnoringCase h "datetime" \/ ContainsIgnoringCase h "date_time" \/
  ContainsIgnoringCase h "timestamp" \/ ContainsIgnoringCase h "date".

Definition VolumeHeader (h : string) : Prop :=
  ContainsIgnoringCase h "traffic_volume" \/ ContainsIgnoringCase h "volume" \/
  ContainsIgnoringCase h "traffic" \/ ContainsIgnoringCase h "count".

(** [Selects P l out]: [out] lists, in the order of [l], the element at
    every position of [l] where [P] holds, and nothing else. *)
Inductive Selects {A : Type} (P : A -> Prop) : list A -> list A -> Prop :=
| Selects_nil : Selects P [] []
| Selects_take x l out : P x -> Selects P l out -> Selects P (x :: l) (x :: out)
| Selects_skip x l out : ~ P x -> Selects P l out -> Selects P (x :: l) out.

End Classifier.

(** ** Calendar values: [datetime.datetime] and pandas [Timestamp] *)

Module Calendar.
Local Open Scope N_scope.

(** A naive (zone-less) instant by its civil fields.  [fraction] is the
    sub-second part in nanoseconds: a value read from the data may carry one,
    a window bound never does. *)
Record datetime := mk_datetime {
  year : N; month : N; day : N;
  hour : N; minute : N; second : N; fraction : N
}.

(** Comparison of two instants: field by field, most significant first. *)
Fixpoint lex_compare (a b : list N) : comparison :=
  match a, b with
  | [], [] => Eq
  | [], _ :: _ => Lt
  | _ :: _, [] => Gt
  | x :: a', y :: b' =>
      match N.compare x y with
      | Eq => lex_compare a' b'
      | c => c
      end
  end.

Definition fields (t : datetime) : list N :=
  [year t; month t; day t; hour t; minute t; second t; fraction t].

Definition dt_compare (a b : datetime) : comparison :=
  lex_compare (fields a) (fields b).

(** [a <= b] and [a >= b] on instants. *)
Definition dt_leb (a b : datetime) : bool :=
  match dt_compare a b with Gt => false | _ => true end.

Definition dt_geb (a b : datetime) : bool := dt_leb b a.

(** [datetime._is_leap] and [datetime._days_in_month]. *)
Definition is_leap (y : N) : bool :=
  (y mod 4 =? 0) && (negb (y mod 100 =? 0) || (y mod 400 =? 0)).

Definition days_in_month (y m : N) : N :=
  if (m =? 2) && is_leap y then 29
  else nth (N.to_nat m) [0; 31; 28; 31; 30; 31; 30; 31; 31; 30; 31; 30; 31] 0.

(** The field checks of the [datetime] constructor; a failed check is a
    [ValueError]. *)
Definition check_date_fields (y m d : N) : bool :=
  (1 <=? y) && (y <=? 9999) && (1 <=? m) && (m <=? 12) &&
  (1 <=? d) && (d <=? days_in_month y m).

Definition check_time_fields (H M sec : N) : bool :=
  (H <=? 23) && (M <=? 59) && (sec <=? 59).

(** The date exists on the calendar. *)
Definition ValidDate (y m d : N) : Prop :=
  1 <= y <= 9999 /\ 1 <= m <= 12 /\ 1 <= d <= days_in_month y m.

(** The integer view of an instant: nanoseconds since 1970-01-01, with the
    days counted in the proleptic Gregorian calendar. *)
Definition days_from_civil (y m d : Z) : Z :=
  (let y' := if m <=? 2 then y - 1 else y in
   let era := y' / 400 in
   let yoe := y' - era * 400 in
   let mp := if m <=? 2 then m + 9 else m - 3 in
   let doy := (153 * mp + 2) / 5 + d - 1 in
   let doe := yoe * 365 + yoe / 4 - yoe / 100 + doy in
   era * 146097 + doe - 719468)%Z.

Definition epoch_ns (t : datetime) : Z :=
  (let days := days_from_civil (Z.of_N (year t)) (Z.of_N (month t))
                               (Z.of_N (day t)) in
   let seconds := ((days * 24 + Z.of_N (hour t)) * 60 + Z.of_N (minute t)) * 60
                  + Z.of_N (second t) in
   seconds * 1000000000 + Z.of_N (fraction t))%Z.

End Calendar.

(** ** Formatting and parsing of window bounds (lines 68-69, 197-198) *)

Module Strptime.
Import Calendar.
Local Open Scope N_scope.

(** [str(n)] for a non-negative integer. *)
Definition str (n : N) : string :=
  NilEmpty.string_of_uint (N.to_uint n).

(** The format specification [02d]: at least two digits, zero padded. *)
Definition fmt_02d (n : N) : string :=
  let s := str n in
  if (String.length s <? 2)%nat then "0" ++ s else s.

(** [range(start, stop, step)] for a positive step. *)
Fixpoint range_from (fuel : nat) (start stop step : N) : list N :=
  match fuel with
  | O => []
  | S fuel' =>
      if start <? stop then start :: range_from fuel' (start + step) stop step
      else []
  end.

Definition range (start stop step : N) : list N :=
  range_from (N.to_nat (stop - start)) start stop step.

(** [generate_time_options] (line 69): hours in the outer loop, minutes in
    steps of five in the inner one. *)
Definition generate_time_options : list string :=
  flat_map
    (fun hour =>
       map (fun minute => fmt_02d hour ++ ":" ++ fmt_02d minute ++ ":00")
           (range 0 60 5))
    (range 0 24 1).

(** The f-string of lines 197 and 198:
    [f"{year}-{month:02d}-{day:02d} {time}"]. *)
Definition format_parts (y m d : N) (time : string) : string :=
  str y ++ "-" ++ fmt_02d m ++ "-" ++ fmt_02d d ++ " " ++ time.

(** *** The regular expression [strptime] builds for "%Y-%m-%d %H:%M:%S"

    A pattern maps a text to the list of its matches, each with the text left
    over, in the order a backtracking matcher tries them. *)
Definition pattern (A : Type) : Type := string -> list (A * string).

Definition digit_of (c : ascii) : option N :=
  let n := N_of_ascii c in
  if (48 <=? n) && (n <=? 57) then Some (n - 48) else None.

(** One character of the class [\d], restricted by [ok]. *)
Definition one_digit (ok : N -> bool) : pattern N :=
  fun s =>
    match s with
    | String c rest =>
        match digit_of c with
        | Some a => if ok a then [(a, rest)] else []
        | None => []
        end
    | EmptyString => []
    end.

(** Two characters of [\d], restricted by [ok]; the value is the number they
    spell. *)
Definition two_digits (ok : N -> N -> bool) : pattern N :=
  fun s =>
    match s with
    | String c1 (String c2 rest) =>
        match digit_of c1, digit_of c2 with
        | Some a, Some b => if ok a b then [(10 * a + b, rest)] else []
        | _, _ => []
        end
    | _ => []
    end.

(** A literal character. *)
Definition lit (c : ascii) : pattern unit :=
  fun s =>
    match s with
    | String c' rest => if Ascii.eqb c c' then [(tt, rest)] else []
    | EmptyString => []
    end.

(** Alternation [p|q]: the matches of [p] are tried before those of [q]. *)
Definition alt {A} (p q : pattern A) : pattern A :=
  fun s => (p s ++ q s)%list.

(** Concatenation [pq]. *)
Definition then_ {A B} (p : pattern A) (q : pattern B) : pattern (A * B) :=
  fun s =>
    flat_map (fun '(a, rest) => map (fun '(b, rest') => ((a, b), rest')) (q rest))
             (p s).

Definition is_space (c : ascii) : bool :=
  let n := N_of_ascii c in
  (n =? 32) || ((9 <=? n) && (n <=? 13)).

(** [\s+], greedy: the longest run first, then shorter ones. *)
Fixpoint spaces_plus (s : string) : list (unit * string) :=
  match s with
  | String c rest =>
      if is_space c then (spaces_plus rest ++ [(tt, rest)])%list else []
  | EmptyString => []
  end.

(** [%Y] is [\d\d\d\d]. *)
Definition re_Y : pattern N :=
  fun s =>
    match s with
    | String c1 (String c2 (String c3 (String c4 rest))) =>
        match digit_of c1, digit_of c2, digit_of c3, digit_of c4 with
        | Some a, Some b, Some c, Some d =>
            [(1000 * a + 100 * b + 10 * c + d, rest)]
        | _, _, _, _ => []
        end
    | _ => []
    end.

(** [%m] is [1[0-2]|0[1-9]|[1-9]]. *)
Definition re_m : pattern N :=
  alt (two_digits (fun a b => (a =? 1) && (b <=? 2)))
 (alt (two_digits (fun a b => (a =? 0) && (1 <=? b)))
      (one_digit (fun a => 1 <=? a))).

(** [%d] is [3[01]|[12]\d|0[1-9]|[1-9]| [1-9]]. *)
Definition re_d : pattern N :=
  alt (two_digits (fun a b => (a =? 3) && (b <=? 1)))
 (alt (two_digits (fun a b => (1 <=? a) && (a <=? 2)))
 (alt (two_digits (fun a b => (a =? 0) && (1 <=? b)))
 (alt (one_digit (fun a => 1 <=? a))
      (fun s => map (fun '(_, a, rest) => (a, rest))
                    (then_ (lit " ") (one_digit (fun a => 1 <=? a)) s))))).

(** [%H] is [2[0-3]|[0-1]\d|\d]. *)
Definition re_H : pattern N :=
  alt (two_digits (fun a b => (a =? 2) && (b <=? 3)))
 (alt (two_digits (fun a b => a <=? 1))
      (one_digit (fun _ => true))).

(** [%M] is [[0-5]\d|\d]. *)
Definition re_M : pattern N :=
  alt (two_digits (fun a b => a <=? 5)) (one_digit (fun _ => true)).

(** [%S] is [6[0-1]|[0-5]\d|\d]. *)
Definition re_S : pattern N :=
  alt (two_digits (fun a b => (a =? 6) && (b <=? 1)))
 (alt (two_digits (fun a b => a <=? 5))
      (one_digit (fun _ => true))).

(** The part of the expression after the year: [-%m-%d\s+%H:%M:%S]. *)
Definition re_tail : pattern (N * N * N * N * N) :=
  fun s =>
    map (fun '(_, m, _, d, _, H, _, M, _, sec, rest) => ((m, d, H, M, sec), rest))
        (then_ (then_ (then_ (then_ (then_ (then_ (then_ (then_ (then_
           (lit "-") re_m) (lit "-")) re_d) spaces_plus) re_H) (lit ":")) re_M)
           (lit ":")) re_S s).

Definition re_format : pattern (N * (N * N * N * N * N)) :=
  then_ re_Y re_tail.

(** [datetime.strptime(text, "%Y-%m-%d %H:%M:%S")]: the first match of the
    expression must use up the whole text, and the fields must pass the
    checks of the [datetime] constructor; otherwise [ValueError] ([None]). *)
Definition strptime (text : string) : option datetime :=
  match re_format text with
  | [] => None
  | ((y, (m, d, H, M, sec)), rest) :: _ =>
      match rest with
      | EmptyString =>
          if check_date_fields y m d && check_time_fields H M sec
          then Some (mk_datetime y m d H M sec 0)
          else None
      | String _ _ => None
      end
  end.

(** The selections of one bound: year, month, day and time of day. *)
Record parts := mk_parts {
  p_year : N; p_month : N; p_day : N; p_time : string
}.

Definition strptime_parts (p : parts) : option datetime :=
  strptime (format_parts (p_year p) (p_month p) (p_day p) (p_time p)).

(** A bound is selectable when its month, day and time are among the options
    of lines 180-182.  The year is any year of the data (line 179). *)
Definition Selectable (p : parts) : Prop :=
  In (p_month p) (range 1 13 1) /\
  In (p_day p) (range 1 32 1) /\
  In (p_time p) generate_time_options.

Inductive window_error := InvalidDateError.

(** Lines 196-198 and 203-205: both bounds are parsed inside one [try]; a
    [ValueError] from either is reported as an invalid date. *)
Definition buildWindow (startParts endParts : parts)
  : window_error + (datetime * datetime) :=
  match strptime_parts startParts with
  | None => inl InvalidDateError
  | Some start_datetime =>
      match strptime_parts endParts with
      | None => inl InvalidDateError
      | Some end_datetime => inr (start_datetime, end_datetime)
      end
  end.

End Strptime.

(** ** Frames: the part of pandas the program uses *)

Module Frame.
Import Calendar.

(** Column types.  [Float64] stands for every numeric type; [Datetime64] is
    the type of zone-less timestamps, [Datetime64tz] that of timestamps of
    one time zone. *)
Inductive dtype := Object | Float64 | Datetime64 | Datetime64tz.

(** A scalar of a frame.  Numbers are rationals (every finite float is one);
    [NaN] and [NaT] are the missing markers of numeric or text columns and of
    timestamp columns. *)
Inductive cell :=
| Str (s : string)
| Num (q : Q)
| NaN
| Ts (t : datetime)
| NaT.

(** A frame: the column labels in header order (labels may repeat), the type
    of each column, and the rows, each with one cell per column. *)
Record DataFrame := mk_frame {
  columns : list string;
  dtypes : list dtype;
  rows : list (list cell)
}.

(** Every frame pandas builds has one type per column and one cell per
    column in every row. *)
Definition well_formed (df : DataFrame) : Prop :=
  List.length (dtypes df) = List.length (columns df) /\
  Forall (fun row => List.length row = List.length (columns df)) (rows df).

(** [pd.isna] on a scalar. *)
Definition isna (c : cell) : bool :=
  match c with NaN | NaT => true | _ => false end.

(** The positions at which label [c] occurs, counted from [i]. *)
Fixpoint positions_from (i : nat) (c : string) (cols : list string) : list nat :=
  match cols with
  | [] => []
  | x :: rest =>
      if String.eqb x c then i :: positions_from (S i) c rest
      else positions_from (S i) c rest
  end.

Definition positions (c : string) (cols : list string) : list nat :=
  positions_from 0 c cols.

(** [c in df.columns] *)
Definition has_column (df : DataFrame) (c : string) : bool :=
  existsb (String.eqb c) (columns df).

(** The cell of a row at position [i]. *)
Definition cell_at (i : nat) (row : list cell) : cell := nth i row NaN.

(** A row with the cell at position [i] replaced. *)
Fixpoint set_cell (i : nat) (v : cell) (row : list cell) : list cell :=
  match row, i with
  | [], _ => []
  | _ :: rest, 0 => v :: rest
  | x :: rest, S i' => x :: set_cell i' v rest
  end.

Fixpoint set_nth {A} (i : nat) (v : A) (l : list A) : list A :=
  match l, i with
  | [], _ => []
  | _ :: rest, 0 => v :: rest
  | x :: rest, S i' => x :: set_nth i' v rest
  end.

(** What [df[c]] evaluates to: a [KeyError] for an unknown label, the one
    column as a series when the label occurs once, and a frame of all the
    columns carrying the label when it occurs several times. *)
Inductive selection :=
| NoSuchLabel
| Series (dt : dtype) (values : list cell)
| SubFrame (width : nat).

Definition getitem (df : DataFrame) (c : string) : selection :=
  match positions c (columns df) with
  | [] => NoSuchLabel
  | [i] => Series (nth i (dtypes df) Object) (map (cell_at i) (rows df))
  | _ :: _ :: _ as ps => SubFrame (List.length ps)
  end.

(** [df[c] = series] for a label at position [i]: the column takes the type
    of the series and row [j] takes its [j]-th value. *)
Fixpoint assign_rows (i : nat) (values : list cell) (rs : list (list cell))
  : list (list cell) :=
  match rs with
  | [] => []
  | row :: rest =>
      set_cell i (hd NaN values) row :: assign_rows i (tl values) rest
  end.

Definition setitem_at (i : nat) (dt : dtype) (values : list cell)
    (df : DataFrame) : DataFrame :=
  {| columns := columns df;
     dtypes := set_nth i dt (dtypes df);
     rows := assign_rows i values (rows df) |}.

(** [df.dropna(subset=[c1, ...])] with the labels at positions [ps]: a new
    frame with the rows that have no missing cell at any of them. *)
Definition complete_at (ps : list nat) (row : list cell) : bool :=
  forallb (fun i => negb (isna (cell_at i row))) ps.

Definition dropna_at (ps : list nat) (df : DataFrame) : DataFrame :=
  {| columns := columns df;
     dtypes := dtypes df;
     rows := List.filter (complete_at ps) (rows df) |}.

(** [df[mask]]: a new frame with the rows whose mask entry is [True]. *)
Fixpoint select_rows {A} (mask : list bool) (rs : list A) : list A :=
  match rs, mask with
  | r :: rs', b :: mask' =>
      if b then r :: select_rows mask' rs' else select_rows mask' rs'
  | _, _ => []
  end.

Definition boolean_index (df : DataFrame) (mask : list bool) : DataFrame :=
  {| columns := columns df;
     dtypes := dtypes df;
     rows := select_rows mask (rows df) |}.

(** [df.rename(columns={old: new})] *)
Definition rename (old new : string) (df : DataFrame) : DataFrame :=
  {| columns := map (fun c => if String.eqb c old then new else c) (columns df);
     dtypes := dtypes df;
     rows := rows df |}.

(** [df.columns = labels] *)
Definition set_columns (labels : list string) (df : DataFrame) : DataFrame :=
  {| columns := labels; dtypes := dtypes df; rows := rows df |}.

(** [df.empty]: no column or no row. *)
Definition empty (df : DataFrame) : bool :=
  match columns df, rows df with
  | [], _ | _, [] => true
  | _, _ => false
  end.

(** [pd.api.types.is_datetime64_any_dtype] on the result of [df[c]]. *)
Definition is_datetime64_any_dtype (s : selection) : bool :=
  match s with
  | Series Datetime64 _ | Series Datetime64tz _ => true
  | _ => false
  end.

(** The frame of the columns at the positions [ps]: what [df[c]] is when the
    label [c] sits at these positions. *)
Definition columns_at (ps : list nat) (df : DataFrame) : DataFrame :=
  {| columns := map (fun i => nth i (columns df) "") ps;
     dtypes := map (fun i => nth i (dtypes df) Object) ps;
     rows := map (fun row => map (fun i => cell_at i row) ps) (rows df) |}.

(** [lo <= x <= hi], the element test of [Series.between(lo, hi)]; a missing
    or non-numeric cell is not between anything. *)
Definition between (lo hi : Q) (c : cell) : bool :=
  match c with
  | Num q => Qle_bool lo q && Qle_bool q hi
  | _ => false
  end.

End Frame.

(** ** The world the program runs in: objects, screen, exceptions *)

Module World.
Import Frame.

(** What the program shows.  Only the messages and the data handed to the
    page are recorded; titles and widgets are not. *)
Inductive message :=
| FileTooLarge            (* "File size exceeds 300MB. ..." *)
| ErrorReadingFile        (* "Error reading the file: ..." *)
| NoDatetimeInformation   (* "The data must contain a column with datetime information ..." *)
| CouldNotConvert (col : string) (* "'col' could not be converted to datetime. ..." *)
| InvalidDateCombination  (* "Invalid date combination. ..." *)
| NoValidGeoData          (* "No valid geographical data to display. ..." *)
| GeoColumnsMissing.      (* "Longitude and Latitude columns are missing." *)

Inductive event :=
| read_csv_called
| st_error (m : message)
| st_warning (m : message)
| st_write (df : DataFrame)
| folium_static (points : DataFrame).

(** The exceptions the calls of the program raise.  Only [ValueError], and
    only at lines 196-203, is caught. *)
Inductive exn :=
| ValueError | TypeError | AttributeError | KeyError | DanglingReference.

Inductive outcome (A : Type) :=
| Return (a : A)
| Raise (e : exn).
Arguments Return {A} a.
Arguments Raise {A} e.

(** Frames are objects: a name holds a reference, and an assignment to a
    column changes the object for every holder of the reference. *)
Definition ref := nat.

Record world := mk_world {
  heap : list DataFrame;
  screen : list event
}.

Definition M (A : Type) : Type := world -> outcome A * world.

Definition ret {A} (a : A) : M A := fun w => (Return a, w).

Definition bind {A B} (c : M A) (k : A -> M B) : M B :=
  fun w =>
    match c w with
    | (Return a, w') => k a w'
    | (Raise e, w') => (Raise e, w')
    end.

Definition raise {A} (e : exn) : M A := fun w => (Raise e, w).

Definition emit (ev : event) : M unit :=
  fun w => (Return tt, {| heap := heap w; screen := (screen w ++ [ev])%list |}).

(** A new object. *)
Definition new (df : DataFrame) : M ref :=
  fun w => (Return (List.length (heap w)),
            {| heap := (heap w ++ [df])%list; screen := screen w |}).

(** The object behind a reference. *)
Definition deref (r : ref) : M DataFrame :=
  fun w =>
    match nth_error (heap w) r with
    | Some df => (Return df, w)
    | None => (Raise DanglingReference, w)
    end.

(** The object behind a reference changes to [df]. *)
Definition store (r : ref) (df : DataFrame) : M unit :=
  fun w => (Return tt, {| heap := set_nth r df (heap w); screen := screen w |}).

End World.

Declare Scope prog_scope.
Delimit Scope prog_scope with prog.
Notation "x <- c ;; k" := (World.bind c (fun x => k))
  (at level 61, c at next level, right associativity) : prog_scope.
Notation "c ;; k" := (World.bind c (fun _ => k))
  (at level 61, right associativity) : prog_scope.

(** ** The program *)

Module App.
Import Text Classifier Calendar Strptime Frame World.
Local Open Scope prog_scope.

(** An uploaded file: its declared size in bytes and its bytes. *)
Record upload := mk_upload { size : N; content : string }.

(** Line 166: 300 * 1024 * 1024. *)
Definition max_upload_size : N := (300 * 1024 * 1024)%N.

Record domains := mk_domains {
  years : list N; months : list N; days : list N; times : list string
}.

(** [Series.unique]: the distinct values in order of first appearance. *)
Definition unique (l : list N) : list N :=
  fold_left (fun seen x => if existsb (N.eqb x) seen then seen
                           else (seen ++ [x])%list) l [].

(** [sorted] on integers. *)
Fixpoint insert_sorted (x : N) (l : list N) : list N :=
  match l with
  | [] => [x]
  | y :: rest => if (x <=? y)%N then x :: l else y :: insert_sorted x rest
  end.

Definition sorted (l : list N) : list N :=
  fold_right insert_sorted [] l.

(** [.dt.year] of a timestamp column.  The column has no missing value (line
    56 removed them), so only timestamps contribute. *)
Definition dt_year (values : list cell) : list N :=
  flat_map (fun c => match c with Ts t => [year t] | _ => [] end) values.

(** The element tests of [column >= bound] and [column <= bound]. *)
Definition cell_geb (bound : datetime) (c : cell) : bool :=
  match c with Ts t => dt_geb t bound | _ => false end.

Definition cell_leb (bound : datetime) (c : cell) : bool :=
  match c with Ts t => dt_leb t bound | _ => false end.

(** [a & b] on two masks. *)
Fixpoint mask_and (a b : list bool) : list bool :=
  match a, b with
  | x :: a', y :: b' => (x && y) :: mask_and a' b'
  | _, _ => []
  end.

(** Row [row] of a table with the datetime column at position [i] lies in
    the window. *)
Definition in_window (i : nat) (window : datetime * datetime)
    (row : list cell) : bool :=
  cell_geb (fst window) (cell_at i row) && cell_leb (snd window) (cell_at i row).

(** What [pd.to_datetime(values, errors='coerce')] makes of a column as a
    whole: a column of zone-less timestamps; a column of timestamps of one
    time zone (every value carries the same UTC offset); for values of
    several UTC offsets, under pandas 2, a column of Python objects; or an
    exception ([ValueError] for such values under pandas 3). *)
Inductive conversion :=
| Naive
| Aware
| Objects
| Raises (e : exn).

Section Program.

(** [pd.read_csv] on the bytes of the upload; [None] when it raises. *)
Variable read_csv : string -> option DataFrame.

(** [pd.to_datetime(values, errors='coerce')] on the values of one column:
    position by position the timestamp read, or [None] (NaT) where the value
    cannot be read as one. *)
Variable to_datetime_coerce : list cell -> list (option datetime).

(** The same call, for the column as a whole: the kind of column that comes
    back. *)
Variable to_datetime_kind : list cell -> conversion.

(** The number a text cell spells, if any, for [pd.to_numeric]. *)
Variable parse_number : string -> option Q.

(** [.min()] and [.max()] on what [df[c]] is when it is not one column of
    timestamps (a frame of several columns, of which some hold text or
    numbers): the exception raised, if any; text, for one, is not ordered
    against a missing value. *)
Variable min_max_error : DataFrame -> option exn.

Definition cell_of_timestamp (o : option datetime) : cell :=
  match o with Some t => Ts t | None => NaT end.

(** [pd.to_datetime(df[c], errors='coerce')]: a series comes back as a
    series of the kind the conversion has, with a missing value where a
    value cannot be read, unless the conversion raises; a frame with a
    repeated label cannot be assembled into dates and raises [ValueError];
    for an unknown label [df[c]] has raised [KeyError]. *)
Definition to_datetime (arg : selection) : M selection :=
  match arg with
  | Series _ values =>
      let converted := map cell_of_timestamp (to_datetime_coerce values) in
      match to_datetime_kind values with
      | Naive => ret (Series Datetime64 converted)
      | Aware => ret (Series Datetime64tz converted)
      | Objects => ret (Series Object converted)
      | Raises e => raise e
      end
  | SubFrame _ => raise ValueError
  | NoSuchLabel => raise KeyError
  end.

(** [pd.to_numeric(..., errors='coerce')] on one value: text that spells no
    number becomes missing, a timestamp becomes its integer view (the missing
    timestamp being the least 64-bit integer). *)
Definition to_numeric_cell (c : cell) : cell :=
  match c with
  | Str s => match parse_number s with Some q => Num q | None => NaN end
  | Num q => Num q
  | NaN => NaN
  | Ts t => Num (inject_Z (epoch_ns t))
  | NaT => Num (inject_Z (-9223372036854775808))
  end.

(** [pd.to_numeric(df[c], errors='coerce')]: defined on a series only; a
    frame raises [TypeError]. *)
Definition to_numeric (arg : selection) : M selection :=
  match arg with
  | Series _ values => ret (Series Float64 (map to_numeric_cell values))
  | SubFrame _ => raise TypeError
  | NoSuchLabel => raise TypeError
  end.

(** [df[c] = series] on a frame value, for a label that occurs once. *)
Definition setitem (c : string) (s : selection) (df : DataFrame) : DataFrame :=
  match positions c (columns df), s with
  | [i], Series dt values => setitem_at i dt values df
  | _, _ => df
  end.

(** [df.dropna(subset=labels)] *)
Definition dropna (labels : list string) (df : DataFrame) : DataFrame :=
  dropna_at (flat_map (fun c => positions c (columns df)) labels) df.

(** The values of a series. *)
Definition values_of (s : selection) : list cell :=
  match s with Series _ values => values | _ => [] end.

(** [preprocess_data] (lines 44-64). *)
Definition preprocess_data (uploaded_file : upload) : M (option DataFrame) :=
  emit read_csv_called ;;
  match read_csv (content uploaded_file) with
  | None => emit (st_error ErrorReadingFile) ;; ret None
  | Some data =>
      let data := set_columns (map lower (columns data)) data in
      match detect_datetime_column (columns data) with
      | Some (String _ _ as datetime_col) =>
          converted <- to_datetime (getitem data datetime_col) ;;
          let data := setitem datetime_col converted data in
          let data := dropna [datetime_col] data in
          if negb (is_datetime64_any_dtype (getitem data datetime_col)) then
            emit (st_warning (CouldNotConvert datetime_col)) ;; ret None
          else
            ret (Some (rename datetime_col "datetime" data))
      | Some EmptyString | None =>
          emit (st_warning NoDatetimeInformation) ;; ret None
      end
  end.

(** [plot_folium_map_with_geojson] (lines 72-87, 155-157).  The argument is
    the caller's object: lines 77 and 78 assign to its columns, lines 79 and
    80 make new objects and rebind the local name to them. *)
Definition plot_folium_map_with_geojson (filtered_data : ref) : M unit :=
  df <- deref filtered_data ;;
  if has_column df "longitude" && has_column df "latitude" then
    latitude <- to_numeric (getitem df "latitude") ;;
    store filtered_data (setitem "latitude" latitude df) ;;
    df <- deref filtered_data ;;
    longitude <- to_numeric (getitem df "longitude") ;;
    store filtered_data (setitem "longitude" longitude df) ;;
    df <- deref filtered_data ;;
    dropped <- new (dropna ["latitude"; "longitude"] df) ;;
    df <- deref dropped ;;
    in_range <- new (boolean_index df
                  (mask_and
                     (map (between (-90) 90) (values_of (getitem df "latitude")))
                     (map (between (-180) 180) (values_of (getitem df "longitude"))))) ;;
    df <- deref in_range ;;
    if empty df then emit (st_error NoValidGeoData)
    else emit (folium_static df)
  else emit (st_warning GeoColumnsMissing).

(** Lines 179-182: what the select boxes offer. *)
Definition selectable (processed_data : DataFrame) : M domains :=
  match getitem processed_data "datetime" with
  | Series _ values =>
      ret {| years := sorted (unique (dt_year values));
             months := range 1%N 13%N 1%N;
             days := range 1%N 32%N 1%N;
             times := generate_time_options |}
  | _ => raise AttributeError
  end.

(** Lines 176-177: [processed_data['datetime'].min()] and [.max()].  The
    two values are not used afterwards; on a column of timestamps the calls
    return. *)
Definition datetime_range (processed_data : DataFrame) : M unit :=
  match getitem processed_data "datetime" with
  | NoSuchLabel => raise KeyError
  | Series Datetime64 _ | Series Datetime64tz _ => ret tt
  | Series _ _ | SubFrame _ =>
      match min_max_error
              (columns_at (positions "datetime" (columns processed_data))
                          processed_data) with
      | Some e => raise e
      | None => ret tt
      end
  end.

(** Lines 199-202: the rows of the window.  The bounds are zone-less
    [datetime] values.  A column of zone-less timestamps is compared with
    them value by value, a missing value comparing false.  A column of
    timestamps of a time zone cannot be compared with a zone-less bound and
    the comparison raises [TypeError]; so does the comparison of a column
    of text, numbers or zoned Python objects, or of the frame a repeated
    label gives (only one of its columns holds timestamps). *)
Definition filter (processed_data : DataFrame) (window : datetime * datetime)
  : outcome DataFrame :=
  let '(start_datetime, end_datetime) := window in
  match getitem processed_data "datetime" with
  | NoSuchLabel => Raise KeyError
  | Series Datetime64 column =>
      Return (boolean_index processed_data
                (mask_and (map (cell_geb start_datetime) column)
                          (map (cell_leb end_datetime) column)))
  | Series _ _ => Raise TypeError
  | SubFrame _ => Raise TypeError
  end.

(** [historical_data] (lines 160-211), given the uploaded file, if any, and
    what the user picks in the select boxes for the two bounds.  The result
    is the reference held by [filtered_data] when line 211 has run, which is
    what the charts of lines 213-315 read; [None] when the function has
    returned before.  The [try] of lines 196-203 catches a [ValueError] of
    the two [strptime] calls and of the comparisons, and nothing else. *)
Definition historical_data (uploaded_file : option upload)
    (startParts endParts : parts) : M (option ref) :=
  match uploaded_file with
  | None => ret None
  | Some uploaded_file =>
      if (max_upload_size <? size uploaded_file)%N then
        emit (st_error FileTooLarge) ;; ret None
      else
        processed_data <- preprocess_data uploaded_file ;;
        match processed_data with
        | None => ret None
        | Some processed_data =>
            if empty processed_data then ret None
            else
              datetime_range processed_data ;;
              _ <- selectable processed_data ;;
              match buildWindow startParts endParts with
              | inl _ => emit (st_error InvalidDateCombination) ;; ret None
              | inr window =>
                  match filter processed_data window with
                  | Raise ValueError =>
                      emit (st_error InvalidDateCombination) ;; ret None
                  | Raise e => raise e
                  | Return selected =>
                      filtered_data <- new selected ;;
                      df <- deref filtered_data ;;
                      emit (st_write df) ;;
                      plot_folium_map_with_geojson filtered_data ;;
                      ret (Some filtered_data)
                  end
              end
        end
  end.

(** The world after [pd.read_csv] has been entered and [evs] shown. *)
Definition after_read (w : world) (evs : list event) : world :=
  {| heap := heap w; screen := ((screen w ++ [read_csv_called]) ++ evs)%list |}.

(** The table [preprocess_data] builds from [data] when the datetime column
    is [c] at position [i] and its conversion gives timestamps: lines 52,
    55, 56 and 60 in one expression. *)
Definition normalized (c : string) (i : nat) (data : DataFrame) : DataFrame :=
  {| columns := map (fun x => if String.eqb x c then "datetime" else x)
                    (map lower (columns data));
     dtypes := set_nth i
                 (match to_datetime_kind (map (cell_at i) (rows data)) with
                  | Aware => Datetime64tz
                  | _ => Datetime64
                  end)
                 (dtypes data);
     rows := List.filter (complete_at [i])
               (assign_rows i
                  (map cell_of_timestamp
                       (to_datetime_coerce (map (cell_at i) (rows data))))
                  (rows data)) |}.

(** *** The specification's interfaces, read off a run of the program *)

Inductive normalize_error :=
| ParseError
| SchemaError_no_datetime_column
| SchemaError_datetime_conversion_failed.

(** [normalize]: [preprocess_data] run on its own.  The error is the message
    shown before [None] is returned; the outer [None] is an exception that
    [preprocess_data] lets through. *)
Definition normalize (uploaded_file : upload)
  : option (normalize_error + DataFrame) :=
  match preprocess_data uploaded_file (mk_world [] []) with
  | (Return (Some data), _) => Some (inr data)
  | (Return None, w) =>
      match screen w with
      | [read_csv_called; st_error ErrorReadingFile] => Some (inl ParseError)
      | [read_csv_called; st_warning NoDatetimeInformation] =>
          Some (inl SchemaError_no_datetime_column)
      | [read_csv_called; st_warning (CouldNotConvert _)] =>
          Some (inl SchemaError_datetime_conversion_failed)
      | _ => None
      end
  | (Raise _, _) => None
  end.

Inductive GeoResult :=
| Points (points : DataFrame)
| NoValidPoints
| MissingColumns.

(** [sanitize]: [plot_folium_map_with_geojson] run on a table the caller
    holds.  Beside the status it gives the caller's table as it is when the
    call has returned; [None] is an exception let through. *)
Definition sanitize (table : DataFrame) : option (GeoResult * DataFrame) :=
  match plot_folium_map_with_geojson 0 (mk_world [table] []) with
  | (Return _, w) =>
      match screen w, nth_error (heap w) 0 with
      | [st_warning GeoColumnsMissing], Some after => Some (MissingColumns, after)
      | [st_error NoValidGeoData], Some after => Some (NoValidPoints, after)
      | [folium_static points], Some after => Some (Points points, after)
      | _, _ => None
      end
  | (Raise _, _) => None
  end.

(** A row with latitude at position [i] and longitude at position [j]
    survives numeric coercion and the range check. *)
Definition valid_point (i j : nat) (row : list cell) : bool :=
  between (-90) 90 (to_numeric_cell (cell_at i row)) &&
  between (-180) 180 (to_numeric_cell (cell_at j row)).

(** The row with its latitude and longitude cells coerced to numbers. *)
Definition coerced_point (i j : nat) (row : list cell) : list cell :=
  set_cell j (to_numeric_cell (cell_at j row))
    (set_cell i (to_numeric_cell (cell_at i row)) row).

(** What line 55 and line 56 make of one row, given the value
    [pd.to_datetime] has for it. *)
Definition keep_parsed (i : nat) (entry : list cell * option datetime)
  : list (list cell) :=
  match entry with
  | (row, Some t) => [set_cell i (Ts t) row]
  | (row, None) => []
  end.

End Program.

End App.

(** ** Sample readers

    Stand-ins for the pandas readers the program is parametric in, used to
    run the program on concrete uploads: comma-separated text with every
    field read as text, timestamps in the one layout "YYYY-MM-DD HH:MM:SS"
    with an optional UTC offset "Z", "+HH:MM" or "-HH:MM" after it, and
    plain decimal numbers. *)

Module Sample.
Import Calendar Strptime Frame.

Definition nl : string := String (ascii_of_nat 10) EmptyString.

Fixpoint split_on (sep : ascii) (s : string) : list string :=
  match s with
  | EmptyString => [EmptyString]
  | String c rest =>
      if Ascii.eqb c sep then EmptyString :: split_on sep rest
      else match split_on sep rest with
           | [] => [String c EmptyString]
           | w :: ws => String c w :: ws
           end
  end.

Definition field (s : string) : cell :=
  match s with EmptyString => NaN | _ => Str s end.

(** The lines of a text; the empty piece after a final newline is not one. *)
Definition lines (text : string) : list string :=
  let ls := split_on (ascii_of_nat 10) text in
  match rev ls with
  | EmptyString :: front => rev front
  | _ => ls
  end.

Definition read_csv (text : string) : option DataFrame :=
  match lines text with
  | [] => None
  | header :: body =>
      let labels := split_on "," header in
      let rs := map (fun line => map field (split_on "," line)) body in
      if forallb (fun r => List.length r =? List.length labels) rs
      then Some (mk_frame labels (map (fun _ => Object) labels) rs)
      else None
  end.

(** The part of a timestamp text after its first 19 characters. *)
Definition zone_part (s : string) : string :=
  substring 19 (String.length s - 19) s.

Definition is_zone (z : string) : bool :=
  match z with
  | EmptyString => true
  | String c EmptyString => Ascii.eqb c "Z"
  | String sign (String h1 (String h2 (String colon (String m1 (String m2
      EmptyString))))) =>
      (Ascii.eqb sign "+" || Ascii.eqb sign "-") && Ascii.eqb colon ":" &&
      forallb (fun c => match digit_of c with Some _ => true | None => false end)
              [h1; h2; m1; m2]
  | _ => false
  end.

(** The wall-clock time a text spells, with its UTC offset ("" for none). *)
Definition timestamp_of_text (s : string) : option (datetime * string) :=
  if is_zone (zone_part s)
  then option_map (fun t => (t, zone_part s)) (strptime (substring 0 19 s))
  else None.

Definition to_datetime_coerce (values : list cell) : list (option datetime) :=
  map (fun c => match c with
                | Str s => option_map fst (timestamp_of_text s)
                | Ts t => Some t
                | _ => None
                end) values.

(** The UTC offsets of the values that can be read. *)
Definition zones (values : list cell) : list string :=
  flat_map (fun c => match c with
                     | Str s => match timestamp_of_text s with
                                | Some (_, z) => [z]
                                | None => []
                                end
                     | _ => []
                     end) values.

(** No offset at all: zone-less timestamps; one offset throughout:
    timestamps of that zone; several: the object column of pandas 2. *)
Definition to_datetime_kind (values : list cell) : App.conversion :=
  match zones values with
  | [] => App.Naive
  | z :: rest =>
      if forallb (String.eqb z) rest
      then (if String.eqb z "" then App.Naive else App.Aware)
      else App.Objects
  end.

(** Text next to a missing value in one column is not ordered. *)
Definition min_max_error (df : DataFrame) : option World.exn :=
  if existsb
       (fun i =>
          existsb (fun row => match cell_at i row with
                              | Str _ => true
                              | _ => false
                              end) (rows df)
          && existsb (fun row => isna (cell_at i row)) (rows df))
       (seq 0 (List.length (columns df)))
  then Some World.TypeError else None.

(** The value of a text of digits, read after [acc]. *)
Fixpoint digits (acc : N) (s : string) : option N :=
  match s with
  | EmptyString => Some acc
  | String c rest =>
      match digit_of c with
      | Some d => digits (10 * acc + d)%N rest
      | None => None
      end
  end.

Definition unsigned_number (s : string) : option Q :=
  match split_on "." s with
  | [String _ _ as whole] =>
      option_map (fun n => inject_Z (Z.of_N n)) (digits 0 whole)
  | [String _ _ as whole; String _ _ as part] =>
      match digits 0 whole, digits 0 part with
      | Some n, Some f =>
          Some (Qplus (inject_Z (Z.of_N n))
                  (Qmake (Z.of_N f) (Pos.pow 10 (Pos.of_nat (String.length part)))))
      | _, _ => None
      end
  | _ => None
  end.

Definition parse_number (s : string) : option Q :=
  match s with
  | String "-" rest => option_map Qopp (unsigned_number rest)
  | _ => unsigned_number s
  end.

End Sample.

(** ** The select boxes before the user touches them, and the charts *)

Module Dashboard.
Import Text Classifier Calendar Strptime Frame World App.

(** Lines 185-188: the start boxes are created with [index=0], so each holds
    its first option. *)
Definition default_startParts (offered : domains) : parts :=
  {| p_year := hd 0%N (years offered);
     p_month := hd 0%N (months offered);
     p_day := hd 0%N (days offered);
     p_time := hd "" (times offered) |}.

(** Lines 191-194: the end boxes are created with [index=len(options) - 1],
    so each holds its last option. *)
Definition default_endParts (offered : domains) : parts :=
  {| p_year := last (years offered) 0%N;
     p_month := last (months offered) 0%N;
     p_day := last (days offered) 0%N;
     p_time := last (times offered) "" |}.


(** What the chart section (lines 213-315) hands to the page: the charts,
    each with the columns it is drawn from, and the two texts of the 3D
    part. *)
Inductive chart :=
| histogram (x : string)
| scatter (x y : string)
| line (x y : string)
| bar (x y : string)
| scatter_3d (x y z : string).

Inductive shown :=
| plotly_chart (c : chart)
| no_suitable_columns              (* "No suitable columns found for traffic volume. ..." *)
| detected_columns (cols : list string). (* "Detected traffic volume columns: ..." *)

Inductive chart_exn := IndexError.

(** What the user picks in the chart select boxes and the orientation radio
    button. *)
Record choices := mk_choices {
  histogram_column : string;
  scatter_x : string; scatter_y : string;
  lineplot_x : string; lineplot_y : string;
  bar_column : string;
  bar_vertical : bool
}.

(** A part of the section: what it shows, and the exception that ends it, if
    any. *)
Definition part : Type := list shown * option chart_exn.

(** One part after another; nothing runs after an exception. *)
Definition and_then (a b : part) : part :=
  match a with
  | (out, Some e) => (out, Some e)
  | (out, None) => ((out ++ fst b)%list, snd b)
  end.

(** Lines 244-248. *)
Definition histogram_part (filtered_data : DataFrame) (c : choices) : part :=
  if negb (empty filtered_data)
  then ([plotly_chart (histogram (histogram_column c))], None)
  else ([], None).

(** Lines 251-257. *)
Definition scatter_part (filtered_data : DataFrame) (c : choices) : part :=
  if negb (empty filtered_data)
  then ([plotly_chart (scatter (scatter_x c) (scatter_y c))], None)
  else ([], None).

(** Lines 260-265. *)
Definition line_part (filtered_data : DataFrame) (c : choices) : part :=
  if negb (empty filtered_data)
  then ([plotly_chart (line (lineplot_x c) (lineplot_y c))], None)
  else ([], None).

(** Lines 280-315: the 3D part, inside the [if] of the bar chart.  Line 292
    converts a column that already holds timestamps and changes nothing. *)
Definition scatter_3d_part (processed_data : DataFrame) : part :=
  if has_column processed_data "region_id" && has_column processed_data "datetime"
  then
    let traffic_volume_columns :=
      detect_traffic_volume_columns (columns processed_data) in
    ((match traffic_volume_columns with
      | [] => [no_suitable_columns]
      | _ :: _ => [detected_columns traffic_volume_columns]
      end
      ++ map (fun col => plotly_chart (scatter_3d col "datetime" "region_id"))
             traffic_volume_columns)%list,
     None)
  else ([], None).

(** Lines 268-315.  [filtered_data.columns[1]] is an [IndexError] on a table
    of fewer than two columns. *)
Definition bar_part (processed_data filtered_data : DataFrame) (c : choices)
  : part :=
  if negb (empty filtered_data)
  then
    match nth_error (columns filtered_data) 1 with
    | None => ([], Some IndexError)
    | Some second =>
        and_then
          ([plotly_chart (if bar_vertical c then bar (bar_column c) second
                          else bar second (bar_column c))], None)
          (scatter_3d_part processed_data)
    end
  else ([], None).

(** The chart section, for the table [preprocess_data] returned and the
    table the window selected. *)
Definition charts (processed_data filtered_data : DataFrame) (c : choices)
  : part :=
  and_then (histogram_part filtered_data c)
    (and_then (scatter_part filtered_data c)
       (and_then (line_part filtered_data c)
          (bar_part processed_data filtered_data c))).

End Dashboard.

(** * Properties *)

Module TextFacts.
Import Text.

Lemma starts_with_spec kw s :
  starts_with kw s = true <-> exists post, s = kw ++ post.
Proof.
  revert s; induction kw as [|a kw IH]; intros s; simpl.
  - split; [intros _; now exists s | reflexivity].
  - destruct s as [|b s].
    + split; [discriminate | intros [post H]; discriminate].
    + rewrite andb_true_iff, Ascii.eqb_eq, IH. split.
      * intros [-> [post ->]]. now exists post.
      * intros [post H]. injection H as -> ->. split; [reflexivity | now exists post].
Qed.

Lemma str_in_spec kw s : str_in kw s = true <-> Substring kw s.
Proof.
  induction s as [|c s IH]; simpl.
  - rewrite orb_false_r, starts_with_spec. split.
    + intros [post H]. now exists "", post.
    + intros [pre [post H]]. destruct pre; simpl in H.
      * now exists post.
      * discriminate.
  - rewrite orb_true_iff, starts_with_spec, IH. split.
    + intros [[post H] | [pre [post H]]].
      * now exists "", post.
      * exists (String c pre), post. simpl. now rewrite H.
    + intros [pre [post H]]. destruct pre as [|d pre]; simpl in H.
      * left. now exists post.
      * right. injection H as _ H. now exists pre, post.
Qed.

Lemma any_keyword_in_spec keywords col :
  any_keyword_in keywords col = true <-> Mentions keywords col.
Proof.
  unfold any_keyword_in, Mentions. rewrite existsb_exists.
  split; intros [kw [Hin H]]; exists kw; split; auto; now apply str_in_spec.
Qed.

Lemma any_keyword_in_false keywords col :
  any_keyword_in keywords col = false <-> ~ Mentions keywords col.
Proof.
  rewrite <- any_keyword_in_spec. destruct (any_keyword_in keywords col); split;
    congruence.
Qed.

End TextFacts.

Module ClassifierFacts.
Import Text TextFacts Classifier.

Lemma append_assoc (a b c : string) : (a ++ b) ++ c = a ++ (b ++ c).
Proof. induction a as [|x a IH]; simpl; [reflexivity | now rewrite IH]. Qed.

Lemma Substring_trans a b s : Substring a b -> Substring b s -> Substring a s.
Proof.
  intros [p1 [q1 ->]] [p2 [q2 ->]].
  exists (p2 ++ p1), (q1 ++ q2).
  now rewrite !append_assoc.
Qed.

Lemma columns_mentioning_In keywords columns h :
  In h (columns_mentioning keywords columns) <->
  In h columns /\ Mentions keywords h.
Proof.
  induction columns as [|col rest IH]; simpl.
  - tauto.
  - destruct (any_keyword_in keywords col) eqn:E.
    + apply any_keyword_in_spec in E. simpl. rewrite IH. split.
      * intros [-> | [H1 H2]]; auto.
      * intros [[-> | H1] H2]; auto.
    + apply any_keyword_in_false in E. rewrite IH. split.
      * intros [H1 H2]; auto.
      * intros [[-> | H1] H2]; [contradiction | auto].
Qed.

Lemma columns_mentioning_Subseq keywords columns :
  Subseq columns (columns_mentioning keywords columns).
Proof.
  induction columns as [|col rest IH]; simpl.
  - constructor.
  - destruct (any_keyword_in keywords col); now constructor.
Qed.

Lemma columns_mentioning_count keywords columns h :
  count_occ string_dec (columns_mentioning keywords columns) h =
  if any_keyword_in keywords h then count_occ string_dec columns h else 0.
Proof.
  induction columns as [|col rest IH]; simpl.
  - now destruct (any_keyword_in keywords h).
  - destruct (any_keyword_in keywords col) eqn:E; simpl;
      destruct (string_dec col h) as [->|Hne]; rewrite IH; try rewrite E; auto.
Qed.

Lemma Subseq_In {A} (l out : list A) x : Subseq l out -> In x out -> In x l.
Proof.
  induction 1; simpl; intros Hin; auto.
  destruct Hin; auto.
Qed.

Lemma Subseq_NoDup {A} (l out : list A) : Subseq l out -> NoDup l -> NoDup out.
Proof.
  induction 1; intros Hnd; auto.
  - inversion Hnd; auto.
  - inversion Hnd as [|? ? Hx Hl]; subst. constructor; auto.
    intros Hin. apply Hx. eapply Subseq_In; eauto.
Qed.

Lemma first_mentioning_spec keywords columns :
  (first_mentioning keywords columns = None /\
   forall h, In h columns -> ~ Mentions keywords h)
  \/
  (exists pre c post,
      columns = (pre ++ c :: post)%list /\
      first_mentioning keywords columns = Some c /\
      Mentions keywords c /\
      forall h, In h pre -> ~ Mentions keywords h).
Proof.
  induction columns as [|col rest IH]; simpl.
  - left. split; [reflexivity | intros h []].
  - destruct (any_keyword_in keywords col) eqn:E.
    + right. exists [], col, rest. apply any_keyword_in_spec in E.
      repeat split; auto; try (now intros h []).
    + apply any_keyword_in_false in E.
      destruct IH as [[Hn Hall] | [pre [c [post [Heq [Hf [Hc Hpre]]]]]]].
      * left. split; auto. intros h [<- | Hin]; auto.
      * right. exists (col :: pre), c, post. subst rest.
        repeat split; auto. intros h [<- | Hin]; auto.
Qed.

Lemma first_mentioning_ext kws1 kws2 columns :
  (forall col, any_keyword_in kws1 col = any_keyword_in kws2 col) ->
  first_mentioning kws1 columns = first_mentioning kws2 columns.
Proof.
  intros H. induction columns as [|col rest IH]; simpl; auto.
  rewrite H, IH. reflexivity.
Qed.

Lemma first_mentioning_at keywords pre h post :
  Mentions keywords h ->
  (forall c, In c pre -> ~ Mentions keywords c) ->
  first_mentioning keywords (pre ++ h :: post)%list = Some h.
Proof.
  intros Hh. induction pre as [|c pre IH]; simpl; intros Hpre.
  - apply any_keyword_in_spec in Hh. now rewrite Hh.
  - assert (E : any_keyword_in keywords c = false)
      by (apply any_keyword_in_false, Hpre; now left).
    rewrite E. apply IH. intros c' Hc'. apply Hpre. now right.
Qed.

Lemma datetime_keywords_reduce col :
  any_keyword_in datetime_keywords col = any_keyword_in ["timestamp"; "date"] col.
Proof.
  unfold any_keyword_in, datetime_keywords. cbn [existsb].
  set (s := lower col).
  assert (H1 : str_in "datetime" s = true -> str_in "date" s = true).
  { rewrite !str_in_spec. apply Substring_trans. now exists "", "time". }
  assert (H2 : str_in "date_time" s = true -> str_in "date" s = true).
  { rewrite !str_in_spec. apply Substring_trans. now exists "", "_time". }
  destruct (str_in "datetime" s), (str_in "date_time" s), (str_in "timestamp" s),
    (str_in "date" s); simpl; auto;
    try (specialize (H1 eq_refl); discriminate);
    try (specialize (H2 eq_refl); discriminate).
Qed.

Lemma lower_ascii_variant (a : ascii) : CaseVariant a (lower_ascii a).
Proof.
  unfold lower_ascii, CaseVariant.
  destruct ((65 <=? nat_of_ascii a) && (nat_of_ascii a <=? 90)) eqn:E;
    [| now left].
  apply andb_true_iff in E. destruct E as [E1 E2].
  apply Nat.leb_le in E1, E2. right. left. split; [lia |].
  apply nat_ascii_embedding. lia.
Qed.

Lemma lower_ascii_fixed (b : ascii) :
  lower_ascii b = b -> ~ 65 <= nat_of_ascii b <= 90.
Proof.
  unfold lower_ascii. intros H [H1 H2].
  apply Nat.leb_le in H1, H2. rewrite H1, H2 in H. cbn [andb] in H.
  apply (f_equal nat_of_ascii) in H.
  apply Nat.leb_le in H2.
  rewrite nat_ascii_embedding in H by lia. lia.
Qed.

Lemma lower_ascii_of_variant (a b : ascii) :
  CaseVariant a b -> lower_ascii b = b -> lower_ascii a = b.
Proof.
  intros [-> | [[Ha Hb] | [Hb _]]] Hfix; [exact Hfix | |].
  - unfold lower_ascii.
    assert (E : (65 <=? nat_of_ascii a) && (nat_of_ascii a <=? 90) = true)
      by (apply andb_true_iff; split; apply Nat.leb_le; lia).
    rewrite E, <- Hb. apply ascii_nat_embedding.
  - now apply lower_ascii_fixed in Hfix.
Qed.

Lemma lower_same (s : string) : SameIgnoringCase s (lower s).
Proof.
  induction s as [|a s IH]; simpl; constructor; auto using lower_ascii_variant.
Qed.

Lemma same_lower (mid kw : string) :
  SameIgnoringCase mid kw -> lower kw = kw -> lower mid = kw.
Proof.
  induction 1 as [|a b s t Hab Hst IH]; simpl; [reflexivity |].
  intros [= Hb Ht]. now rewrite (lower_ascii_of_variant a b Hab Hb), IH.
Qed.

Lemma lower_app (a b : string) : lower (a ++ b) = lower a ++ lower b.
Proof. induction a as [|x a IH]; simpl; [reflexivity | now rewrite IH]. Qed.

Lemma lower_split (s x y : string) :
  lower s = x ++ y -> exists a b, s = a ++ b /\ lower a = x /\ lower b = y.
Proof.
  revert s. induction x as [|c x IH]; intros s H.
  - now exists "", s.
  - destruct s as [|d s]; [discriminate |]. simpl in H. injection H as Hc H.
    destruct (IH s H) as (a & b & -> & Ha & Hb).
    exists (String d a), b. simpl. now rewrite Hc, Ha.
Qed.

(** For a keyword without capital letters, Python's test
    [keyword in col.lower()] is case-insensitive containment. *)
Lemma Substring_lower (kw col : string) :
  lower kw = kw -> Substring kw (lower col) <-> ContainsIgnoringCase col kw.
Proof.
  intros Hkw. split.
  - intros (pre & post & H).
    destruct (lower_split _ _ _ H) as (a & r & -> & _ & Hr).
    destruct (lower_split _ _ _ Hr) as (m & q & -> & Hm & _).
    exists a, m, q. split; [reflexivity |]. rewrite <- Hm. apply lower_same.
  - intros (pre & mid & post & -> & Hsame).
    exists (lower pre), (lower post).
    now rewrite !lower_app, (same_lower _ _ Hsame Hkw).
Qed.

Lemma Mentions_datetime (h : string) :
  Mentions datetime_keywords h <-> DatetimeHeader h.
Proof.
  unfold Mentions, DatetimeHeader, datetime_keywords.
  rewrite <- !Substring_lower by reflexivity. split.
  - intros (kw & [<- | [<- | [<- | [<- | []]]]] & H); auto.
  - intros [H | [H | [H | H]]]; eexists; (split; [| exact H]); simpl; auto.
Qed.

Lemma Mentions_volume (h : string) :
  Mentions volume_keywords h <-> VolumeHeader h.
Proof.
  unfold Mentions, VolumeHeader, volume_keywords.
  rewrite <- !Substring_lower by reflexivity. split.
  - intros (kw & [<- | [<- | [<- | [<- | []]]]] & H); auto.
  - intros [H | [H | [H | H]]]; eexists; (split; [| exact H]); simpl; auto.
Qed.

Lemma columns_mentioning_Selects keywords columns :
  Selects (Mentions keywords) columns (columns_mentioning keywords columns).
Proof.
  induction columns as [|col rest IH]; simpl; [constructor |].
  destruct (any_keyword_in keywords col) eqn:E.
  - apply any_keyword_in_spec in E. now constructor.
  - apply any_keyword_in_false in E. now constructor.
Qed.

Lemma Selects_iff {A} (P Q : A -> Prop) (l out : list A) :
  (forall x, P x <-> Q x) -> Selects P l out -> Selects Q l out.
Proof.
  intros H. induction 1 as [|x l out Hx _ IH|x l out Hx _ IH].
  - constructor.
  - apply Selects_take; [now apply H | exact IH].
  - apply Selects_skip; [now rewrite <- H | exact IH].
Qed.

(** C1, amended.  For every header list, [classify] reports as datetime
    column the first header, in header order, that contains one of
    "datetime", "date_time", "timestamp", "date" case-insensitively (none
    when no header does), and as volume columns the headers that contain one
    of "traffic_volume", "volume", "traffic", "count" case-insensitively: the
    header at every position where the test holds and no other, in header
    order.  A header is therefore reported as often as it is listed: once
    when it is listed once, whatever the number of keywords it contains, so
    the answer is free of duplicates exactly when no reported header is
    listed twice. *)
Theorem classify_spec (columns : list string) :
  ((datetimeColumn (classify columns) = None /\
    forall h, In h columns -> ~ DatetimeHeader h)
   \/
   (exists pre c post,
       columns = (pre ++ c :: post)%list /\
       datetimeColumn (classify columns) = Some c /\
       DatetimeHeader c /\
       forall h, In h pre -> ~ DatetimeHeader h))
  /\
  (Selects VolumeHeader columns (volumeColumns (classify columns)) /\
   Subseq columns (volumeColumns (classify columns)) /\
   (forall h, In h (volumeColumns (classify columns)) <->
              In h columns /\ VolumeHeader h) /\
   (forall h, VolumeHeader h ->
              count_occ string_dec (volumeColumns (classify columns)) h
              = count_occ string_dec columns h) /\
   (forall h, ~ VolumeHeader h ->
              count_occ string_dec (volumeColumns (classify columns)) h = 0) /\
   (NoDup (volumeColumns (classify columns)) <->
    forall h, VolumeHeader h -> count_occ string_dec columns h <= 1)).
Proof.
  split.
  - destruct (first_mentioning_spec datetime_keywords columns)
      as [[Hn Hall] | (pre & c & post & Heq & Hf & Hc & Hpre)].
    + left. split; [exact Hn |]. intros h Hin. rewrite <- Mentions_datetime. auto.
    + right. exists pre, c, post. split; [exact Heq |]. split; [exact Hf |].
      split; [now apply Mentions_datetime |].
      intros h Hin. rewrite <- Mentions_datetime. auto.
  - simpl. unfold detect_traffic_volume_columns.
    split; [eapply Selects_iff; [apply Mentions_volume |];
            apply columns_mentioning_Selects |].
    split; [apply columns_mentioning_Subseq |].
    split; [intros h; rewrite <- Mentions_volume; apply columns_mentioning_In |].
    split; [| split].
    + intros h Hm. rewrite columns_mentioning_count.
      apply Mentions_volume, any_keyword_in_spec in Hm. now rewrite Hm.
    + intros h Hm. rewrite columns_mentioning_count.
      rewrite <- Mentions_volume in Hm. apply any_keyword_in_false in Hm.
      now rewrite Hm.
    + rewrite (NoDup_count_occ string_dec). split.
      * intros H h Hm. specialize (H h). rewrite columns_mentioning_count in H.
        apply Mentions_volume, any_keyword_in_spec in Hm. now rewrite Hm in H.
      * intros H h. rewrite columns_mentioning_count.
        destruct (any_keyword_in volume_keywords h) eqn:E; [| lia].
        apply H, Mentions_volume, any_keyword_in_spec, E.
Qed.

(** The claim C1 fails on a header list that names a volume column twice
    (two headers of a file can be equal once line 52 has lower-cased them):
    both are reported, so the answer has a duplicate. *)
Lemma classify_repeats_repeated_header :
  VolumeHeader "volume" /\
  volumeColumns (classify ["volume"; "volume"]) = ["volume"; "volume"] /\
  ~ NoDup (volumeColumns (classify ["volume"; "volume"])).
Proof.
  split; [| split].
  - apply Mentions_volume. exists "volume". split; [simpl; auto |].
    now exists "", "".
  - reflexivity.
  - simpl. intros H. inversion H as [|x l Hx _]; subst. apply Hx. now left.
Qed.

(** C10.  Datetime detection with the four keywords "datetime", "date_time",
    "timestamp", "date" gives, on every header list, the result of detection
    with the two keywords "timestamp", "date", since "date" occurs in
    "datetime" and in "date_time".  A header that merely contains "date" is
    therefore taken as the datetime column when no earlier header matches:
    "validated" and "update_count" are. *)
Theorem datetime_keywords_redundant :
  (forall columns,
      detect_datetime_column columns
      = first_mentioning ["timestamp"; "date"] columns) /\
  (forall pre h post,
      Substring "date" (lower h) ->
      (forall c, In c pre -> ~ Mentions datetime_keywords c) ->
      detect_datetime_column (pre ++ h :: post)%list = Some h) /\
  detect_datetime_column ["validated"] = Some "validated" /\
  detect_datetime_column ["id"; "update_count"; "timestamp"] = Some "update_count".
Proof.
  repeat split.
  - intros columns. apply first_mentioning_ext, datetime_keywords_reduce.
  - intros pre h post Hh Hpre. apply first_mentioning_at; auto.
    exists "date". split; auto. simpl. tauto.
Qed.

End ClassifierFacts.

Module StrptimeFacts.
Import Calendar Strptime.
Local Open Scope N_scope.

Lemma range_from_In (fuel : nat) (start stop n : N) :
  (N.to_nat (stop - start) <= fuel)%nat -> start <= n < stop ->
  In n (range_from fuel start stop 1).
Proof.
  revert start. induction fuel as [|fuel IH]; intros start Hf Hn; [lia |].
  simpl. destruct (N.ltb_spec start stop); [| lia].
  destruct (N.eq_dec start n) as [-> | Hne]; [now left | right].
  apply IH; lia.
Qed.

Lemma range_In (start stop n : N) :
  start <= n < stop -> In n (range start stop 1).
Proof. intros Hn. apply range_from_In; [reflexivity | assumption]. Qed.

(** A year of four digits is printed as the four characters [%Y] reads
    back. *)
Lemma re_Y_str (y : N) (rest : string) :
  1000 <= y <= 9999 -> re_Y (str y ++ rest) = [(y, rest)].
Proof.
  intros Hy.
  assert (H : forallb
                (fun y =>
                   match str y with
                   | String c1 (String c2 (String c3 (String c4 EmptyString))) =>
                       match digit_of c1, digit_of c2, digit_of c3, digit_of c4 with
                       | Some a, Some b, Some c, Some d =>
                           1000 * a + 100 * b + 10 * c + d =? y
                       | _, _, _, _ => false
                       end
                   | _ => false
                   end) (range 1000 10000 1) = true) by (vm_compute; reflexivity).
  rewrite forallb_forall in H.
  assert (Hin : In y (range 1000 10000 1)) by (apply range_In; lia).
  pose proof (H y Hin) as Hy'. cbv beta in Hy'.
  destruct (str y) as [|c1 [|c2 [|c3 [|c4 [|? ?]]]]]; try discriminate.
  cbn [append]. unfold re_Y.
  destruct (digit_of c1), (digit_of c2), (digit_of c3), (digit_of c4);
    try discriminate.
  apply N.eqb_eq in Hy'. now rewrite Hy'.
Qed.

(** The text after the year, for a month, a day and a time the select boxes
    offer, is read back as that month and day and a time of day. *)
Lemma re_tail_selected (m d : N) (time : string) :
  In m (range 1 13 1) -> In d (range 1 32 1) -> In time generate_time_options ->
  exists H M rest,
    re_tail ("-" ++ fmt_02d m ++ "-" ++ fmt_02d d ++ " " ++ time)
    = ((m, d, H, M, 0), "") :: rest /\
    check_time_fields H M 0 = true.
Proof.
  intros Hm Hd Ht.
  assert (H : forallb
                (fun m => forallb
                   (fun d => forallb
                      (fun time =>
                         match re_tail ("-" ++ fmt_02d m ++ "-" ++ fmt_02d d
                                        ++ " " ++ time) with
                         | ((m', d', H, M, sec), EmptyString) :: _ =>
                             (m' =? m) && (d' =? d) && (sec =? 0) &&
                             check_time_fields H M 0
                         | _ => false
                         end) generate_time_options)
                   (range 1 32 1))
                (range 1 13 1) = true) by (vm_compute; reflexivity).
  rewrite forallb_forall in H. specialize (H m Hm).
  rewrite forallb_forall in H. specialize (H d Hd).
  rewrite forallb_forall in H. specialize (H time Ht). cbv beta in H.
  destruct (re_tail _) as [|[[[[[m' d'] H'] M'] sec] [|? ?]] rest];
    try discriminate.
  rewrite !andb_true_iff, !N.eqb_eq in H.
  destruct H as [[[-> ->] ->] Hc]. now exists H', M', rest.
Qed.

Lemma check_date_fields_spec y m d :
  check_date_fields y m d = true <-> ValidDate y m d.
Proof.
  unfold check_date_fields, ValidDate.
  rewrite !andb_true_iff, !N.leb_le. tauto.
Qed.

(** A year below 1000 is printed with fewer than four digits, and [%Y] does
    not read it. *)
Lemma re_Y_dash (s rest : string) :
  (String.length s < 4)%nat -> re_Y (s ++ "-" ++ rest) = [].
Proof.
  intros H. unfold re_Y.
  destruct s as [|a [|b [|c [|d s]]]]; cbn [append String.length] in *;
    try (exfalso; lia);
    repeat (match goal with
            | |- context [match ?r with EmptyString => _ | String _ _ => _ end] =>
                is_var r; destruct r
            end); try reflexivity;
    repeat (match goal with
            | |- context [digit_of ?x] => is_var x; destruct (digit_of x)
            end); reflexivity.
Qed.

Lemma str_short (y : N) : y < 1000 -> (String.length (str y) < 4)%nat.
Proof.
  intros Hy.
  assert (H : forallb (fun y => (String.length (str y) <? 4)%nat) (range 0 1000 1)
              = true) by (vm_compute; reflexivity).
  rewrite forallb_forall in H. apply Nat.ltb_lt, H, range_In. lia.
Qed.

(** A year above 9999 is printed with five digits or more: [%Y] reads four
    of them and the "-" of the format meets the fifth. *)
Lemma of_lu_bound (d : Decimal.uint) :
  DecimalPos.Unsigned.of_lu d < 10 ^ N.of_nat (Decimal.nb_digits d).
Proof.
  induction d; cbn [Decimal.nb_digits DecimalPos.Unsigned.of_lu];
    rewrite ?Nnat.Nat2N.inj_succ, ?N.pow_succ_r'; lia.
Qed.

Lemma nb_digits_large (y : N) :
  10000 <= y -> (5 <= Decimal.nb_digits (N.to_uint y))%nat.
Proof.
  intros Hy.
  pose proof (of_lu_bound (Decimal.rev (N.to_uint y))) as H.
  rewrite <- DecimalPos.Unsigned.of_uint_alt in H.
  change (Pos.of_uint (N.to_uint y)) with (N.of_uint (N.to_uint y)) in H.
  rewrite DecimalN.Unsigned.of_to, DecimalFacts.nb_digits_rev in H.
  destruct (Nat.le_gt_cases 5 (Decimal.nb_digits (N.to_uint y))) as [Hle | Hgt];
    [exact Hle | exfalso].
  assert (Hp : 10 ^ N.of_nat (Decimal.nb_digits (N.to_uint y)) <= 10 ^ 4)
    by (apply N.pow_le_mono_r; lia).
  change (10 ^ 4) with 10000 in Hp. lia.
Qed.

Lemma string_of_uint_cons (u : Decimal.uint) :
  u <> Decimal.Nil ->
  exists c u',
    NilEmpty.string_of_uint u = String c (NilEmpty.string_of_uint u') /\
    digit_of c <> None /\
    Decimal.nb_digits u = S (Decimal.nb_digits u').
Proof.
  destruct u; [congruence | ..]; intros _; eexists; eexists;
    (split; [reflexivity | split; [discriminate | reflexivity]]).
Qed.

Lemma re_tail_digit (c : ascii) (rest : string) :
  digit_of c <> None -> re_tail (String c rest) = [].
Proof.
  intros Hc. unfold re_tail, then_, lit.
  destruct (Ascii.eqb_spec "-" c) as [<- | _]; [| reflexivity].
  exfalso. apply Hc. reflexivity.
Qed.

Lemma re_format_long (y : N) (rest : string) :
  10000 <= y -> re_format (str y ++ rest) = [].
Proof.
  intros Hy. pose proof (nb_digits_large y Hy) as Hn. unfold str.
  assert (Hnil : forall u, (0 < Decimal.nb_digits u)%nat -> u <> Decimal.Nil)
    by (intros u H ->; simpl in H; lia).
  destruct (string_of_uint_cons (N.to_uint y)) as (c1 & u1 & -> & H1 & E1);
    [apply Hnil; lia |].
  destruct (string_of_uint_cons u1) as (c2 & u2 & -> & H2 & E2);
    [apply Hnil; lia |].
  destruct (string_of_uint_cons u2) as (c3 & u3 & -> & H3 & E3);
    [apply Hnil; lia |].
  destruct (string_of_uint_cons u3) as (c4 & u4 & -> & H4 & E4);
    [apply Hnil; lia |].
  destruct (string_of_uint_cons u4) as (c5 & u5 & -> & H5 & E5);
    [apply Hnil; lia |].
  unfold re_format, then_, re_Y. cbn [append].
  destruct (digit_of c1), (digit_of c2), (digit_of c3), (digit_of c4);
    try reflexivity.
  cbn [flat_map]. now rewrite (re_tail_digit c5 _ H5).
Qed.

(** What [strptime] makes of a bound of the select boxes: the instant asked
    for when the year has four digits and the date exists, a [ValueError]
    otherwise. *)
Lemma strptime_parts_selected (p : parts) :
  Selectable p ->
  exists H M,
    check_time_fields H M 0 = true /\
    strptime_parts p =
    if (1000 <=? p_year p) && check_date_fields (p_year p) (p_month p) (p_day p)
    then Some (mk_datetime (p_year p) (p_month p) (p_day p) H M 0 0)
    else None.
Proof.
  intros (Hm & Hd & Ht).
  destruct (re_tail_selected _ _ _ Hm Hd Ht) as (H & M & rest & Htail & Hc).
  exists H, M. split; auto.
  unfold strptime_parts, strptime, format_parts.
  destruct (N.leb_spec 1000 (p_year p)) as [Hlo | Hlo]; cbn [andb].
  - destruct (N.le_gt_cases (p_year p) 9999) as [Hhi | Hhi].
    + unfold re_format, then_. rewrite re_Y_str by lia. cbn [flat_map].
      rewrite Htail. cbn [map app]. now rewrite Hc, andb_true_r.
    + rewrite re_format_long by lia.
      assert (E : check_date_fields (p_year p) (p_month p) (p_day p) = false).
      { unfold check_date_fields.
        assert (E : (p_year p <=? 9999) = false) by (apply N.leb_gt; lia).
        rewrite E. now rewrite andb_false_r. }
      now rewrite E.
  - unfold re_format, then_. rewrite re_Y_dash by now apply str_short.
    reflexivity.
Qed.

Lemma strptime_parts_None (p : parts) :
  Selectable p ->
  strptime_parts p = None <->
  ~ (ValidDate (p_year p) (p_month p) (p_day p) /\ 1000 <= p_year p).
Proof.
  intros Hp. destruct (strptime_parts_selected p Hp) as (H & M & _ & ->).
  rewrite <- check_date_fields_spec, <- N.leb_le.
  destruct (1000 <=? p_year p), (check_date_fields _ _ _); cbn [andb];
    split; intuition congruence.
Qed.

Lemma strptime_parts_Some (p : parts) (t : datetime) :
  Selectable p -> strptime_parts p = Some t ->
  year t = p_year p /\ month t = p_month p /\ day t = p_day p.
Proof.
  intros Hp. destruct (strptime_parts_selected p Hp) as (H & M & _ & ->).
  destruct (_ && _); [|discriminate].
  intros [= <-]. auto.
Qed.

(** C5, amended.  For bounds taken from the select boxes, whatever their
    years, [buildWindow] fails with [InvalidDateError] exactly when, for one
    of the two bounds, the year, month and day do not exist on the calendar
    or the year is below 1000 (it is printed with fewer than four digits,
    which [%Y] does not read); a window that is built has the year, month
    and day that were asked for (nothing is clamped).  Day 31 of month 4
    fails, 29 February 2024 succeeds, 29 February 2023 fails. *)
Theorem buildWindow_invalid_date :
  (forall startParts endParts,
      Selectable startParts -> Selectable endParts ->
      (buildWindow startParts endParts = inl InvalidDateError <->
       ~ ((ValidDate (p_year startParts) (p_month startParts) (p_day startParts) /\
           1000 <= p_year startParts) /\
          (ValidDate (p_year endParts) (p_month endParts) (p_day endParts) /\
           1000 <= p_year endParts))) /\
      (forall start_datetime end_datetime,
          buildWindow startParts endParts = inr (start_datetime, end_datetime) ->
          (year start_datetime, month start_datetime, day start_datetime)
          = (p_year startParts, p_month startParts, p_day startParts) /\
          (year end_datetime, month end_datetime, day end_datetime)
          = (p_year endParts, p_month endParts, p_day endParts))) /\
  buildWindow (mk_parts 2024 4 31 "00:00:00") (mk_parts 2024 12 31 "23:55:00")
  = inl InvalidDateError /\
  buildWindow (mk_parts 2024 2 29 "00:00:00") (mk_parts 2024 12 31 "23:55:00")
  = inr (mk_datetime 2024 2 29 0 0 0 0, mk_datetime 2024 12 31 23 55 0 0) /\
  buildWindow (mk_parts 2023 2 29 "00:00:00") (mk_parts 2023 12 31 "23:55:00")
  = inl InvalidDateError.
Proof.
  split; [| repeat split; vm_compute; reflexivity].
  intros s e Hs He. unfold buildWindow. split.
  - pose proof (strptime_parts_None s Hs) as Ns.
    pose proof (strptime_parts_None e He) as Ne.
    destruct (strptime_parts s) as [ts|].
    + destruct (strptime_parts e) as [te|].
      * split; [discriminate |]. intros Hn. exfalso.
        assert (Hs' : ~ ~ (ValidDate (p_year s) (p_month s) (p_day s) /\
                           1000 <= p_year s))
          by (intros H; apply Ns in H; discriminate).
        assert (He' : ~ ~ (ValidDate (p_year e) (p_month e) (p_day e) /\
                           1000 <= p_year e))
          by (intros H; apply Ne in H; discriminate).
        apply Hs'. intros Hvs. apply He'. intros Hve. apply Hn. now split.
      * split; [| reflexivity]. intros _ [_ Hv]. now apply Ne.
    + split; [| reflexivity]. intros _ [Hv _]. now apply Ns.
  - intros ts te.
    destruct (strptime_parts s) as [ts'|] eqn:Es; [| discriminate].
    destruct (strptime_parts e) as [te'|] eqn:Ee; [| discriminate].
    intros [= <- <-].
    destruct (strptime_parts_Some s ts' Hs Es) as (-> & -> & ->).
    destruct (strptime_parts_Some e te' He Ee) as (-> & -> & ->).
    auto.
Qed.

(** The first clause of C5 at a concrete pair of bounds. *)
Lemma buildWindow_invalid_date_witness :
  buildWindow (mk_parts 2023 2 29 "08:05:00") (mk_parts 2023 3 1 "23:55:00")
  = inl InvalidDateError <->
  ~ ((ValidDate 2023 2 29 /\ 1000 <= 2023) /\ (ValidDate 2023 3 1 /\ 1000 <= 2023)).
Proof.
  refine (proj1 (proj1 buildWindow_invalid_date
                   (mk_parts 2023 2 29 "08:05:00") (mk_parts 2023 3 1 "23:55:00")
                   _ _));
    vm_compute; intuition.
Defined.

(** The claim C5 fails for a year below 1000: 1 January and 31 December of
    the year 999 exist on the calendar, and are bounds the select boxes
    offer when the data has a timestamp of that year, but the year is
    printed as "999", which [%Y] does not read, so the window is refused. *)
Lemma buildWindow_refuses_year_999 :
  Selectable (mk_parts 999 1 1 "00:00:00") /\
  Selectable (mk_parts 999 12 31 "23:55:00") /\
  ValidDate 999 1 1 /\ ValidDate 999 12 31 /\
  format_parts 999 1 1 "00:00:00" = "999-01-01 00:00:00" /\
  buildWindow (mk_parts 999 1 1 "00:00:00") (mk_parts 999 12 31 "23:55:00")
  = inl InvalidDateError.
Proof.
  repeat split; try (vm_compute; intuition congruence).
Qed.

End StrptimeFacts.

Module WindowFacts.
Import Classifier Calendar Strptime Frame World App.

Lemma unique_fold_In (l seen : list N) (x : N) :
  In x (fold_left (fun seen x => if existsb (N.eqb x) seen then seen
                                 else (seen ++ [x])%list) l seen)
  <-> In x seen \/ In x l.
Proof.
  revert seen. induction l as [|y l IH]; intros seen; simpl.
  - tauto.
  - rewrite IH. destruct (existsb (N.eqb y) seen) eqn:E.
    + apply existsb_exists in E. destruct E as [z [Hz Hyz]].
      apply N.eqb_eq in Hyz. subst z. split.
      * intros [H | H]; auto.
      * intros [H | [<- | H]]; auto.
    + rewrite in_app_iff. simpl. tauto.
Qed.

Lemma unique_fold_NoDup (l seen : list N) :
  NoDup seen ->
  NoDup (fold_left (fun seen x => if existsb (N.eqb x) seen then seen
                                  else (seen ++ [x])%list) l seen).
Proof.
  revert seen. induction l as [|y l IH]; intros seen Hnd; simpl; auto.
  apply IH. destruct (existsb (N.eqb y) seen) eqn:E; auto.
  apply NoDup_app; auto.
  - repeat constructor. intros [].
  - intros z Hz [<- | []].
    assert (Hex : existsb (N.eqb y) seen = true).
    { apply existsb_exists. exists y. split; auto. apply N.eqb_refl. }
    congruence.
Qed.

Lemma unique_In l x : In x (unique l) <-> In x l.
Proof. unfold unique. rewrite unique_fold_In. simpl. tauto. Qed.

Lemma unique_NoDup l : NoDup (unique l).
Proof. apply unique_fold_NoDup. constructor. Qed.

Lemma insert_sorted_In x y l : In y (insert_sorted x l) <-> y = x \/ In y l.
Proof.
  induction l as [|z l IH]; simpl.
  - intuition.
  - destruct (x <=? z)%N; simpl; rewrite ?IH; intuition.
Qed.

Lemma sorted_In l x : In x (sorted l) <-> In x l.
Proof.
  induction l as [|y l IH]; simpl; [tauto |].
  rewrite insert_sorted_In, IH. intuition.
Qed.

Lemma insert_sorted_lt x l :
  StronglySorted N.lt l -> ~ In x l -> StronglySorted N.lt (insert_sorted x l).
Proof.
  induction 1 as [|z l Hs IH Hz]; simpl; intros Hx.
  - repeat constructor.
  - destruct (N.leb_spec x z).
    + assert (x < z)%N by (assert (x <> z) by intuition; lia).
      constructor; [constructor; assumption |].
      constructor; auto.
      rewrite Forall_forall in *. intros u Hu. specialize (Hz u Hu). lia.
    + constructor; [apply IH; intuition |].
      rewrite Forall_forall in *. intros u Hu.
      apply insert_sorted_In in Hu. destruct Hu as [-> | Hu]; auto.
Qed.

Lemma sorted_lt l : NoDup l -> StronglySorted N.lt (sorted l).
Proof.
  induction 1 as [|x l Hx Hnd IH]; simpl.
  - constructor.
  - apply insert_sorted_lt; auto. now rewrite sorted_In.
Qed.

Lemma dt_year_In values y :
  In y (dt_year values) <-> exists t, In (Ts t) values /\ year t = y.
Proof.
  unfold dt_year. rewrite in_flat_map. split.
  - intros [c [Hc Hy]]. destruct c; simpl in Hy; try contradiction.
    destruct Hy as [<- | []]. eauto.
  - intros [t [Ht <-]]. exists (Ts t). simpl. auto.
Qed.

Lemma select_rows_filter {A B} (g : A -> B) (p q : B -> bool) (l : list A) :
  select_rows (mask_and (map p (map g l)) (map q (map g l))) l
  = List.filter (fun r => p (g r) && q (g r)) l.
Proof.
  induction l as [|r l IH]; simpl; auto.
  rewrite IH. reflexivity.
Qed.


(** C7.  For a normalised table (one column labelled "datetime"), the select
    boxes offer: as years the distinct years of the datetime column in
    strictly ascending order; as months 1..12 and as days 1..31, whatever the
    data; as times the 288 texts HH:MM:00 in steps of five minutes, from
    00:00:00 to 23:55:00. *)
Theorem selectable_domains (processed_data : DataFrame) (i : nat) (w : world) :
  positions "datetime" (columns processed_data) = [i] ->
  exists offered,
    selectable processed_data w = (Return offered, w) /\
    StronglySorted N.lt (years offered) /\
    (forall y, In y (years offered) <->
               exists t, In (Ts t) (map (cell_at i) (rows processed_data)) /\
                         year t = y) /\
    months offered = [1; 2; 3; 4; 5; 6; 7; 8; 9; 10; 11; 12]%N /\
    days offered = [1; 2; 3; 4; 5; 6; 7; 8; 9; 10; 11; 12; 13; 14; 15; 16; 17;
                    18; 19; 20; 21; 22; 23; 24; 25; 26; 27; 28; 29; 30; 31]%N /\
    times offered
    = map (fun k => fmt_02d (k / 12) ++ ":" ++ fmt_02d (5 * (k mod 12)) ++ ":00")%N
          (range 0 288 1) /\
    List.length (times offered) = 288 /\
    hd "" (times offered) = "00:00:00" /\
    last (times offered) "" = "23:55:00".
Proof.
  intros Hpos. unfold selectable, getitem. rewrite Hpos.
  eexists. split; [reflexivity |]. cbn [years months days times].
  split; [apply sorted_lt, unique_NoDup |].
  split; [intros y; now rewrite sorted_In, unique_In, dt_year_In |].
  repeat split; vm_compute; reflexivity.
Qed.

Lemma selectable_domains_witness :
  exists offered,
    selectable (mk_frame ["id"; "datetime"] [Object; Datetime64]
                  [[Str "a"; Ts (mk_datetime 2021 5 1 0 0 0 0)];
                   [Str "b"; Ts (mk_datetime 2019 7 2 0 0 0 0)];
                   [Str "c"; Ts (mk_datetime 2021 1 3 0 0 0 0)]])
               (mk_world [] []) = (Return offered, mk_world [] []) /\
    years offered = [2019; 2021]%N.
Proof.
  destruct (selectable_domains
              (mk_frame ["id"; "datetime"] [Object; Datetime64]
                 [[Str "a"; Ts (mk_datetime 2021 5 1 0 0 0 0)];
                  [Str "b"; Ts (mk_datetime 2019 7 2 0 0 0 0)];
                  [Str "c"; Ts (mk_datetime 2021 1 3 0 0 0 0)]])
              1 (mk_world [] []) eq_refl) as [offered [Hrun _]].
  exists offered. split; [exact Hrun |].
  vm_compute in Hrun. injection Hrun as <-. reflexivity.
Defined.

(** Lines 199-202 on a table whose one "datetime" column holds zone-less
    timestamps. *)
Lemma filter_Return (table : DataFrame) (i : nat) (window : datetime * datetime) :
  positions "datetime" (columns table) = [i] ->
  nth i (dtypes table) Object = Datetime64 ->
  filter table window
  = Return {| columns := columns table;
              dtypes := dtypes table;
              rows := List.filter (in_window i window) (rows table) |}.
Proof.
  intros Hpos Hdt. destruct window as [start_datetime end_datetime].
  unfold filter, getitem. rewrite Hpos, Hdt. unfold boolean_index.
  now rewrite select_rows_filter.
Qed.





End WindowFacts.

Module FrameFacts.
Import Text TextFacts Classifier ClassifierFacts Frame.

Lemma positions_from_In (k : nat) (c : string) (cols : list string) (i : nat) :
  In i (positions_from k c cols) <-> k <= i /\ nth_error cols (i - k) = Some c.
Proof.
  revert k. induction cols as [|x cols IH]; intros k; simpl.
  - split; [intros [] | intros [_ H]]. destruct (i - k); discriminate.
  - destruct (String.eqb_spec x c) as [-> | Hne]; simpl; rewrite ?IH.
    + split.
      * intros [<- | [Hk Hn]].
        -- split; [lia |]. now rewrite Nat.sub_diag.
        -- split; [lia |]. replace (i - k) with (S (i - S k)) by lia. exact Hn.
      * intros [Hk Hn]. destruct (Nat.eq_dec k i) as [-> | Hki]; [now left | right].
        split; [lia |]. replace (i - k) with (S (i - S k)) in Hn by lia. exact Hn.
    + split.
      * intros [Hk Hn]. split; [lia |].
        replace (i - k) with (S (i - S k)) by lia. exact Hn.
      * intros [Hk Hn]. destruct (Nat.eq_dec k i) as [-> | Hki].
        -- rewrite Nat.sub_diag in Hn. simpl in Hn. congruence.
        -- split; [lia |]. replace (i - k) with (S (i - S k)) in Hn by lia. exact Hn.
Qed.

Lemma positions_In (c : string) (cols : list string) (i : nat) :
  In i (positions c cols) <-> nth_error cols i = Some c.
Proof.
  unfold positions. rewrite positions_from_In, Nat.sub_0_r.
  split; [tauto | split; [lia | assumption]].
Qed.

Lemma positions_single (c : string) (cols : list string) (i : nat) :
  positions c cols = [i] -> nth_error cols i = Some c /\ i < List.length cols.
Proof.
  intros H. assert (Hn : nth_error cols i = Some c).
  { apply positions_In. rewrite H. now left. }
  split; auto. apply nth_error_Some. congruence.
Qed.

Lemma positions_from_nil (k : nat) (c : string) (cols : list string) :
  positions_from k c cols = [] <-> ~ In c cols.
Proof.
  revert k. induction cols as [|x cols IH]; intros k; simpl.
  - tauto.
  - destruct (String.eqb_spec x c) as [-> | Hne].
    + split; [discriminate | intros H; exfalso; auto].
    + rewrite IH. tauto.
Qed.

Lemma positions_from_NoDup (k : nat) (c : string) (cols : list string) :
  NoDup cols -> In c cols -> exists i, positions_from k c cols = [i].
Proof.
  intros Hnd. revert k. induction Hnd as [|x cols Hx Hnd IH]; intros k Hin.
  - destruct Hin.
  - simpl. destruct (String.eqb_spec x c) as [-> | Hne].
    + exists k. f_equal. now apply positions_from_nil.
    + destruct Hin as [-> | Hin]; [contradiction | now apply IH].
Qed.

Lemma has_column_In (df : DataFrame) (c : string) :
  has_column df c = true <-> In c (columns df).
Proof.
  unfold has_column. rewrite existsb_exists. split.
  - intros [x [Hx Hc]]. apply String.eqb_eq in Hc. now subst.
  - intros Hin. exists c. split; auto. apply String.eqb_refl.
Qed.

Lemma cell_at_set_cell_eq (i : nat) (v : cell) (row : list cell) :
  i < List.length row -> cell_at i (set_cell i v row) = v.
Proof.
  unfold cell_at. revert i. induction row as [|x row IH]; intros i Hi; simpl in *.
  - lia.
  - destruct i; simpl; [reflexivity | apply IH; lia].
Qed.

Lemma cell_at_set_cell_ne (i j : nat) (v : cell) (row : list cell) :
  j <> i -> cell_at j (set_cell i v row) = cell_at j row.
Proof.
  unfold cell_at. revert i j. induction row as [|x row IH]; intros i j Hij.
  - now destruct i.
  - destruct i, j; simpl; auto; try lia; try (apply IH; lia).
Qed.

Lemma cell_at_set_cell_short (i : nat) (v : cell) (row : list cell) :
  List.length row <= i -> cell_at i (set_cell i v row) = NaN.
Proof.
  unfold cell_at. revert i. induction row as [|x row IH]; intros i Hi; simpl in *.
  - now destruct i.
  - destruct i; [lia |]. simpl. apply IH. lia.
Qed.

Lemma length_set_cell (i : nat) (v : cell) (row : list cell) :
  List.length (set_cell i v row) = List.length row.
Proof.
  revert i. induction row as [|x row IH]; intros [|i]; simpl; rewrite ?IH; reflexivity.
Qed.

Lemma nth_set_nth {A} (i : nat) (v d : A) (l : list A) :
  i < List.length l -> nth i (set_nth i v l) d = v.
Proof.
  revert i. induction l as [|x l IH]; intros i Hi; simpl in *; [lia |].
  destruct i; simpl; [reflexivity | apply IH; lia].
Qed.


Lemma nth_error_set_nth_ne {A} (i j : nat) (v : A) (l : list A) :
  j <> i -> nth_error (set_nth i v l) j = nth_error l j.
Proof.
  revert i j. induction l as [|x l IH]; intros i j Hij.
  - now destruct i.
  - destruct i, j; simpl; auto; try lia; try (apply IH; lia).
Qed.

Lemma length_set_nth {A} (i : nat) (v : A) (l : list A) :
  List.length (set_nth i v l) = List.length l.
Proof.
  revert i. induction l as [|x l IH]; intros [|i]; simpl; rewrite ?IH; reflexivity.
Qed.

Lemma first_mentioning_Some keywords cols c :
  first_mentioning keywords cols = Some c ->
  In c cols /\ any_keyword_in keywords c = true.
Proof.
  induction cols as [|x cols IH]; simpl; [discriminate |].
  destruct (any_keyword_in keywords x) eqn:E.
  - intros [= <-]. auto.
  - intros H. destruct (IH H). auto.
Qed.

Lemma detect_datetime_column_Some cols c :
  detect_datetime_column cols = Some c ->
  In c cols /\ exists a rest, c = String a rest.
Proof.
  intros H. apply first_mentioning_Some in H. destruct H as [Hin Hany].
  split; auto. destruct c as [|a rest]; [discriminate | eauto].
Qed.

End FrameFacts.

Module NormalizeFacts.
Import Text TextFacts Classifier ClassifierFacts Calendar Frame FrameFacts World App.

Section Readers.

Variable read_csv : string -> option DataFrame.
Variable to_datetime_coerce : list cell -> list (option datetime).
Variable to_datetime_kind : list cell -> conversion.

Abbreviation preprocess_data :=
  (preprocess_data read_csv to_datetime_coerce to_datetime_kind).
Abbreviation normalize := (normalize read_csv to_datetime_coerce to_datetime_kind).

Abbreviation normalized := (normalized to_datetime_coerce to_datetime_kind).


Lemma preprocess_data_no_datetime (uploaded_file : upload) (w : world) data :
  read_csv (content uploaded_file) = Some data ->
  detect_datetime_column (map lower (columns data)) = None ->
  preprocess_data uploaded_file w
  = (Return None, after_read w [st_warning NoDatetimeInformation]).
Proof.
  intros H Hd. unfold App.preprocess_data, bind, emit, ret, after_read. simpl.
  rewrite H. simpl. rewrite Hd. reflexivity.
Qed.

Lemma preprocess_data_repeated (uploaded_file : upload) (w : world) data c n :
  read_csv (content uploaded_file) = Some data ->
  detect_datetime_column (map lower (columns data)) = Some c ->
  List.length (positions c (map lower (columns data))) = S (S n) ->
  preprocess_data uploaded_file w = (Raise ValueError, after_read w []).
Proof.
  intros H Hd Hp. unfold App.preprocess_data, bind, emit, ret, after_read. simpl.
  rewrite H. simpl. rewrite Hd.
  destruct (detect_datetime_column_Some _ _ Hd) as [_ [a [rest ->]]].
  unfold getitem. simpl columns.
  destruct (positions _ _) as [|p [|q ps]]; try discriminate.
  simpl. now rewrite app_nil_r.
Qed.

Lemma preprocess_data_normalized (uploaded_file : upload) (w : world) data c i :
  read_csv (content uploaded_file) = Some data ->
  detect_datetime_column (map lower (columns data)) = Some c ->
  positions c (map lower (columns data)) = [i] ->
  List.length (dtypes data) = List.length (columns data) ->
  to_datetime_kind (map (cell_at i) (rows data)) = Naive \/
  to_datetime_kind (map (cell_at i) (rows data)) = Aware ->
  preprocess_data uploaded_file w
  = (Return (Some (normalized c i data)), after_read w []).
Proof.
  intros H Hd Hp Hlen Hk.
  unfold App.preprocess_data, bind, emit, ret, after_read. simpl.
  rewrite H. simpl. rewrite Hd.
  destruct (detect_datetime_column_Some _ _ Hd) as [_ [a [rest ->]]].
  destruct (positions_single _ _ _ Hp) as [_ Hi]. rewrite length_map in Hi.
  unfold getitem, setitem, dropna, App.normalized. simpl columns. rewrite Hp.
  simpl.
  destruct Hk as [-> | ->]; simpl; rewrite Hp; simpl; rewrite Hp;
    rewrite nth_set_nth by lia; simpl; now rewrite app_nil_r.
Qed.

(** The conversion gives a column of objects: line 57 finds no timestamp
    type and the warning of line 58 is shown. *)
Lemma preprocess_data_objects (uploaded_file : upload) (w : world) data c i :
  read_csv (content uploaded_file) = Some data ->
  detect_datetime_column (map lower (columns data)) = Some c ->
  positions c (map lower (columns data)) = [i] ->
  List.length (dtypes data) = List.length (columns data) ->
  to_datetime_kind (map (cell_at i) (rows data)) = Objects ->
  preprocess_data uploaded_file w
  = (Return None, after_read w [st_warning (CouldNotConvert c)]).
Proof.
  intros H Hd Hp Hlen Hk.
  unfold App.preprocess_data, bind, emit, ret, after_read. simpl.
  rewrite H. simpl. rewrite Hd.
  destruct (detect_datetime_column_Some _ _ Hd) as [_ [a [rest ->]]].
  destruct (positions_single _ _ _ Hp) as [_ Hi]. rewrite length_map in Hi.
  unfold getitem, setitem, dropna. simpl columns. rewrite Hp. simpl.
  rewrite Hk. simpl. rewrite Hp. simpl. rewrite Hp.
  rewrite nth_set_nth by lia. simpl. reflexivity.
Qed.

(** The conversion raises: nothing catches the exception. *)
Lemma preprocess_data_raises (uploaded_file : upload) (w : world) data c i e :
  read_csv (content uploaded_file) = Some data ->
  detect_datetime_column (map lower (columns data)) = Some c ->
  positions c (map lower (columns data)) = [i] ->
  to_datetime_kind (map (cell_at i) (rows data)) = Raises e ->
  preprocess_data uploaded_file w = (Raise e, after_read w []).
Proof.
  intros H Hd Hp Hk.
  unfold App.preprocess_data, bind, emit, ret, after_read. simpl.
  rewrite H. simpl. rewrite Hd.
  destruct (detect_datetime_column_Some _ _ Hd) as [_ [a [rest ->]]].
  unfold getitem. simpl columns. rewrite Hp. simpl.
  rewrite Hk. simpl. now rewrite app_nil_r.
Qed.

(** Lines 55 and 56 row by row: a row stays, with its timestamp in place,
    exactly when [pd.to_datetime] has a value for it. *)
Lemma coerce_and_drop (i : nat) (coerced : list (option datetime))
    (rs : list (list cell)) :
  Forall (fun row => i < List.length row) rs ->
  List.filter (complete_at [i]) (assign_rows i (map cell_of_timestamp coerced) rs)
  = flat_map (keep_parsed i) (combine rs coerced).
Proof.
  intros Hrs. revert coerced. induction Hrs as [|row rs Hrow Hrs IH]; intros coerced.
  - reflexivity.
  - assert (Hc : forall v, complete_at [i] (set_cell i v row) = negb (isna v)).
    { intros v. unfold complete_at. cbn [forallb].
      rewrite cell_at_set_cell_eq by assumption. apply andb_true_r. }
    destruct coerced as [|o coerced];
      cbn [map assign_rows hd tl List.filter combine flat_map]; rewrite Hc.
    + cbn [isna negb]. specialize (IH []). cbn [map] in IH. rewrite IH.
      now destruct rs.
    + rewrite IH. destruct o; reflexivity.
Qed.

Lemma flat_map_keep_length (i : nat) (l : list (list cell * option datetime)) :
  List.length (flat_map (keep_parsed i) l) <= List.length l.
Proof.
  induction l as [|[row [t|]] l IH]; simpl; lia.
Qed.


Lemma flat_map_keep_In (i : nat) (l : list (list cell * option datetime)) row' :
  In row' (flat_map (keep_parsed i) l) ->
  exists row t, In (row, Some t) l /\ row' = set_cell i (Ts t) row.
Proof.
  rewrite in_flat_map. intros [[row [t|]] [Hin Hk]]; simpl in Hk.
  - destruct Hk as [<- | []]. eauto.
  - destruct Hk.
Qed.

Lemma well_formed_rows (data : DataFrame) (i : nat) :
  well_formed data -> i < List.length (columns data) ->
  Forall (fun row => i < List.length row) (rows data).
Proof.
  intros [_ H] Hi. eapply Forall_impl; [| exact H].
  simpl. intros row ->. exact Hi.
Qed.


Lemma normalize_no_datetime (uploaded_file : upload) data :
  read_csv (content uploaded_file) = Some data ->
  detect_datetime_column (map lower (columns data)) = None ->
  normalize uploaded_file = Some (inl SchemaError_no_datetime_column).
Proof.
  intros H Hd. unfold App.normalize.
  now rewrite (preprocess_data_no_datetime _ _ _ H Hd).
Qed.

Lemma normalize_normalized (uploaded_file : upload) data c i :
  read_csv (content uploaded_file) = Some data ->
  detect_datetime_column (map lower (columns data)) = Some c ->
  positions c (map lower (columns data)) = [i] ->
  List.length (dtypes data) = List.length (columns data) ->
  to_datetime_kind (map (cell_at i) (rows data)) = Naive \/
  to_datetime_kind (map (cell_at i) (rows data)) = Aware ->
  normalize uploaded_file = Some (inr (normalized c i data)).
Proof.
  intros H Hd Hp Hlen Hk. unfold App.normalize.
  now rewrite (preprocess_data_normalized _ _ _ _ _ H Hd Hp Hlen Hk).
Qed.

Lemma normalize_objects (uploaded_file : upload) data c i :
  read_csv (content uploaded_file) = Some data ->
  detect_datetime_column (map lower (columns data)) = Some c ->
  positions c (map lower (columns data)) = [i] ->
  List.length (dtypes data) = List.length (columns data) ->
  to_datetime_kind (map (cell_at i) (rows data)) = Objects ->
  normalize uploaded_file = Some (inl SchemaError_datetime_conversion_failed).
Proof.
  intros H Hd Hp Hlen Hk. unfold App.normalize.
  now rewrite (preprocess_data_objects _ _ _ _ _ H Hd Hp Hlen Hk).
Qed.

Lemma normalize_raises (uploaded_file : upload) data c i e :
  read_csv (content uploaded_file) = Some data ->
  detect_datetime_column (map lower (columns data)) = Some c ->
  positions c (map lower (columns data)) = [i] ->
  to_datetime_kind (map (cell_at i) (rows data)) = Raises e ->
  normalize uploaded_file = None.
Proof.
  intros H Hd Hp Hk. unfold App.normalize.
  now rewrite (preprocess_data_raises _ _ _ _ _ _ H Hd Hp Hk).
Qed.

Lemma normalize_repeated (uploaded_file : upload) data c n :
  read_csv (content uploaded_file) = Some data ->
  detect_datetime_column (map lower (columns data)) = Some c ->
  List.length (positions c (map lower (columns data))) = S (S n) ->
  normalize uploaded_file = None.
Proof.
  intros H Hd Hp. unfold App.normalize.
  now rewrite (preprocess_data_repeated _ _ _ _ _ H Hd Hp).
Qed.

(** The ways [normalize] can end on a file that is read and has a
    datetime-like header [c]. *)
Lemma normalize_detected (uploaded_file : upload) data c :
  read_csv (content uploaded_file) = Some data ->
  List.length (dtypes data) = List.length (columns data) ->
  detect_datetime_column (map lower (columns data)) = Some c ->
  (exists i,
      positions c (map lower (columns data)) = [i] /\
      (to_datetime_kind (map (cell_at i) (rows data)) = Naive \/
       to_datetime_kind (map (cell_at i) (rows data)) = Aware) /\
      normalize uploaded_file = Some (inr (normalized c i data))) \/
  (exists i,
      positions c (map lower (columns data)) = [i] /\
      to_datetime_kind (map (cell_at i) (rows data)) = Objects /\
      normalize uploaded_file = Some (inl SchemaError_datetime_conversion_failed)) \/
  (exists i e,
      positions c (map lower (columns data)) = [i] /\
      to_datetime_kind (map (cell_at i) (rows data)) = Raises e /\
      normalize uploaded_file = None) \/
  (exists n,
      List.length (positions c (map lower (columns data))) = S (S n) /\
      normalize uploaded_file = None).
Proof.
  intros Hread Hlen Hd.
  destruct (detect_datetime_column_Some _ _ Hd) as [Hin _].
  destruct (positions c (map lower (columns data))) as [|i [|i' ps]] eqn:Hp.
  - apply (positions_from_nil 0) in Hp. contradiction.
  - destruct (to_datetime_kind (map (cell_at i) (rows data))) as [| | |e] eqn:Hk.
    + left. exists i. split; [reflexivity |]. split; [now left |].
      apply normalize_normalized; auto.
    + left. exists i. split; [reflexivity |]. split; [now right |].
      apply normalize_normalized; auto.
    + right. left. exists i. split; [reflexivity |]. split; [exact Hk |].
      eapply normalize_objects; eauto.
    + right. right. left. exists i, e. split; [reflexivity |].
      split; [exact Hk |]. eapply normalize_raises; eauto.
  - right. right. right. exists (List.length ps). split; [reflexivity |].
    eapply normalize_repeated; eauto. now rewrite Hp.
Qed.


(** C3, amended.  When [normalize] succeeds on a parsed table, the detected
    datetime column (at position [i]) is labelled "datetime" and every other
    column keeps its lower-cased label, its type and its cells; a row is kept,
    with the timestamp read from it in the datetime column, exactly when its
    datetime value can be read as a timestamp, and dropped otherwise; so the
    table has at most as many rows as the parsed one. *)
Theorem normalize_rows (uploaded_file : upload) (data table : DataFrame) :
  read_csv (content uploaded_file) = Some data ->
  well_formed data ->
  normalize uploaded_file = Some (inr table) ->
  exists c i,
    detect_datetime_column (map lower (columns data)) = Some c /\
    nth_error (map lower (columns data)) i = Some c /\
    rows table
    = flat_map (keep_parsed i)
        (combine (rows data) (to_datetime_coerce (map (cell_at i) (rows data)))) /\
    nth_error (columns table) i = Some "datetime" /\
    (forall j, j <> i ->
               nth_error (columns table) j = nth_error (map lower (columns data)) j) /\
    (forall j, j <> i -> nth_error (dtypes table) j = nth_error (dtypes data) j) /\
    (forall row', In row' (rows table) ->
       exists row t, In row (rows data) /\ cell_at i row' = Ts t /\
                     forall j, j <> i -> cell_at j row' = cell_at j row) /\
    List.length (rows table) <= List.length (rows data).
Proof.
  intros Hread Hdata Hn.
  destruct (detect_datetime_column (map lower (columns data))) as [c|] eqn:Hd;
    [| rewrite (normalize_no_datetime _ _ Hread Hd) in Hn; discriminate].
  destruct (normalize_detected _ _ _ Hread (proj1 Hdata) Hd)
    as [(i & Hp & Hk & Hn') | [(i & Hp & Hk & Hn') |
        [(i & e & Hp & Hk & Hn') | (n & Hp & Hn')]]];
    rewrite Hn' in Hn; try discriminate.
  injection Hn as <-.
  destruct (positions_single _ _ _ Hp) as [Hc Hi].
  assert (Hi' : i < List.length (columns data)) by now rewrite length_map in Hi.
  assert (Hrows : rows (normalized c i data)
                  = flat_map (keep_parsed i)
                      (combine (rows data)
                         (to_datetime_coerce (map (cell_at i) (rows data))))).
  { cbn [App.normalized rows]. apply coerce_and_drop, well_formed_rows; assumption. }
  exists c, i. split; [reflexivity |]. split; [exact Hc |].
  split; [exact Hrows |]. cbn [App.normalized columns dtypes].
  split; [| split; [| split; [| split]]].
  + rewrite nth_error_map, Hc. simpl. now rewrite String.eqb_refl.
  + intros j Hj. rewrite nth_error_map.
    destruct (nth_error (map lower (columns data)) j) as [x|] eqn:Hx; auto.
    simpl. destruct (String.eqb_spec x c) as [-> | Hne]; auto.
    exfalso. apply positions_In in Hx. rewrite Hp in Hx.
    destruct Hx as [<- | []]. congruence.
  + intros j Hj. now apply nth_error_set_nth_ne.
  + intros row' Hrow'. rewrite Hrows in Hrow'.
    apply flat_map_keep_In in Hrow'. destruct Hrow' as [row [t [Hin' ->]]].
    exists row, t. split; [eapply in_combine_l; eassumption |].
    assert (Hrow : i < List.length row).
    { pose proof (well_formed_rows data i Hdata Hi') as Hall.
      rewrite Forall_forall in Hall. apply Hall.
      eapply in_combine_l; eassumption. }
    split; [now apply cell_at_set_cell_eq |].
    intros j Hj. now apply cell_at_set_cell_ne.
  + rewrite Hrows. etransitivity; [apply flat_map_keep_length |].
    rewrite length_combine. lia.
Qed.

End Readers.



(** The third failure of C4 on a sample file: two values of different UTC
    offsets give a column of objects, and line 58 reports it. *)
Example normalize_mixed_offsets :
  normalize Sample.read_csv Sample.to_datetime_coerce Sample.to_datetime_kind
    (mk_upload 60 ("date" ++ Sample.nl ++ "2021-01-01 00:00:00+01:00" ++ Sample.nl
                   ++ "2021-01-02 00:00:00+02:00" ++ Sample.nl))
  = Some (inl SchemaError_datetime_conversion_failed).
Proof. vm_compute. reflexivity. Qed.

(** C3 at a sample file of two rows, one with an unreadable date. *)
Lemma normalize_rows_witness :
  exists table,
    normalize Sample.read_csv Sample.to_datetime_coerce Sample.to_datetime_kind
      (mk_upload 40 ("Date,Volume" ++ Sample.nl ++ "2021-01-01 00:00:00,5"
                     ++ Sample.nl ++ "soon,7" ++ Sample.nl))
    = Some (inr table) /\
    List.length (rows table) <= 2.
Proof.
  eexists. split; [vm_compute; reflexivity |].
  assert (Hwf : well_formed
                  (mk_frame ["Date"; "Volume"] [Object; Object]
                     [[Str "2021-01-01 00:00:00"; Str "5"]; [Str "soon"; Str "7"]]))
    by (split; [reflexivity | repeat constructor]).
  destruct (normalize_rows Sample.read_csv Sample.to_datetime_coerce
              Sample.to_datetime_kind
              (mk_upload 40 ("Date,Volume" ++ Sample.nl ++ "2021-01-01 00:00:00,5"
                             ++ Sample.nl ++ "soon,7" ++ Sample.nl))
              _ _ eq_refl Hwf eq_refl)
    as (c & i & _ & _ & _ & _ & _ & _ & _ & Hlen).
  exact Hlen.
Defined.

(** The claim C3 fails on the same file: the column "Volume" does not pass
    through unchanged, its label is lower-cased. *)
Lemma normalize_lowers_other_labels :
  exists data table,
    Sample.read_csv ("Date,Volume" ++ Sample.nl ++ "2021-01-01 00:00:00,5" ++ Sample.nl)
    = Some data /\
    normalize Sample.read_csv Sample.to_datetime_coerce Sample.to_datetime_kind
      (mk_upload 40 ("Date,Volume" ++ Sample.nl ++ "2021-01-01 00:00:00,5" ++ Sample.nl))
    = Some (inr table) /\
    nth_error (columns data) 1 = Some "Volume" /\
    nth_error (columns table) 1 = Some "volume" /\
    ~ In "Volume" (columns table).
Proof.
  eexists. eexists. split; [vm_compute; reflexivity |].
  split; [vm_compute; reflexivity |].
  split; [reflexivity |]. split; [reflexivity |].
  simpl. intuition discriminate.
Qed.

End NormalizeFacts.

Module GeoFacts.
Import Text Classifier Calendar Frame FrameFacts World App.

Section Numbers.

Variable parse_number : string -> option Q.

Abbreviation to_numeric_cell := (to_numeric_cell parse_number).
Abbreviation plot_folium_map_with_geojson :=
  (plot_folium_map_with_geojson parse_number).
Abbreviation sanitize := (sanitize parse_number).
Abbreviation valid_point := (valid_point parse_number).
Abbreviation coerced_point := (coerced_point parse_number).

Lemma assign_rows_map (i : nat) (f : cell -> cell) (rs : list (list cell)) :
  assign_rows i (map f (map (cell_at i) rs)) rs
  = map (fun row => set_cell i (f (cell_at i row)) row) rs.
Proof.
  induction rs as [|row rs IH]; simpl; [reflexivity | now rewrite IH].
Qed.

Lemma cell_at_coerced (i : nat) (row : list cell) :
  cell_at i (set_cell i (to_numeric_cell (cell_at i row)) row)
  = to_numeric_cell (cell_at i row).
Proof.
  destruct (Nat.lt_ge_cases i (List.length row)) as [Hlt | Hge].
  - now apply cell_at_set_cell_eq.
  - rewrite cell_at_set_cell_short by assumption.
    unfold cell_at. now rewrite nth_overflow by assumption.
Qed.

Lemma coerced_point_latitude (i j : nat) (row : list cell) :
  i <> j ->
  cell_at i (coerced_point i j row) = to_numeric_cell (cell_at i row).
Proof.
  intros Hij. unfold App.coerced_point.
  rewrite cell_at_set_cell_ne by assumption. apply cell_at_coerced.
Qed.

Lemma coerced_point_longitude (i j : nat) (row : list cell) :
  i <> j ->
  cell_at j (coerced_point i j row) = to_numeric_cell (cell_at j row).
Proof.
  intros Hij. unfold App.coerced_point.
  destruct (Nat.lt_ge_cases j (List.length row)) as [Hlt | Hge].
  - apply cell_at_set_cell_eq. now rewrite length_set_cell.
  - rewrite cell_at_set_cell_short by now rewrite length_set_cell.
    unfold cell_at. now rewrite nth_overflow by assumption.
Qed.

Lemma coerced_point_other (i j m : nat) (row : list cell) :
  m <> i -> m <> j -> cell_at m (coerced_point i j row) = cell_at m row.
Proof.
  intros Hi Hj. unfold App.coerced_point.
  now rewrite !cell_at_set_cell_ne by assumption.
Qed.

Lemma select_rows_two {A B} (g1 g2 : A -> B) (p q : B -> bool) (l : list A) :
  select_rows (mask_and (map p (map g1 l)) (map q (map g2 l))) l
  = List.filter (fun r => p (g1 r) && q (g2 r)) l.
Proof.
  induction l as [|r l IH]; simpl; auto.
  rewrite IH. reflexivity.
Qed.

Lemma between_complete (i j : nat) (lo1 hi1 lo2 hi2 : Q) (l : list (list cell)) :
  List.filter (fun r => between lo1 hi1 (cell_at i r) && between lo2 hi2 (cell_at j r))
              (List.filter (complete_at [i; j]) l)
  = List.filter (fun r => between lo1 hi1 (cell_at i r) && between lo2 hi2 (cell_at j r)) l.
Proof.
  induction l as [|r l IH]; [reflexivity |]. cbn [List.filter].
  assert (H : between lo1 hi1 (cell_at i r) && between lo2 hi2 (cell_at j r) = true ->
              complete_at [i; j] r = true).
  { unfold complete_at. cbn [forallb].
    destruct (cell_at i r), (cell_at j r); simpl; auto;
      rewrite ?andb_false_r; auto. }
  destruct (complete_at [i; j] r); cbn [List.filter]; rewrite IH; [reflexivity |].
  destruct (between lo1 hi1 (cell_at i r) && between lo2 hi2 (cell_at j r));
    [specialize (H eq_refl); discriminate | reflexivity].
Qed.

Lemma filter_coerced (i j : nat) (rs : list (list cell)) :
  i <> j ->
  List.filter (fun r => between (-90) 90 (cell_at i r) &&
                        between (-180) 180 (cell_at j r))
              (map (coerced_point i j) rs)
  = map (coerced_point i j) (List.filter (valid_point i j) rs).
Proof.
  intros Hij. induction rs as [|row rs IH]; simpl; auto.
  rewrite coerced_point_latitude, coerced_point_longitude by assumption.
  fold (valid_point i j row). destruct (valid_point i j row); simpl; now rewrite IH.
Qed.

(** The caller's table when [plot_folium_map_with_geojson] has returned:
    lines 77 and 78 have replaced its latitude and longitude columns. *)
Lemma coerced_table_rows (table : DataFrame) (i j : nat) :
  i <> j ->
  rows (setitem_at j Float64
          (map to_numeric_cell
               (map (cell_at j)
                    (rows (setitem_at i Float64
                             (map to_numeric_cell (map (cell_at i) (rows table)))
                             table))))
          (setitem_at i Float64
             (map to_numeric_cell (map (cell_at i) (rows table))) table))
  = map (coerced_point i j) (rows table).
Proof.
  intros Hij. cbn [setitem_at rows]. rewrite !assign_rows_map, map_map.
  apply map_ext. intros row. unfold App.coerced_point.
  now rewrite cell_at_set_cell_ne by auto.
Qed.

Lemma positions_distinct (a b : string) (cols : list string) (i j : nat) :
  a <> b -> positions a cols = [i] -> positions b cols = [j] -> i <> j.
Proof.
  intros Hab Ha Hb ->.
  apply positions_single in Ha, Hb. destruct Ha as [Ha _], Hb as [Hb _]. congruence.
Qed.

Lemma positions_has_column (df : DataFrame) (c : string) (i : nat) :
  positions c (columns df) = [i] -> has_column df c = true.
Proof.
  intros H. apply has_column_In. apply positions_single in H.
  destruct H as [H _]. eapply nth_error_In; eassumption.
Qed.

Lemma sanitize_missing (table : DataFrame) :
  has_column table "latitude" = false \/ has_column table "longitude" = false ->
  sanitize table = Some (MissingColumns, table).
Proof.
  intros H. unfold App.sanitize, App.plot_folium_map_with_geojson, bind, deref.
  cbn [heap nth_error].
  assert (E : has_column table "longitude" && has_column table "latitude" = false)
    by (destruct H as [-> | ->]; [apply andb_false_r | reflexivity]).
  rewrite E. reflexivity.
Qed.

Lemma getitem_single (df : DataFrame) (c : string) (i : nat) :
  positions c (columns df) = [i] ->
  getitem df c = Series (nth i (dtypes df) Object) (map (cell_at i) (rows df)).
Proof. intros H. unfold getitem. now rewrite H. Qed.

Lemma setitem_single (df : DataFrame) (c : string) (i : nat) dt values :
  positions c (columns df) = [i] ->
  setitem c (Series dt values) df = setitem_at i dt values df.
Proof. intros H. unfold setitem. now rewrite H. Qed.

(** The run of [sanitize] on a table that has each of the two columns once. *)
Lemma sanitize_present (table : DataFrame) (i j : nat) :
  positions "latitude" (columns table) = [i] ->
  positions "longitude" (columns table) = [j] ->
  sanitize table
  = Some (match List.filter (valid_point i j) (rows table) with
          | [] => NoValidPoints
          | _ :: _ =>
              Points {| columns := columns table;
                        dtypes := set_nth j Float64 (set_nth i Float64 (dtypes table));
                        rows := map (coerced_point i j)
                                    (List.filter (valid_point i j) (rows table)) |}
          end,
          {| columns := columns table;
             dtypes := set_nth j Float64 (set_nth i Float64 (dtypes table));
             rows := map (coerced_point i j) (rows table) |}).
Proof.
  intros Hi Hj.
  assert (Hij : i <> j) by (eapply positions_distinct; [| eassumption..]; discriminate).
  pose proof (coerced_table_rows table i j Hij) as Hrows.
  unfold App.sanitize, App.plot_folium_map_with_geojson, bind, deref.
  cbn [heap nth_error screen].
  rewrite (positions_has_column _ _ _ Hi), (positions_has_column _ _ _ Hj).
  cbn [andb]. rewrite (getitem_single _ _ _ Hi).
  unfold to_numeric at 1, ret at 1, store at 1. cbn [heap screen set_nth nth_error].
  rewrite (setitem_single _ _ _ _ _ Hi).
  set (t1 := setitem_at i Float64 _ table) in *.
  assert (Hj1 : positions "longitude" (columns t1) = [j]) by exact Hj.
  rewrite (getitem_single t1 _ _ Hj1).
  unfold to_numeric at 1, ret at 1, store at 1. cbn [heap screen set_nth nth_error].
  rewrite (setitem_single _ _ _ _ _ Hj1).
  set (t2 := setitem_at j Float64 _ t1) in *.
  assert (Hi2 : positions "latitude" (columns t2) = [i]) by exact Hi.
  assert (Hj2 : positions "longitude" (columns t2) = [j]) by exact Hj.
  unfold new at 1. cbn [heap screen List.length app nth_error].
  unfold dropna. cbn [flat_map]. rewrite Hi2, Hj2. cbn [app].
  set (t3 := dropna_at [i; j] t2).
  assert (Hi3 : positions "latitude" (columns t3) = [i]) by exact Hi.
  assert (Hj3 : positions "longitude" (columns t3) = [j]) by exact Hj.
  rewrite (getitem_single t3 _ _ Hi3), (getitem_single t3 _ _ Hj3).
  cbn [values_of]. unfold new at 1. cbn [heap screen List.length app nth_error].
  unfold boolean_index. rewrite select_rows_two.
  assert (Hr3 : rows t3 = List.filter (complete_at [i; j]) (rows t2)) by reflexivity.
  rewrite Hr3, between_complete, Hrows.
  rewrite filter_coerced by assumption.
  assert (Ht2 : t2 = {| columns := columns table;
                        dtypes := set_nth j Float64 (set_nth i Float64 (dtypes table));
                        rows := map (coerced_point i j) (rows table) |})
    by (rewrite <- Hrows; reflexivity).
  unfold empty, emit, t3. cbn [columns rows heap screen dtypes dropna_at].
  rewrite Ht2. cbn [columns rows heap screen dtypes].
  destruct (columns table) as [|c0 cols] eqn:Ecols; [discriminate |].
  destruct (List.filter (valid_point i j) (rows table)) as [|r l];
    cbn [map]; cbv beta iota; cbn [heap screen app nth_error]; reflexivity.
Qed.

Lemma valid_point_spec (i j : nat) (row : list cell) :
  valid_point i j row = true <->
  exists lat lon,
    to_numeric_cell (cell_at i row) = Num lat /\
    to_numeric_cell (cell_at j row) = Num lon /\
    (-90 <= lat)%Q /\ (lat <= 90)%Q /\ (-180 <= lon)%Q /\ (lon <= 180)%Q.
Proof.
  unfold App.valid_point, between. split.
  - destruct (to_numeric_cell (cell_at i row)) as [| lat | | |];
      try (cbn [andb]; discriminate).
    destruct (to_numeric_cell (cell_at j row)) as [| lon | | |];
      try (rewrite andb_false_r; discriminate).
    rewrite !andb_true_iff, !Qle_bool_iff. intros [[? ?] [? ?]].
    exists lat, lon. repeat split; assumption.
  - intros (lat & lon & -> & -> & H1 & H2 & H3 & H4).
    rewrite !andb_true_iff, !Qle_bool_iff. repeat split; assumption.
Qed.

Lemma filter_nil_iff {A} (f : A -> bool) (l : list A) :
  List.filter f l = [] <-> forall x, In x l -> f x = false.
Proof.
  induction l as [|x l IH]; simpl.
  - split; [intros _ y [] | reflexivity].
  - destruct (f x) eqn:E.
    + split; [discriminate |]. intros H. specialize (H x (or_introl eq_refl)).
      congruence.
    + rewrite IH. split.
      * intros H y [<- | Hy]; auto.
      * intros H y Hy. apply H. now right.
Qed.

(** C6.  A table without a "latitude" or without a "longitude" column gets
    the status [MissingColumns] (the warning that the columns are missing).
    A table that has both (each once) gets [NoValidPoints] (the error that
    there is no valid geographical data) exactly when no row survives, a row
    surviving when its two cells coerce to numbers with
    -90 <= latitude <= 90 and -180 <= longitude <= 180.  The two statuses
    differ: one row with latitude 91 gives [NoValidPoints], a table without
    longitude column gives [MissingColumns]. *)
Theorem sanitize_statuses :
  (forall table,
      has_column table "latitude" = false \/ has_column table "longitude" = false ->
      sanitize table = Some (MissingColumns, table)) /\
  (forall table i j,
      positions "latitude" (columns table) = [i] ->
      positions "longitude" (columns table) = [j] ->
      ((exists after, sanitize table = Some (NoValidPoints, after)) <->
       (forall row, In row (rows table) -> valid_point i j row = false)) /\
      (forall row,
          valid_point i j row = true <->
          exists lat lon,
            to_numeric_cell (cell_at i row) = Num lat /\
            to_numeric_cell (cell_at j row) = Num lon /\
            (-90 <= lat)%Q /\ (lat <= 90)%Q /\ (-180 <= lon)%Q /\ (lon <= 180)%Q)) /\
  MissingColumns <> NoValidPoints /\
  option_map fst
    (sanitize (mk_frame ["latitude"; "longitude"] [Float64; Float64]
                 [[Num 91; Num 0]]))
  = Some NoValidPoints /\
  option_map fst
    (sanitize (mk_frame ["datetime"; "latitude"] [Datetime64; Float64]
                 [[Ts (mk_datetime 2021 5 1 8 0 0 0); Num 45]]))
  = Some MissingColumns.
Proof.
  split; [exact sanitize_missing |].
  split; [| split; [discriminate | split; reflexivity]].
  intros table i j Hi Hj. split; [| apply valid_point_spec].
  rewrite (sanitize_present table i j Hi Hj), <- filter_nil_iff.
  destruct (List.filter (valid_point i j) (rows table)); split.
  - reflexivity.
  - eauto.
  - intros [after [=]].
  - discriminate.
Qed.

(** C8, amended.  For a table with the two columns, the rows that fail
    numeric coercion or the range check are left out of the plotted points
    only: the caller's table keeps its columns and all its rows, in order,
    and every cell outside the latitude and longitude columns.  Its latitude
    and longitude cells are overwritten with their numeric coercion. *)
Theorem sanitize_caller_table (table : DataFrame) (i j : nat)
    (result : GeoResult) (after : DataFrame) :
  positions "latitude" (columns table) = [i] ->
  positions "longitude" (columns table) = [j] ->
  sanitize table = Some (result, after) ->
  columns after = columns table /\
  List.length (rows after) = List.length (rows table) /\
  rows after = map (coerced_point i j) (rows table) /\
  (forall k row,
      nth_error (rows table) k = Some row ->
      exists row',
        nth_error (rows after) k = Some row' /\
        cell_at i row' = to_numeric_cell (cell_at i row) /\
        cell_at j row' = to_numeric_cell (cell_at j row) /\
        forall m, m <> i -> m <> j -> cell_at m row' = cell_at m row) /\
  (forall points,
      result = Points points ->
      rows points
      = map (coerced_point i j) (List.filter (valid_point i j) (rows table))).
Proof.
  intros Hi Hj Hrun.
  assert (Hij : i <> j) by (eapply positions_distinct; [| eassumption..]; discriminate).
  rewrite (sanitize_present table i j Hi Hj) in Hrun.
  injection Hrun as Hres <-. cbn [columns rows].
  split; [reflexivity |]. split; [apply length_map |]. split; [reflexivity |].
  split.
  - intros k row Hk. exists (coerced_point i j row).
    split; [now rewrite nth_error_map, Hk |].
    split; [now apply coerced_point_latitude |].
    split; [now apply coerced_point_longitude |].
    intros m Hmi Hmj. now apply coerced_point_other.
  - intros points ->.
    destruct (List.filter (valid_point i j) (rows table)); [discriminate |].
    now injection Hres as <-.
Qed.

End Numbers.

(** C6 at a table whose only row has latitude 95. *)
Lemma sanitize_statuses_witness :
  exists after,
    sanitize Sample.parse_number
      (mk_frame ["latitude"; "longitude"] [Object; Object] [[Str "95"; Str "N/A"]])
    = Some (NoValidPoints, after).
Proof.
  apply (proj2 (proj1 (proj1 (proj2 (sanitize_statuses Sample.parse_number))
                         (mk_frame ["latitude"; "longitude"] [Object; Object]
                            [[Str "95"; Str "N/A"]])
                         0 1 eq_refl eq_refl))).
  intros row [<- | []]. reflexivity.
Defined.

(** C8 at a table of two rows, one with the latitude "N/A". *)
Lemma sanitize_caller_table_witness :
  exists result after,
    sanitize Sample.parse_number
      (mk_frame ["latitude"; "longitude"] [Object; Object]
         [[Str "N/A"; Str "10"]; [Str "12.5"; Str "20"]])
    = Some (result, after) /\
    List.length (rows after) = 2.
Proof.
  eexists. eexists. split; [vm_compute; reflexivity |].
  exact (proj1 (proj2 (sanitize_caller_table Sample.parse_number
                         (mk_frame ["latitude"; "longitude"] [Object; Object]
                            [[Str "N/A"; Str "10"]; [Str "12.5"; Str "20"]])
                         0 1 _ _ eq_refl eq_refl eq_refl))).
Defined.

(** The claim C8 fails on that table: the caller's table keeps its two rows,
    but its latitude and longitude values are not unchanged; the text "N/A"
    has become the missing value and the text "10" the number 10. *)
Lemma sanitize_overwrites_caller_table :
  exists result after,
    sanitize Sample.parse_number
      (mk_frame ["latitude"; "longitude"] [Object; Object]
         [[Str "N/A"; Str "10"]; [Str "12.5"; Str "20"]])
    = Some (result, after) /\
    List.length (rows after) = 2 /\
    nth_error (rows after) 0 = Some [NaN; Num 10] /\
    rows after <> [[Str "N/A"; Str "10"]; [Str "12.5"; Str "20"]].
Proof.
  eexists. eexists. split; [vm_compute; reflexivity |].
  split; [reflexivity |]. split; [reflexivity |]. discriminate.
Qed.

End GeoFacts.

Module PipelineFacts.
Import Text Classifier Calendar Strptime Frame World App.

(** C9.  An upload whose declared size exceeds 300 MiB is rejected at once:
    the run shows the size error and nothing else, in particular
    [pd.read_csv] is not entered, whatever the readers are; no table is
    returned and no table object is created. *)
Theorem oversize_rejected
    (read_csv : string -> option DataFrame)
    (to_datetime_coerce : list cell -> list (option datetime))
    (to_datetime_kind : list cell -> conversion)
    (parse_number : string -> option Q)
    (min_max_error : DataFrame -> option exn)
    (uploaded_file : upload) (startParts endParts : parts) (w : world) :
  (max_upload_size < size uploaded_file)%N ->
  max_upload_size = (300 * 1024 * 1024)%N /\
  exists w',
    historical_data read_csv to_datetime_coerce to_datetime_kind parse_number
      min_max_error
      (Some uploaded_file) startParts endParts w = (Return None, w') /\
    screen w' = (screen w ++ [st_error FileTooLarge])%list /\
    ~ In read_csv_called [st_error FileTooLarge] /\
    heap w' = heap w.
Proof.
  intros Hsize. split; [reflexivity |].
  unfold historical_data. apply N.ltb_lt in Hsize. rewrite Hsize.
  eexists. split; [reflexivity |]. cbn.
  split; [reflexivity |]. split; [| reflexivity].
  intros [H | []]. discriminate.
Qed.

Lemma oversize_rejected_witness :
  exists w',
    historical_data Sample.read_csv Sample.to_datetime_coerce
      Sample.to_datetime_kind Sample.parse_number Sample.min_max_error
      (Some (mk_upload 314572801 ("date" ++ Sample.nl ++ "2021-01-01 00:00:00" ++ Sample.nl)))
      (mk_parts 2021 1 1 "00:00:00") (mk_parts 2021 12 31 "23:55:00")
      (mk_world [] [])
    = (Return None, w') /\
    screen w' = [st_error FileTooLarge].
Proof.
  destruct (oversize_rejected Sample.read_csv Sample.to_datetime_coerce
              Sample.to_datetime_kind Sample.parse_number Sample.min_max_error
              (mk_upload 314572801
                 ("date" ++ Sample.nl ++ "2021-01-01 00:00:00" ++ Sample.nl))
              (mk_parts 2021 1 1 "00:00:00") (mk_parts 2021 12 31 "23:55:00")
              (mk_world [] []) eq_refl) as [_ [w' [Hrun [Hscreen _]]]].
  exists w'. split; [exact Hrun | exact Hscreen].
Defined.

(** The whole pipeline on a file of three rows, one with an unreadable
    timestamp: two rows are kept; a window around both keeps both, a window
    before both keeps none, and neither is an error. *)
Example end_to_end :
  let text := "id,timestamp,volume,latitude,longitude" ++ Sample.nl
              ++ "1,2021-03-01 08:00:00,10,45.5,7.25" ++ Sample.nl
              ++ "2,soon,11,46,7" ++ Sample.nl
              ++ "3,2021-03-02 09:30:00,12,47,8" ++ Sample.nl in
  exists table kept,
    normalize Sample.read_csv Sample.to_datetime_coerce Sample.to_datetime_kind
      (mk_upload 120 text)
    = Some (inr table) /\
    List.length (rows table) = 2 /\
    filter table (mk_datetime 2021 1 1 0 0 0 0, mk_datetime 2021 12 31 23 55 0 0)
    = Return kept /\
    List.length (rows kept) = 2 /\
    filter table (mk_datetime 2020 1 1 0 0 0 0, mk_datetime 2020 12 31 23 55 0 0)
    = Return (mk_frame (columns table) (dtypes table) []).
Proof.
  eexists. eexists. split; [vm_compute; reflexivity |].
  split; [reflexivity |]. split; [vm_compute; reflexivity |].
  split; reflexivity.
Qed.

End PipelineFacts.

Module CaseFacts.
Import Text TextFacts Classifier ClassifierFacts.

Lemma lower_ascii_idem (c : ascii) : lower_ascii (lower_ascii c) = lower_ascii c.
Proof. destruct c as [[] [] [] [] [] [] [] []]; reflexivity. Qed.

Lemma lower_idem (s : string) : lower (lower s) = lower s.
Proof.
  induction s as [|c s IH]; simpl; [reflexivity |].
  now rewrite lower_ascii_idem, IH.
Qed.

Lemma any_keyword_in_lower (keywords : list string) (col : string) :
  any_keyword_in keywords (lower col) = any_keyword_in keywords col.
Proof. unfold any_keyword_in. now rewrite lower_idem. Qed.

Lemma first_mentioning_lower (keywords cols : list string) :
  first_mentioning keywords (map lower cols)
  = option_map lower (first_mentioning keywords cols).
Proof.
  induction cols as [|col cols IH]; simpl; [reflexivity |].
  rewrite any_keyword_in_lower, IH. now destruct (any_keyword_in keywords col).
Qed.

Lemma columns_mentioning_lower (keywords cols : list string) :
  columns_mentioning keywords (map lower cols)
  = map lower (columns_mentioning keywords cols).
Proof.
  induction cols as [|col cols IH]; simpl; [reflexivity |].
  rewrite any_keyword_in_lower, IH. now destruct (any_keyword_in keywords col).
Qed.

(** Detection does not depend on the case of the headers: on the lower-cased
    headers (line 52) both detections find the same columns as on the
    headers as written, lower-cased. *)
Theorem detection_ignores_case (cols : list string) :
  detect_datetime_column (map lower cols)
  = option_map lower (detect_datetime_column cols) /\
  detect_traffic_volume_columns (map lower cols)
  = map lower (detect_traffic_volume_columns cols).
Proof.
  split; [apply first_mentioning_lower | apply columns_mentioning_lower].
Qed.

Lemma columns_mentioning_ext kws1 kws2 cols :
  (forall col, any_keyword_in kws1 col = any_keyword_in kws2 col) ->
  columns_mentioning kws1 cols = columns_mentioning kws2 cols.
Proof.
  intros H. induction cols as [|col cols IH]; simpl; auto.
  now rewrite H, IH.
Qed.

(** The keyword "traffic_volume" of the volume detection is redundant: the
    three keywords "volume", "traffic", "count" select the same columns,
    since a header containing "traffic_volume" contains "volume". *)
Theorem volume_keywords_redundant (cols : list string) :
  detect_traffic_volume_columns cols
  = columns_mentioning ["volume"; "traffic"; "count"] cols.
Proof.
  apply columns_mentioning_ext. intros col.
  unfold any_keyword_in, volume_keywords. cbn [existsb].
  set (s := lower col).
  assert (H : str_in "traffic_volume" s = true -> str_in "volume" s = true).
  { rewrite !str_in_spec. apply Substring_trans. now exists "traffic_", "". }
  destruct (str_in "traffic_volume" s), (str_in "volume" s); simpl; auto.
  specialize (H eq_refl). discriminate.
Qed.

End CaseFacts.

Module RunFacts.
Import Text TextFacts Classifier ClassifierFacts Calendar Strptime Frame FrameFacts
       World App NormalizeFacts WindowFacts.

(** The run of lines 179-182 on a table with one "datetime" column. *)
Lemma selectable_run (table : DataFrame) (i : nat) (w : world) :
  positions "datetime" (columns table) = [i] ->
  selectable table w
  = (Return {| years := sorted (unique (dt_year (map (cell_at i) (rows table))));
               months := range 1 13 1;
               days := range 1 32 1;
               times := generate_time_options |}, w).
Proof. intros Hpos. unfold selectable, getitem. now rewrite Hpos. Qed.

(** The run of lines 176-177 on a table with one "datetime" column of
    timestamps, whatever the reader of the other cases is. *)
Lemma datetime_range_run (min_max_error : DataFrame -> option exn)
    (table : DataFrame) (i : nat) (w : world) :
  positions "datetime" (columns table) = [i] ->
  nth i (dtypes table) Object = Datetime64 \/
  nth i (dtypes table) Object = Datetime64tz ->
  datetime_range min_max_error table w = (Return tt, w).
Proof.
  intros Hpos Hdt. unfold datetime_range, getitem. rewrite Hpos.
  now destruct Hdt as [-> | ->].
Qed.

Section Readers.

Variable read_csv : string -> option DataFrame.
Variable to_datetime_coerce : list cell -> list (option datetime).
Variable to_datetime_kind : list cell -> conversion.

Abbreviation normalize := (normalize read_csv to_datetime_coerce to_datetime_kind).
Abbreviation normalized := (normalized to_datetime_coerce to_datetime_kind).

(** A successful [normalize] returns the table [normalized] describes. *)
Lemma normalize_inr_normalized (uploaded_file : upload) (data table : DataFrame) :
  read_csv (content uploaded_file) = Some data ->
  well_formed data ->
  normalize uploaded_file = Some (inr table) ->
  exists c i,
    detect_datetime_column (map lower (columns data)) = Some c /\
    positions c (map lower (columns data)) = [i] /\
    table = normalized c i data.
Proof.
  intros Hread Hdata Hn.
  destruct (detect_datetime_column (map lower (columns data))) as [c|] eqn:Hd;
    [| rewrite (normalize_no_datetime _ _ _ _ _ Hread Hd) in Hn; discriminate].
  destruct (normalize_detected read_csv to_datetime_coerce to_datetime_kind
              _ _ _ Hread (proj1 Hdata) Hd)
    as [(i & Hp & Hk & Hn') | [(i & Hp & Hk & Hn') |
        [(i & e & Hp & Hk & Hn') | (n & Hp & Hn')]]];
    rewrite Hn' in Hn; try discriminate.
  injection Hn as <-. exists c, i. auto.
Qed.

(** The datetime column of a normalised table has a timestamp type. *)
Lemma normalized_dtype (c : string) (i : nat) (data : DataFrame) :
  well_formed data ->
  positions c (map lower (columns data)) = [i] ->
  nth i (dtypes (normalized c i data)) Object = Datetime64 \/
  nth i (dtypes (normalized c i data)) Object = Datetime64tz.
Proof.
  intros [Hlen _] Hp. destruct (positions_single _ _ _ Hp) as [_ Hi].
  rewrite length_map in Hi. cbn [App.normalized dtypes].
  rewrite nth_set_nth by lia.
  destruct (to_datetime_kind _); auto.
Qed.

Lemma normalized_label (c : string) (i : nat) (data : DataFrame) :
  positions c (map lower (columns data)) = [i] ->
  nth_error (columns (normalized c i data)) i = Some "datetime".
Proof.
  intros Hp. destruct (positions_single _ _ _ Hp) as [Hc _].
  cbn [App.normalized columns]. rewrite nth_error_map, Hc. simpl.
  now rewrite String.eqb_refl.
Qed.

Lemma normalized_other_labels (c : string) (i j : nat) (data : DataFrame) :
  positions c (map lower (columns data)) = [i] -> j <> i ->
  nth_error (columns (normalized c i data)) j
  = nth_error (map lower (columns data)) j.
Proof.
  intros Hp Hj. cbn [App.normalized columns]. rewrite nth_error_map.
  destruct (nth_error (map lower (columns data)) j) as [x|] eqn:Hx; auto.
  simpl. destruct (String.eqb_spec x c) as [-> | Hne]; auto.
  exfalso. apply positions_In in Hx. rewrite Hp in Hx.
  destruct Hx as [<- | []]. congruence.
Qed.

Lemma normalized_rows (c : string) (i : nat) (data : DataFrame) :
  well_formed data ->
  positions c (map lower (columns data)) = [i] ->
  rows (normalized c i data)
  = flat_map (keep_parsed i)
      (combine (rows data) (to_datetime_coerce (map (cell_at i) (rows data)))).
Proof.
  intros Hdata Hp. destruct (positions_single _ _ _ Hp) as [_ Hi].
  rewrite length_map in Hi. cbn [App.normalized rows].
  apply coerce_and_drop, well_formed_rows; assumption.
Qed.

Lemma normalized_cells (c : string) (i : nat) (data : DataFrame) (row' : list cell) :
  well_formed data ->
  positions c (map lower (columns data)) = [i] ->
  In row' (rows (normalized c i data)) ->
  exists t, cell_at i row' = Ts t.
Proof.
  intros Hdata Hp Hin. rewrite normalized_rows in Hin by assumption.
  apply flat_map_keep_In in Hin. destruct Hin as (row & t & Hin & ->).
  exists t. apply cell_at_set_cell_eq.
  destruct (positions_single _ _ _ Hp) as [_ Hi]. rewrite length_map in Hi.
  pose proof (well_formed_rows data i Hdata Hi) as Hall.
  rewrite Forall_forall in Hall. apply Hall.
  eapply in_combine_l; eassumption.
Qed.

End Readers.

End RunFacts.

Module NormalizeMore.
Import Text TextFacts Classifier ClassifierFacts Calendar Strptime Frame FrameFacts
       World App NormalizeFacts WindowFacts RunFacts.

Section Readers.

Variable read_csv : string -> option DataFrame.
Variable to_datetime_coerce : list cell -> list (option datetime).
Variable to_datetime_kind : list cell -> conversion.

Abbreviation preprocess_data :=
  (preprocess_data read_csv to_datetime_coerce to_datetime_kind).
Abbreviation normalize := (normalize read_csv to_datetime_coerce to_datetime_kind).

Lemma positions_two (c : string) (cols : list string) (j1 j2 : nat) :
  j1 <> j2 ->
  nth_error cols j1 = Some c -> nth_error cols j2 = Some c ->
  exists n, List.length (positions c cols) = S (S n).
Proof.
  intros Hne H1 H2. apply positions_In in H1, H2.
  destruct (positions c cols) as [|p [|q ps]] eqn:E.
  - destruct H1.
  - destruct H1 as [<- | []], H2 as [<- | []]. congruence.
  - simpl. eauto.
Qed.

(** Two headers that are equal once lower-cased, the first of them being the
    detected datetime column, make [preprocess_data] fail with an exception
    nothing catches: line 55 gets a frame instead of a column and
    [pd.to_datetime] raises [ValueError]; no message is shown. *)
Theorem repeated_datetime_header_raises (uploaded_file : upload) (w : world)
    (data : DataFrame) (c : string) (j1 j2 : nat) :
  read_csv (content uploaded_file) = Some data ->
  detect_datetime_column (map lower (columns data)) = Some c ->
  j1 <> j2 ->
  nth_error (map lower (columns data)) j1 = Some c ->
  nth_error (map lower (columns data)) j2 = Some c ->
  preprocess_data uploaded_file w = (Raise ValueError, after_read w []) /\
  normalize uploaded_file = None.
Proof.
  intros Hread Hd Hne H1 H2.
  destruct (positions_two _ _ _ _ Hne H1 H2) as [n Hn].
  split.
  - eapply preprocess_data_repeated; eassumption.
  - eapply normalize_repeated; eassumption.
Qed.

Lemma volume_not_datetime : any_keyword_in volume_keywords "datetime" = false.
Proof. reflexivity. Qed.

(** The column taken as datetime column is never offered as a traffic volume
    column afterwards, even if its header mentions a volume keyword (such as
    "date_count"): in the normalised table the volume columns are exactly the
    other lower-cased headers that mention a volume keyword. *)
Theorem volume_columns_of_normalized (uploaded_file : upload)
    (data table : DataFrame) :
  read_csv (content uploaded_file) = Some data ->
  well_formed data ->
  normalize uploaded_file = Some (inr table) ->
  ~ In "datetime" (detect_traffic_volume_columns (columns table)) /\
  exists i,
    nth_error (map lower (columns data)) i
    = detect_datetime_column (map lower (columns data)) /\
    forall h,
      In h (detect_traffic_volume_columns (columns table)) <->
      exists j, j <> i /\
                nth_error (map lower (columns data)) j = Some h /\
                Mentions volume_keywords h.
Proof.
  intros Hread Hwf Hn.
  destruct (normalize_inr_normalized _ _ _ _ _ _ Hread Hwf Hn)
    as (c & i & Hd & Hp & ->).
  pose proof (normalized_label to_datetime_coerce to_datetime_kind _ _ _ Hp) as Hi.
  pose proof (fun j => normalized_other_labels to_datetime_coerce to_datetime_kind _ _ j _ Hp)
    as Hother.
  destruct (positions_single _ _ _ Hp) as [Hc _].
  assert (Hnot : ~ Mentions volume_keywords "datetime").
  { apply any_keyword_in_false. reflexivity. }
  split.
  - unfold detect_traffic_volume_columns. rewrite columns_mentioning_In. tauto.
  - exists i. split; [congruence |]. intros h.
    unfold detect_traffic_volume_columns. rewrite columns_mentioning_In. split.
    + intros [Hin Hm]. apply In_nth_error in Hin. destruct Hin as [j Hj].
      exists j. destruct (Nat.eq_dec j i) as [-> | Hji].
      * rewrite Hi in Hj. injection Hj as <-. contradiction.
      * repeat split; auto. now rewrite <- Hother.
    + intros [j [Hji [Hj Hm]]]. split; auto.
      rewrite <- Hother in Hj by assumption. eapply nth_error_In; eassumption.
Qed.

Lemma flat_map_keep_all (i : nat) (rs : list (list cell))
    (coerced : list (option datetime)) :
  List.length coerced = List.length rs ->
  Forall (fun o => o <> None) coerced ->
  List.length (flat_map (keep_parsed i) (combine rs coerced)) = List.length rs.
Proof.
  revert coerced. induction rs as [|row rs IH]; intros [|o coerced] Hlen Hall;
    simpl in *; try lia.
  inversion Hall as [|? ? Ho Hall']; subst.
  destruct o as [t|]; [| congruence]. simpl. rewrite IH; auto.
Qed.

(** A file whose datetime values can all be read keeps every row: the
    normalised table has as many rows as the parsed one. *)
Theorem normalize_keeps_readable_rows (uploaded_file : upload)
    (data table : DataFrame) :
  read_csv (content uploaded_file) = Some data ->
  well_formed data ->
  normalize uploaded_file = Some (inr table) ->
  (forall i,
      nth_error (map lower (columns data)) i
      = detect_datetime_column (map lower (columns data)) ->
      List.length (to_datetime_coerce (map (cell_at i) (rows data)))
      = List.length (rows data) /\
      Forall (fun o => o <> None)
             (to_datetime_coerce (map (cell_at i) (rows data)))) ->
  List.length (rows table) = List.length (rows data).
Proof.
  intros Hread Hwf Hn Hall.
  destruct (normalize_inr_normalized _ _ _ _ _ _ Hread Hwf Hn)
    as (c & i & Hd & Hp & ->).
  destruct (positions_single _ _ _ Hp) as [Hc _].
  destruct (Hall i ltac:(congruence)) as [Hlen Hsome].
  rewrite normalized_rows by assumption. now apply flat_map_keep_all.
Qed.

(** The years offered for a normalised table that has rows are never an
    empty list, and hold the year of every row: the select boxes of lines
    185 and 191 always have an option to show. *)
Theorem years_cover_rows (uploaded_file : upload) (data table : DataFrame)
    (i : nat) (w : world) :
  read_csv (content uploaded_file) = Some data ->
  well_formed data ->
  normalize uploaded_file = Some (inr table) ->
  positions "datetime" (columns table) = [i] ->
  rows table <> [] ->
  exists offered,
    selectable table w = (Return offered, w) /\
    years offered <> [] /\
    forall row, In row (rows table) ->
                exists t, cell_at i row = Ts t /\ In (year t) (years offered).
Proof.
  intros Hread Hwf Hn Hpos Hne.
  destruct (normalize_inr_normalized _ _ _ _ _ _ Hread Hwf Hn)
    as (c & i' & _ & Hp & ->).
  pose proof (normalized_label to_datetime_coerce to_datetime_kind _ _ _ Hp) as Hi'.
  assert (i' = i).
  { apply positions_In in Hi'. rewrite Hpos in Hi'. now destruct Hi' as [-> | []]. }
  subst i'.
  rewrite (selectable_run _ i w Hpos).
  eexists. split; [reflexivity |]. cbn [years].
  assert (Hcover : forall row,
             In row (rows (normalized to_datetime_coerce to_datetime_kind c i data)) ->
             exists t, cell_at i row = Ts t /\
                       In (year t)
                          (sorted (unique (dt_year
                             (map (cell_at i)
                                  (rows (normalized to_datetime_coerce to_datetime_kind c i data))))))).
  { intros row Hrow.
    destruct (normalized_cells to_datetime_coerce to_datetime_kind _ _ _ _ Hwf Hp Hrow) as [t Ht].
    exists t. split; [exact Ht |].
    rewrite sorted_In, unique_In, dt_year_In. exists t. split; [| reflexivity].
    rewrite <- Ht. now apply in_map. }
  split; [| exact Hcover].
  destruct (rows (normalized to_datetime_coerce to_datetime_kind c i data)) as [|row rs] eqn:Erows;
    [congruence |].
  destruct (Hcover row (or_introl eq_refl)) as (t & _ & Hin).
  intros E. rewrite E in Hin. destruct Hin.
Qed.

End Readers.

Lemma repeated_datetime_header_raises_witness :
  normalize Sample.read_csv Sample.to_datetime_coerce Sample.to_datetime_kind
    (mk_upload 40 ("Date,date" ++ Sample.nl ++ "2021-01-01 00:00:00,x" ++ Sample.nl))
  = None.
Proof.
  exact (proj2 (repeated_datetime_header_raises Sample.read_csv
                  Sample.to_datetime_coerce Sample.to_datetime_kind
                  (mk_upload 40 ("Date,date" ++ Sample.nl
                                 ++ "2021-01-01 00:00:00,x" ++ Sample.nl))
                  (mk_world [] []) _ "date" 0 1 eq_refl eq_refl
                  (fun H => O_S _ H) eq_refl eq_refl)).
Defined.

Lemma volume_columns_of_normalized_witness :
  ~ In "datetime"
      (detect_traffic_volume_columns ["datetime"; "volume"]).
Proof.
  assert (Hwf : well_formed
                  (mk_frame ["Date_Count"; "Volume"] [Object; Object]
                     [[Str "2021-01-01 00:00:00"; Str "5"]]))
    by (split; [reflexivity | repeat constructor]).
  exact (proj1 (volume_columns_of_normalized Sample.read_csv
                  Sample.to_datetime_coerce Sample.to_datetime_kind
                  (mk_upload 40 ("Date_Count,Volume" ++ Sample.nl
                                 ++ "2021-01-01 00:00:00,5" ++ Sample.nl))
                  _ _ eq_refl Hwf eq_refl)).
Defined.

Lemma normalize_keeps_readable_rows_witness :
  List.length
    (rows (mk_frame ["datetime"; "volume"] [Datetime64; Object]
             [[Ts (mk_datetime 2021 1 1 0 0 0 0); Str "5"];
              [Ts (mk_datetime 2021 1 2 0 0 0 0); Str "6"]]))
  = 2.
Proof.
  assert (Hwf : well_formed
                  (mk_frame ["Date"; "Volume"] [Object; Object]
                     [[Str "2021-01-01 00:00:00"; Str "5"];
                      [Str "2021-01-02 00:00:00"; Str "6"]]))
    by (split; [reflexivity | repeat constructor]).
  refine (normalize_keeps_readable_rows Sample.read_csv Sample.to_datetime_coerce
            Sample.to_datetime_kind
            (mk_upload 60 ("Date,Volume" ++ Sample.nl ++ "2021-01-01 00:00:00,5"
                           ++ Sample.nl ++ "2021-01-02 00:00:00,6" ++ Sample.nl))
            _ _ eq_refl Hwf eq_refl _).
  intros [|[|[|i]]] Hi; vm_compute in Hi; try discriminate.
  split; [reflexivity |]. repeat constructor; discriminate.
Defined.

Lemma years_cover_rows_witness :
  exists offered,
    selectable (mk_frame ["datetime"; "volume"] [Datetime64; Object]
                  [[Ts (mk_datetime 2021 1 1 0 0 0 0); Str "5"]])
               (mk_world [] [])
    = (Return offered, mk_world [] []) /\
    years offered <> [].
Proof.
  assert (Hwf : well_formed
                  (mk_frame ["Date"; "Volume"] [Object; Object]
                     [[Str "2021-01-01 00:00:00"; Str "5"]]))
    by (split; [reflexivity | repeat constructor]).
  destruct (years_cover_rows Sample.read_csv Sample.to_datetime_coerce
              Sample.to_datetime_kind
              (mk_upload 40 ("Date,Volume" ++ Sample.nl
                             ++ "2021-01-01 00:00:00,5" ++ Sample.nl))
              _ _ 0 (mk_world [] []) eq_refl Hwf eq_refl eq_refl
              ltac:(discriminate))
    as (offered & Hrun & Hne & _).
  exists offered. split; assumption.
Defined.

End NormalizeMore.

Module GeoMore.
Import Text Classifier ClassifierFacts Calendar Frame FrameFacts World App
       GeoFacts Dashboard.

Section Numbers.

Variable parse_number : string -> option Q.

Abbreviation to_numeric_cell := (to_numeric_cell parse_number).
Abbreviation plot_folium_map_with_geojson :=
  (plot_folium_map_with_geojson parse_number).
Abbreviation sanitize := (sanitize parse_number).
Abbreviation valid_point := (valid_point parse_number).
Abbreviation coerced_point := (coerced_point parse_number).

Lemma to_numeric_cell_idem (c : cell) :
  to_numeric_cell (to_numeric_cell c) = to_numeric_cell c.
Proof.
  destruct c as [s | q | | t |]; simpl; auto.
  now destruct (parse_number s).
Qed.

Lemma set_cell_same (i : nat) (row : list cell) :
  set_cell i (cell_at i row) row = row.
Proof.
  unfold cell_at. revert i. induction row as [|x row IH]; intros [|i]; simpl; auto.
  now rewrite IH.
Qed.

Lemma coerced_point_idem (i j : nat) (row : list cell) :
  i <> j ->
  coerced_point i j (coerced_point i j row) = coerced_point i j row.
Proof.
  intros Hij. unfold App.coerced_point at 1.
  rewrite coerced_point_latitude, coerced_point_longitude by assumption.
  rewrite !to_numeric_cell_idem.
  rewrite <- (coerced_point_latitude parse_number i j row Hij) at 1.
  rewrite set_cell_same.
  rewrite <- (coerced_point_longitude parse_number i j row Hij) at 1.
  apply set_cell_same.
Qed.

Lemma valid_point_coerced (i j : nat) (row : list cell) :
  i <> j ->
  valid_point i j (coerced_point i j row) = valid_point i j row.
Proof.
  intros Hij. unfold App.valid_point.
  rewrite coerced_point_latitude, coerced_point_longitude by assumption.
  now rewrite !to_numeric_cell_idem.
Qed.

Lemma filter_map_coerced (i j : nat) (rs : list (list cell)) :
  i <> j ->
  List.filter (valid_point i j) (map (coerced_point i j) rs)
  = map (coerced_point i j) (List.filter (valid_point i j) rs).
Proof.
  intros Hij. induction rs as [|row rs IH]; simpl; auto.
  rewrite valid_point_coerced by assumption.
  destruct (valid_point i j row); simpl; now rewrite IH.
Qed.

Lemma set_nth_twice {A} (i : nat) (u v : A) (l : list A) :
  set_nth i v (set_nth i u l) = set_nth i v l.
Proof.
  revert i. induction l as [|x l IH]; intros [|i]; simpl; auto.
  now rewrite IH.
Qed.

Lemma set_nth_comm {A} (i j : nat) (u v : A) (l : list A) :
  i <> j -> set_nth i u (set_nth j v l) = set_nth j v (set_nth i u l).
Proof.
  revert i j. induction l as [|x l IH]; intros [|i] [|j] Hij; simpl; auto;
    try congruence.
  rewrite IH; auto.
Qed.

(** Calling the map step a second time on the table it has already been
    given changes nothing more: the status and the points are the same and
    the caller's table stays as the first call left it. *)
Theorem sanitize_twice (table : DataFrame) (i j : nat)
    (result : GeoResult) (after : DataFrame) :
  positions "latitude" (columns table) = [i] ->
  positions "longitude" (columns table) = [j] ->
  sanitize table = Some (result, after) ->
  sanitize after = Some (result, after).
Proof.
  intros Hi Hj Hrun.
  assert (Hij : i <> j) by (eapply positions_distinct; [| eassumption..]; discriminate).
  rewrite (sanitize_present parse_number table i j Hi Hj) in Hrun.
  injection Hrun as Hres Hafter.
  assert (Hc : columns after = columns table) by (rewrite <- Hafter; reflexivity).
  rewrite (sanitize_present parse_number after i j)
    by (rewrite Hc; assumption).
  subst result after. cbn [columns dtypes rows].
  rewrite (set_nth_comm i j Float64 Float64 (set_nth i Float64 (dtypes table)))
    by assumption.
  rewrite !set_nth_twice.
  rewrite filter_map_coerced, !map_map by assumption.
  rewrite (map_ext _ _ (fun row => coerced_point_idem i j row Hij)).
  destruct (List.filter (valid_point i j) (rows table)) as [|r l]; cbn [map];
    rewrite ?coerced_point_idem, ?(map_ext _ _ (fun row => coerced_point_idem i j row Hij))
      by assumption;
    reflexivity.
Qed.

Lemma Subseq_map_filter {A B} (g : A -> B) (f : A -> bool) (l : list A) :
  Subseq (map g l) (map g (List.filter f l)).
Proof.
  induction l as [|x l IH]; simpl; [constructor |].
  destruct (f x); simpl; now constructor.
Qed.

(** The points handed to the map are never an empty table; they are rows of
    the caller's table (as the call leaves it), in order, and every one of
    them has a number between -90 and 90 as latitude and a number between
    -180 and 180 as longitude. *)
Theorem points_are_valid (table : DataFrame) (i j : nat)
    (points after : DataFrame) :
  positions "latitude" (columns table) = [i] ->
  positions "longitude" (columns table) = [j] ->
  sanitize table = Some (Points points, after) ->
  rows points <> [] /\
  Subseq (rows after) (rows points) /\
  List.length (rows points) <= List.length (rows table) /\
  forall row, In row (rows points) ->
    exists lat lon,
      cell_at i row = Num lat /\ cell_at j row = Num lon /\
      (-90 <= lat)%Q /\ (lat <= 90)%Q /\ (-180 <= lon)%Q /\ (lon <= 180)%Q.
Proof.
  intros Hi Hj Hrun.
  assert (Hij : i <> j) by (eapply positions_distinct; [| eassumption..]; discriminate).
  rewrite (sanitize_present parse_number table i j Hi Hj) in Hrun.
  injection Hrun as Hres <-. cbn [rows].
  pose proof (Subseq_map_filter (coerced_point i j) (valid_point i j) (rows table))
    as Hsub.
  assert (Hlen : List.length (map (coerced_point i j)
                                  (List.filter (valid_point i j) (rows table)))
                 <= List.length (rows table))
    by (rewrite length_map; apply filter_length_le).
  assert (Hval : forall row,
             In row (map (coerced_point i j)
                         (List.filter (valid_point i j) (rows table))) ->
             exists lat lon,
               cell_at i row = Num lat /\ cell_at j row = Num lon /\
               (-90 <= lat)%Q /\ (lat <= 90)%Q /\ (-180 <= lon)%Q /\ (lon <= 180)%Q).
  { intros row Hrow. apply in_map_iff in Hrow. destruct Hrow as [row0 [<- Hrow0]].
    apply filter_In in Hrow0. destruct Hrow0 as [_ Hv].
    apply valid_point_spec in Hv. destruct Hv as (lat & lon & Hlat & Hlon & Hr).
    exists lat, lon.
    rewrite coerced_point_latitude, coerced_point_longitude by assumption.
    auto. }
  destruct (List.filter (valid_point i j) (rows table)) as [|r l];
    [discriminate |].
  injection Hres as <-. cbn [rows].
  split; [discriminate |]. auto.
Qed.

End Numbers.

Lemma sanitize_twice_witness :
  exists result after,
    sanitize Sample.parse_number
      (mk_frame ["latitude"; "longitude"] [Object; Object]
         [[Str "N/A"; Str "10"]; [Str "12.5"; Str "20"]])
    = Some (result, after) /\
    sanitize Sample.parse_number after = Some (result, after).
Proof.
  eexists. eexists. split; [vm_compute; reflexivity |].
  exact (sanitize_twice Sample.parse_number
           (mk_frame ["latitude"; "longitude"] [Object; Object]
              [[Str "N/A"; Str "10"]; [Str "12.5"; Str "20"]])
           0 1 _ _ eq_refl eq_refl eq_refl).
Defined.

Lemma points_are_valid_witness :
  exists points after,
    sanitize Sample.parse_number
      (mk_frame ["latitude"; "longitude"] [Object; Object]
         [[Str "N/A"; Str "10"]; [Str "12.5"; Str "20"]])
    = Some (Points points, after) /\
    rows points <> [].
Proof.
  eexists. eexists. split; [vm_compute; reflexivity |].
  exact (proj1 (points_are_valid Sample.parse_number
                  (mk_frame ["latitude"; "longitude"] [Object; Object]
                     [[Str "N/A"; Str "10"]; [Str "12.5"; Str "20"]])
                  0 1 _ _ eq_refl eq_refl eq_refl)).
Defined.

End GeoMore.

Module DriverFacts.
Import Text Classifier ClassifierFacts Calendar Strptime Frame FrameFacts World App
       NormalizeFacts WindowFacts GeoFacts RunFacts GeoMore Dashboard.
Local Open Scope prog_scope.







Lemma set_nth_same {A} (i : nat) (x : A) (l : list A) :
  nth_error l i = Some x -> set_nth i x l = l.
Proof.
  revert i. induction l as [|y l IH]; intros [|i] H; simpl in *; try discriminate.
  - now injection H as ->.
  - now rewrite IH.
Qed.

Section Numbers.

Variable parse_number : string -> option Q.

Abbreviation plot_folium_map_with_geojson :=
  (plot_folium_map_with_geojson parse_number).
Abbreviation sanitize := (sanitize parse_number).
Abbreviation valid_point := (valid_point parse_number).
Abbreviation coerced_point := (coerced_point parse_number).



End Numbers.


Section Readers.

Variable read_csv : string -> option DataFrame.
Variable to_datetime_coerce : list cell -> list (option datetime).
Variable to_datetime_kind : list cell -> conversion.
Variable parse_number : string -> option Q.
Variable min_max_error : DataFrame -> option exn.

Abbreviation preprocess_data :=
  (preprocess_data read_csv to_datetime_coerce to_datetime_kind).
Abbreviation normalize := (normalize read_csv to_datetime_coerce to_datetime_kind).
Abbreviation sanitize := (sanitize parse_number).
Abbreviation historical_data :=
  (historical_data read_csv to_datetime_coerce to_datetime_kind parse_number
     min_max_error).

(** A successful [normalize] is a successful [preprocess_data] in every
    world, showing nothing. *)
Lemma normalize_run (uploaded_file : upload) (data table : DataFrame) (w : world) :
  read_csv (content uploaded_file) = Some data ->
  well_formed data ->
  normalize uploaded_file = Some (inr table) ->
  preprocess_data uploaded_file w = (Return (Some table), after_read w []).
Proof.
  intros Hread Hdata Hn.
  destruct (detect_datetime_column (map lower (columns data))) as [c|] eqn:Hd;
    [| rewrite (normalize_no_datetime _ _ _ _ _ Hread Hd) in Hn; discriminate].
  destruct (normalize_detected read_csv to_datetime_coerce to_datetime_kind
              _ _ _ Hread (proj1 Hdata) Hd)
    as [(i & Hp & Hk & Hn') | [(i & Hp & Hk & Hn') |
        [(i & e & Hp & Hk & Hn') | (n & Hp & Hn')]]];
    rewrite Hn' in Hn; try discriminate.
  injection Hn as <-.
  apply preprocess_data_normalized; [exact Hread | exact Hd | exact Hp |
                                     exact (proj1 Hdata) | exact Hk].
Qed.

(** The one "datetime" column of a normalised table is the converted one,
    so it has a timestamp type. *)
Lemma normalize_datetime_dtype (uploaded_file : upload) (data table : DataFrame)
    (i : nat) :
  read_csv (content uploaded_file) = Some data ->
  well_formed data ->
  normalize uploaded_file = Some (inr table) ->
  positions "datetime" (columns table) = [i] ->
  nth i (dtypes table) Object = Datetime64 \/
  nth i (dtypes table) Object = Datetime64tz.
Proof.
  intros Hread Hdata Hn Hpos.
  destruct (normalize_inr_normalized _ _ _ _ _ _ Hread Hdata Hn)
    as (c & i' & _ & Hp & ->).
  pose proof (normalized_label to_datetime_coerce to_datetime_kind _ _ _ Hp) as Hi'.
  assert (i' = i).
  { apply positions_In in Hi'. rewrite Hpos in Hi'. now destruct Hi' as [-> | []]. }
  subst i'. now apply normalized_dtype.
Qed.

Lemma table_not_empty (table : DataFrame) (j : nat) (c : string) :
  nth_error (columns table) j = Some c -> rows table <> [] ->
  empty table = false.
Proof.
  intros Hj Hrows. unfold empty.
  destruct (columns table); [now destruct j |].
  destruct (rows table); [congruence | reflexivity].
Qed.

(** A file that is read but leaves no row (a header line only, or no
    datetime value that can be read) makes the dashboard show nothing at
    all: no table, no map, no chart and no message. *)
Theorem empty_table_shows_nothing (uploaded_file : upload)
    (data table : DataFrame) (startParts endParts : parts) (w : world) :
  (size uploaded_file <= max_upload_size)%N ->
  read_csv (content uploaded_file) = Some data ->
  well_formed data ->
  normalize uploaded_file = Some (inr table) ->
  rows table = [] ->
  historical_data (Some uploaded_file) startParts endParts w
  = (Return None, after_read w []).
Proof.
  intros Hsize Hread Hdata Hn Hrows. unfold App.historical_data.
  apply N.ltb_ge in Hsize. rewrite Hsize.
  unfold bind at 1. rewrite (normalize_run _ _ _ _ Hread Hdata Hn).
  unfold empty. rewrite Hrows. now destruct (columns table).
Qed.

(** With a table that has rows, an impossible date in one of the two bounds
    ends the run with the invalid-date error; no table is shown and no
    object is created. *)
Theorem invalid_date_shows_error (uploaded_file : upload)
    (data table : DataFrame) (i : nat) (startParts endParts : parts) (w : world) :
  (size uploaded_file <= max_upload_size)%N ->
  read_csv (content uploaded_file) = Some data ->
  well_formed data ->
  normalize uploaded_file = Some (inr table) ->
  rows table <> [] ->
  positions "datetime" (columns table) = [i] ->
  buildWindow startParts endParts = inl InvalidDateError ->
  historical_data (Some uploaded_file) startParts endParts w
  = (Return None, after_read w [st_error InvalidDateCombination]).
Proof.
  intros Hsize Hread Hdata Hn Hrows Hpos Hwin. unfold App.historical_data.
  apply N.ltb_ge in Hsize. rewrite Hsize.
  unfold bind at 1. rewrite (normalize_run _ _ _ _ Hread Hdata Hn).
  rewrite (table_not_empty table i "datetime")
    by (try apply (proj1 (positions_single _ _ _ Hpos)); assumption).
  unfold bind at 1.
  rewrite (datetime_range_run _ table i _ Hpos
             (normalize_datetime_dtype _ _ _ _ Hread Hdata Hn Hpos)).
  unfold bind at 1. rewrite (selectable_run table i _ Hpos), Hwin.
  unfold bind, emit, ret, after_read. cbn [heap screen].
  now rewrite app_nil_r.
Qed.


Lemma positions_two_labels (c : string) (cols : list string) (j1 j2 : nat) :
  j1 <> j2 ->
  nth_error cols j1 = Some c -> nth_error cols j2 = Some c ->
  exists p q ps, positions c cols = p :: q :: ps.
Proof.
  intros Hne H1 H2. apply positions_In in H1, H2.
  destruct (positions c cols) as [|p [|q ps]] eqn:E.
  - destruct H1.
  - destruct H1 as [<- | []], H2 as [<- | []]. congruence.
  - eauto.
Qed.

(** A normalised table with rows that carries the label "datetime" twice (a
    header "datetime" after an earlier datetime-like header such as "date")
    stops the dashboard with an exception nothing catches, and nothing is
    shown: [processed_data['datetime']] is a frame, so either [.min()] or
    [.max()] of lines 176-177 raises on it, or they return and line 179
    raises [AttributeError], a frame having no [.dt]. *)
Theorem second_datetime_label_raises (uploaded_file : upload)
    (data table : DataFrame) (j1 j2 : nat) (startParts endParts : parts)
    (w : world) :
  (size uploaded_file <= max_upload_size)%N ->
  read_csv (content uploaded_file) = Some data ->
  well_formed data ->
  normalize uploaded_file = Some (inr table) ->
  rows table <> [] ->
  j1 <> j2 ->
  nth_error (columns table) j1 = Some "datetime" ->
  nth_error (columns table) j2 = Some "datetime" ->
  historical_data (Some uploaded_file) startParts endParts w
  = (Raise match min_max_error
                   (columns_at (positions "datetime" (columns table)) table) with
           | Some e => e
           | None => AttributeError
           end,
     after_read w []).
Proof.
  intros Hsize Hread Hdata Hn Hrows Hne H1 H2. unfold App.historical_data.
  apply N.ltb_ge in Hsize. rewrite Hsize.
  unfold bind at 1. rewrite (normalize_run _ _ _ _ Hread Hdata Hn).
  rewrite (table_not_empty table j1 "datetime") by assumption.
  destruct (positions_two_labels _ _ _ _ Hne H1 H2) as (p & q & ps & Hp).
  unfold bind, datetime_range, selectable, getitem. rewrite Hp.
  now destruct (min_max_error _).
Qed.

End Readers.

Lemma empty_table_shows_nothing_witness :
  historical_data Sample.read_csv Sample.to_datetime_coerce
    Sample.to_datetime_kind Sample.parse_number Sample.min_max_error
    (Some (mk_upload 11 ("date" ++ Sample.nl ++ "hello" ++ Sample.nl)))
    (mk_parts 2021 1 1 "00:00:00") (mk_parts 2021 12 31 "23:55:00")
    (mk_world [] [])
  = (Return None, mk_world [] [read_csv_called]).
Proof.
  assert (Hwf : well_formed (mk_frame ["date"] [Object] [[Str "hello"]]))
    by (split; [reflexivity | repeat constructor]).
  assert (Hsize : (11 <= max_upload_size)%N) by (apply N.leb_le; reflexivity).
  exact (empty_table_shows_nothing Sample.read_csv Sample.to_datetime_coerce
           Sample.to_datetime_kind Sample.parse_number Sample.min_max_error
           (mk_upload 11 ("date" ++ Sample.nl ++ "hello" ++ Sample.nl))
           _ _ (mk_parts 2021 1 1 "00:00:00") (mk_parts 2021 12 31 "23:55:00")
           (mk_world [] []) Hsize eq_refl Hwf eq_refl eq_refl).
Defined.

Lemma invalid_date_shows_error_witness :
  historical_data Sample.read_csv Sample.to_datetime_coerce
    Sample.to_datetime_kind Sample.parse_number Sample.min_max_error
    (Some (mk_upload 40 ("Date,Volume" ++ Sample.nl
                         ++ "2021-01-01 00:00:00,5" ++ Sample.nl)))
    (mk_parts 2021 2 30 "00:00:00") (mk_parts 2021 12 31 "23:55:00")
    (mk_world [] [])
  = (Return None,
     mk_world [] [read_csv_called; st_error InvalidDateCombination]).
Proof.
  assert (Hwf : well_formed
                  (mk_frame ["Date"; "Volume"] [Object; Object]
                     [[Str "2021-01-01 00:00:00"; Str "5"]]))
    by (split; [reflexivity | repeat constructor]).
  assert (Hsize : (40 <= max_upload_size)%N) by (apply N.leb_le; reflexivity).
  exact (invalid_date_shows_error Sample.read_csv Sample.to_datetime_coerce
           Sample.to_datetime_kind Sample.parse_number Sample.min_max_error
           (mk_upload 40 ("Date,Volume" ++ Sample.nl
                          ++ "2021-01-01 00:00:00,5" ++ Sample.nl))
           _ _ 0 (mk_parts 2021 2 30 "00:00:00") (mk_parts 2021 12 31 "23:55:00")
           (mk_world [] []) Hsize eq_refl Hwf eq_refl
           ltac:(discriminate) eq_refl eq_refl).
Defined.


Lemma second_datetime_label_raises_witness :
  historical_data Sample.read_csv Sample.to_datetime_coerce
    Sample.to_datetime_kind Sample.parse_number Sample.min_max_error
    (Some (mk_upload 40 ("date,datetime" ++ Sample.nl
                         ++ "2021-01-01 00:00:00,x" ++ Sample.nl)))
    (mk_parts 2021 1 1 "00:00:00") (mk_parts 2021 12 31 "23:55:00")
    (mk_world [] [])
  = (Raise AttributeError, mk_world [] [read_csv_called]).
Proof.
  assert (Hwf : well_formed
                  (mk_frame ["date"; "datetime"] [Object; Object]
                     [[Str "2021-01-01 00:00:00"; Str "x"]]))
    by (split; [reflexivity | repeat constructor]).
  assert (Hsize : (40 <= max_upload_size)%N) by (apply N.leb_le; reflexivity).
  exact (second_datetime_label_raises Sample.read_csv Sample.to_datetime_coerce
           Sample.to_datetime_kind Sample.parse_number Sample.min_max_error
           (mk_upload 40 ("date,datetime" ++ Sample.nl
                          ++ "2021-01-01 00:00:00,x" ++ Sample.nl))
           _ _ 0 1 (mk_parts 2021 1 1 "00:00:00") (mk_parts 2021 12 31 "23:55:00")
           (mk_world [] []) Hsize eq_refl Hwf eq_refl
           ltac:(discriminate) ltac:(discriminate) eq_refl eq_refl).
Defined.

End DriverFacts.

Module WindowMore.
Import Text Classifier ClassifierFacts Calendar Strptime Frame FrameFacts World App
       StrptimeFacts WindowFacts GeoFacts RunFacts Dashboard.
Local Open Scope N_scope.

Lemma range_from_In_step (fuel : nat) (start stop step n : N) :
  In n (range_from fuel start stop step) -> start <= n < stop.
Proof.
  revert start. induction fuel as [|fuel IH]; intros start; simpl; [tauto |].
  destruct (N.ltb_spec start stop); [| intros []].
  intros [<- | Hin]; [lia |]. apply IH in Hin. lia.
Qed.

Lemma days_in_month_le (y m : N) : days_in_month y m <= 31.
Proof.
  unfold days_in_month. destruct ((m =? 2) && is_leap y); [lia |].
  destruct (N.to_nat m) as [|[|[|[|[|[|[|[|[|[|[|[|[|k]]]]]]]]]]]]]; simpl; try lia.
  destruct k; simpl; lia.
Qed.

Lemma strptime_parts_time (y m d hour minute : N) :
  1000 <= y <= 9999 -> ValidDate y m d ->
  hour < 24 -> minute < 60 -> minute mod 5 = 0 ->
  In (fmt_02d hour ++ ":" ++ fmt_02d minute ++ ":00")%string generate_time_options /\
  strptime_parts (mk_parts y m d (fmt_02d hour ++ ":" ++ fmt_02d minute ++ ":00")%string)
  = Some (mk_datetime y m d hour minute 0 0).
Proof.
  intros Hy Hv Hh Hm Hm5.
  assert (Hhour : In hour (range 0 24 1)) by (apply range_In; lia).
  assert (Hminute : In minute (range 0 60 5)).
  { assert (E : minute = 5 * (minute / 5))
      by (rewrite (N.div_mod minute 5) at 1 by lia; lia).
    assert (Hq : In (minute / 5) (range 0 12 1))
      by (apply range_In; split; [lia | apply N.Div0.div_lt_upper_bound; lia]).
    rewrite E.
    change (range 0 60 5) with (map (N.mul 5) (range 0 12 1)).
    now apply in_map. }
  split.
  - unfold generate_time_options. apply in_flat_map. exists hour.
    split; [exact Hhour |]. apply in_map_iff. exists minute. auto.
  - destruct Hv as (_ & Hmr & Hdr).
    assert (Hmonth : In m (range 1 13 1)) by (apply range_In; lia).
    assert (Hday : In d (range 1 32 1))
      by (apply range_In; pose proof (days_in_month_le y m); lia).
    assert (H : forallb
                  (fun m => forallb
                     (fun d => forallb
                        (fun hour => forallb
                           (fun minute =>
                              match re_tail ("-" ++ fmt_02d m ++ "-" ++ fmt_02d d
                                             ++ " " ++ fmt_02d hour ++ ":"
                                             ++ fmt_02d minute ++ ":00")%string with
                              | ((m', d', H, M, sec), EmptyString) :: _ =>
                                  (m' =? m) && (d' =? d) && (H =? hour) &&
                                  (M =? minute) && (sec =? 0)
                              | _ => false
                              end) (range 0 60 5))
                        (range 0 24 1))
                     (range 1 32 1))
                  (range 1 13 1) = true) by (vm_compute; reflexivity).
    rewrite forallb_forall in H. specialize (H m Hmonth).
    rewrite forallb_forall in H. specialize (H d Hday).
    rewrite forallb_forall in H. specialize (H hour Hhour).
    rewrite forallb_forall in H. specialize (H minute Hminute). cbv beta in H.
    unfold strptime_parts, strptime, format_parts, re_format, then_.
    cbn [p_year p_month p_day p_time].
    rewrite re_Y_str by assumption. cbn [flat_map].
    destruct (re_tail _) as [|[[[[[m' d'] H'] M'] sec] [|? ?]] rest];
      try discriminate.
    rewrite !andb_true_iff, !N.eqb_eq in H.
    destruct H as [[[[-> ->] ->] ->] ->]. cbn [map app].
    assert (Hc : check_date_fields y m d = true)
      by (apply check_date_fields_spec; repeat split; lia).
    assert (Ht : check_time_fields hour minute 0 = true).
    { unfold check_time_fields. rewrite !andb_true_iff, !N.leb_le. lia. }
    now rewrite Hc, Ht.
Qed.

(** Formatting a time of day as the select box does and parsing the bound
    gives that time back: for a date that exists (year of four digits), an
    hour below 24 and a minute below 60 that is a multiple of five, the
    text HH:MM:00 is one of the options, and the bound built from it is the
    instant of that date, hour and minute, with zero seconds. *)
Theorem time_option_round_trip (y m d hour minute : N) :
  1000 <= y <= 9999 -> ValidDate y m d ->
  hour < 24 -> minute < 60 -> minute mod 5 = 0 ->
  In (fmt_02d hour ++ ":" ++ fmt_02d minute ++ ":00")%string generate_time_options /\
  strptime_parts (mk_parts y m d (fmt_02d hour ++ ":" ++ fmt_02d minute ++ ":00")%string)
  = Some (mk_datetime y m d hour minute 0 0).
Proof. apply strptime_parts_time. Qed.

Lemma time_option_round_trip_witness :
  strptime_parts (mk_parts 2024 2 29 "07:35:00")
  = Some (mk_datetime 2024 2 29 7 35 0 0).
Proof.
  refine (proj2 (time_option_round_trip 2024 2 29 7 35 _ _ _ _ _));
    try reflexivity; try (vm_compute; intuition discriminate).
Defined.

Lemma lex_compare_trans (a b c : list N) :
  lex_compare a b <> Gt -> lex_compare b c <> Gt -> lex_compare a c <> Gt.
Proof.
  revert b c. induction a as [|x a IH]; intros [|y b] [|z c]; simpl;
    try congruence.
  destruct (N.compare_spec x y), (N.compare_spec y z), (N.compare_spec x z);
    subst; try congruence; try lia; eauto.
Qed.

Lemma dt_leb_trans (a b c : datetime) :
  dt_leb a b = true -> dt_leb b c = true -> dt_leb a c = true.
Proof.
  unfold dt_leb, dt_compare. intros H1 H2.
  assert (H : lex_compare (fields a) (fields c) <> Gt).
  { apply (lex_compare_trans _ (fields b)).
    - destruct (lex_compare (fields a) (fields b)); congruence.
    - destruct (lex_compare (fields b) (fields c)); congruence. }
  destruct (lex_compare (fields a) (fields c)); congruence.
Qed.

(** The program does not compare the two bounds.  Bounds that can both be
    read are taken as the window as they are, also when the start lies
    after the end: no error is reported and the bounds are not swapped; on a
    table of zone-less timestamps such a window selects no row. *)
Theorem inverted_window_selects_nothing (startParts endParts : parts)
    (start_datetime end_datetime : datetime)
    (processed_data : DataFrame) (i : nat) :
  strptime_parts startParts = Some start_datetime ->
  strptime_parts endParts = Some end_datetime ->
  dt_leb start_datetime end_datetime = false ->
  positions "datetime" (columns processed_data) = [i] ->
  nth i (dtypes processed_data) Object = Datetime64 ->
  buildWindow startParts endParts = inr (start_datetime, end_datetime) /\
  filter processed_data (start_datetime, end_datetime)
  = Return {| columns := columns processed_data;
              dtypes := dtypes processed_data;
              rows := [] |}.
Proof.
  intros Hs He Hinv Hpos Hdt. split.
  - unfold buildWindow. now rewrite Hs, He.
  - rewrite (filter_Return _ i _ Hpos Hdt). do 2 f_equal.
    apply filter_nil_iff. intros row _.
    unfold in_window, cell_geb, cell_leb, dt_geb.
    cbn [fst snd]. destruct (cell_at i row) as [| | | d |]; try reflexivity.
    destruct (dt_leb start_datetime d) eqn:E1; [| reflexivity].
    destruct (dt_leb d end_datetime) eqn:E2; [| reflexivity].
    rewrite (dt_leb_trans _ _ _ E1 E2) in Hinv. discriminate.
Qed.

Lemma inverted_window_selects_nothing_witness :
  buildWindow (mk_parts 2021 12 31 "00:00:00") (mk_parts 2021 1 1 "00:00:00")
  = inr (mk_datetime 2021 12 31 0 0 0 0, mk_datetime 2021 1 1 0 0 0 0) /\
  filter (mk_frame ["datetime"] [Datetime64]
            [[Ts (mk_datetime 2021 5 1 8 0 0 0)]])
         (mk_datetime 2021 12 31 0 0 0 0, mk_datetime 2021 1 1 0 0 0 0)
  = Return (mk_frame ["datetime"] [Datetime64] []).
Proof.
  refine (inverted_window_selects_nothing
            (mk_parts 2021 12 31 "00:00:00") (mk_parts 2021 1 1 "00:00:00")
            (mk_datetime 2021 12 31 0 0 0 0) (mk_datetime 2021 1 1 0 0 0 0)
            (mk_frame ["datetime"] [Datetime64] [[Ts (mk_datetime 2021 5 1 8 0 0 0)]])
            0%nat _ _ eq_refl eq_refl eq_refl);
    vm_compute; reflexivity.
Defined.

Lemma sorted_hd_le (l : list N) (x : N) :
  StronglySorted N.lt l -> In x l -> hd 0 l <= x.
Proof.
  intros Hs Hin. destruct Hs as [|y l Hs Hall]; [destruct Hin |].
  simpl. destruct Hin as [<- | Hin]; [lia |].
  rewrite Forall_forall in Hall. specialize (Hall x Hin). lia.
Qed.

Lemma sorted_last_ge (l : list N) (x : N) :
  StronglySorted N.lt l -> In x l -> x <= last l 0.
Proof.
  intros Hs. revert x. induction Hs as [|y l Hs IH Hall]; intros x Hin;
    [destruct Hin |].
  destruct l as [|z l].
  - destruct Hin as [<- | []]. simpl. lia.
  - change (last (y :: z :: l) 0) with (last (z :: l) 0).
    destruct Hin as [<- | Hin]; [| now apply IH].
    rewrite Forall_forall in Hall.
    pose proof (Hall z (or_introl eq_refl)).
    pose proof (IH z (or_introl eq_refl)). lia.
Qed.

Lemma hd_In (l : list N) : l <> [] -> In (hd 0 l) l.
Proof. destruct l; [congruence | now left]. Qed.

Lemma last_In (l : list N) : l <> [] -> In (last l 0) l.
Proof.
  induction l as [|x l IH]; [congruence |]. intros _.
  destruct l as [|y l]; [now left |].
  right. apply IH. discriminate.
Qed.

Lemma dt_leb_year_start (y : N) (t : datetime) :
  y <= year t -> 1 <= month t -> 1 <= day t ->
  dt_leb (mk_datetime y 1 1 0 0 0 0) t = true.
Proof.
  intros Hy Hm Hd. unfold dt_leb, dt_compare, fields. cbn [lex_compare year month day
    hour minute second fraction].
  destruct (N.compare_spec y (year t)); try lia; try reflexivity.
  destruct (N.compare_spec 1 (month t)); try lia; try reflexivity.
  destruct (N.compare_spec 1 (day t)); try lia; try reflexivity.
  destruct (N.compare_spec 0 (hour t)); try lia; try reflexivity.
  destruct (N.compare_spec 0 (minute t)); try lia; try reflexivity.
  destruct (N.compare_spec 0 (second t)); try lia; try reflexivity.
  destruct (N.compare_spec 0 (fraction t)); try lia; reflexivity.
Qed.

Lemma first_and_last_day_exist (y : N) :
  1000 <= y <= 9999 -> ValidDate y 1 1 /\ ValidDate y 12 31.
Proof.
  intros Hy. unfold ValidDate.
  change (days_in_month y 1) with 31. change (days_in_month y 12) with 31. lia.
Qed.

(** The window of the untouched select boxes, for a table whose datetime
    column holds zone-less timestamps (each with month and day at least 1).
    The start boxes hold 1 January 00:00:00 of the first year of the data,
    the end boxes 31 December 23:55:00 of the last.  When these years have
    four digits the window is built; every row lies after its start, so the
    rows it drops are exactly those later than 23:55:00 on the last 31
    December.  When the first year is below 1000, or the last above 9999,
    the untouched boxes already give the invalid-date error. *)
Theorem default_window (table : DataFrame) (i : nat) (w : world) :
  positions "datetime" (columns table) = [i] ->
  nth i (dtypes table) Object = Datetime64 ->
  rows table <> [] ->
  (forall row, In row (rows table) ->
     exists t, cell_at i row = Ts t /\ 1 <= month t /\ 1 <= day t) ->
  exists offered first_year last_year,
    selectable table w = (Return offered, w) /\
    default_startParts offered = mk_parts first_year 1 1 "00:00:00" /\
    default_endParts offered = mk_parts last_year 12 31 "23:55:00" /\
    (forall row t, In row (rows table) -> cell_at i row = Ts t ->
                   first_year <= year t <= last_year) /\
    (1000 <= first_year /\ last_year <= 9999 ->
     buildWindow (default_startParts offered) (default_endParts offered)
     = inr (mk_datetime first_year 1 1 0 0 0 0,
            mk_datetime last_year 12 31 23 55 0 0) /\
     filter table (mk_datetime first_year 1 1 0 0 0 0,
                   mk_datetime last_year 12 31 23 55 0 0)
     = Return {| columns := columns table;
                 dtypes := dtypes table;
                 rows := List.filter
                           (fun row => cell_leb (mk_datetime last_year 12 31 23 55 0 0)
                                                (cell_at i row))
                           (rows table) |}) /\
    (first_year < 1000 \/ 9999 < last_year ->
     buildWindow (default_startParts offered) (default_endParts offered)
     = inl InvalidDateError).
Proof.
  intros Hpos Hdt Hne Hts.
  pose proof (selectable_run table i w Hpos) as Hrun.
  set (offered := {| years := sorted (unique (dt_year (map (cell_at i) (rows table))));
                     months := range 1 13 1;
                     days := range 1 32 1;
                     times := generate_time_options |}) in *.
  assert (Hsorted : StronglySorted N.lt (years offered))
    by apply sorted_lt, unique_NoDup.
  assert (Hyears : forall y, In y (years offered) <->
                     exists t, In (Ts t) (map (cell_at i) (rows table)) /\ year t = y)
    by (intros y; cbn [years offered]; now rewrite sorted_In, unique_In, dt_year_In).
  assert (Hmonths : months offered = [1; 2; 3; 4; 5; 6; 7; 8; 9; 10; 11; 12])
    by reflexivity.
  assert (Hdays : hd 0 (days offered) = 1 /\ last (days offered) 0 = 31)
    by (split; reflexivity).
  assert (Hfirst : hd ""%string (times offered) = "00:00:00"%string)
    by (vm_compute; reflexivity).
  assert (Hlast : last (times offered) ""%string = "23:55:00"%string)
    by (vm_compute; reflexivity).
  assert (Hin : forall row t, In row (rows table) -> cell_at i row = Ts t ->
                              In (year t) (years offered)).
  { intros row t Hrow Ht. apply Hyears. exists t. split; [| reflexivity].
    rewrite <- Ht. now apply in_map. }
  assert (Hyne : years offered <> []).
  { destruct (rows table) as [|row rs]; [congruence |].
    destruct (Hts row (or_introl eq_refl)) as (t & Ht & _).
    intros E. pose proof (Hin row t (or_introl eq_refl) Ht) as Hy.
    rewrite E in Hy. destruct Hy. }
  set (y0 := hd 0 (years offered)). set (yN := last (years offered) 0).
  assert (Hle : y0 <= yN) by (apply sorted_last_ge; [assumption | apply hd_In, Hyne]).
  assert (Hsp : default_startParts offered = mk_parts y0 1 1 "00:00:00").
  { unfold default_startParts. rewrite Hmonths, (proj1 Hdays), Hfirst. reflexivity. }
  assert (Hep : default_endParts offered = mk_parts yN 12 31 "23:55:00").
  { unfold default_endParts. rewrite Hmonths, (proj2 Hdays), Hlast. reflexivity. }
  assert (Hbounds : forall row t, In row (rows table) -> cell_at i row = Ts t ->
                                  y0 <= year t <= yN).
  { intros row t Hrow Ht. pose proof (Hin row t Hrow Ht) as Hy.
    split; [now apply sorted_hd_le | now apply sorted_last_ge]. }
  exists offered, y0, yN. split; [exact Hrun |].
  split; [exact Hsp |]. split; [exact Hep |]. split; [exact Hbounds |].
  rewrite Hsp, Hep. split.
  - intros [Hlo Hhi].
    assert (Hy0 : 1000 <= y0 <= 9999) by lia.
    assert (HyN : 1000 <= yN <= 9999) by lia.
    assert (Hstart : strptime_parts (mk_parts y0 1 1 "00:00:00")
                     = Some (mk_datetime y0 1 1 0 0 0 0))
      by apply (proj2 (strptime_parts_time y0 1 1 0 0 Hy0
                         (proj1 (first_and_last_day_exist y0 Hy0))
                         eq_refl eq_refl eq_refl)).
    assert (Hend : strptime_parts (mk_parts yN 12 31 "23:55:00")
                   = Some (mk_datetime yN 12 31 23 55 0 0))
      by apply (proj2 (strptime_parts_time yN 12 31 23 55 HyN
                         (proj2 (first_and_last_day_exist yN HyN))
                         eq_refl eq_refl eq_refl)).
    split; [unfold buildWindow; now rewrite Hstart, Hend |].
    rewrite (filter_Return _ i _ Hpos Hdt). do 2 f_equal.
    apply filter_ext_in. intros row Hrow.
    unfold in_window. cbn [fst snd].
    destruct (Hts row Hrow) as (t & Ht & Hm & Hd). rewrite Ht.
    unfold cell_geb, dt_geb.
    rewrite dt_leb_year_start; [reflexivity | | assumption..].
    apply (Hbounds row t Hrow Ht).
  - intros Hout.
    assert (Hss : Selectable (mk_parts y0 1 1 "00:00:00"))
      by (repeat split; vm_compute; intuition).
    assert (Hse : Selectable (mk_parts yN 12 31 "23:55:00"))
      by (repeat split; vm_compute; intuition).
    unfold buildWindow.
    destruct (strptime_parts (mk_parts y0 1 1 "00:00:00")) as [ts|] eqn:Es;
      [| reflexivity].
    destruct (strptime_parts (mk_parts yN 12 31 "23:55:00")) as [te|] eqn:Ee;
      [exfalso | reflexivity].
    assert (Hs' : ~ ~ (ValidDate y0 1 1 /\ 1000 <= y0)).
    { intros H. apply (proj2 (strptime_parts_None _ Hss)) in H.
      rewrite Es in H. discriminate. }
    assert (He' : ~ ~ (ValidDate yN 12 31 /\ 1000 <= yN)).
    { intros H. apply (proj2 (strptime_parts_None _ Hse)) in H.
      rewrite Ee in H. discriminate. }
    apply Hs'. intros [_ H0]. apply He'. intros [[HN _] _]. lia.
Qed.

Lemma default_window_witness :
  exists offered first_year last_year,
    selectable (mk_frame ["datetime"] [Datetime64]
                  [[Ts (mk_datetime 2021 5 1 8 0 0 0)];
                   [Ts (mk_datetime 2022 12 31 23 58 0 0)]])
               (mk_world [] [])
    = (Return offered, mk_world [] []) /\
    default_startParts offered = mk_parts first_year 1 1 "00:00:00" /\
    default_endParts offered = mk_parts last_year 12 31 "23:55:00".
Proof.
  destruct (default_window
              (mk_frame ["datetime"] [Datetime64]
                 [[Ts (mk_datetime 2021 5 1 8 0 0 0)];
                  [Ts (mk_datetime 2022 12 31 23 58 0 0)]])
              0%nat (mk_world [] []) eq_refl eq_refl ltac:(discriminate))
    as (offered & y0 & yN & Hrun & Hsp & Hep & _).
  - intros row [<- | [<- | []]]; eexists; (split; [reflexivity |]); cbn; lia.
  - exists offered, y0, yN. auto.
Defined.

End WindowMore.

Module ChartFacts.
Import Text TextFacts Classifier ClassifierFacts Calendar Frame FrameFacts World App
       Dashboard.

Lemma charts_nonempty (processed_data filtered_data : DataFrame) (c : choices)
    (second : string) :
  empty filtered_data = false ->
  nth_error (columns filtered_data) 1 = Some second ->
  charts processed_data filtered_data c
  = (([plotly_chart (histogram (histogram_column c));
       plotly_chart (scatter (scatter_x c) (scatter_y c));
       plotly_chart (line (lineplot_x c) (lineplot_y c));
       plotly_chart (if bar_vertical c then bar (bar_column c) second
                     else bar second (bar_column c))]
      ++ fst (scatter_3d_part processed_data))%list,
     None).
Proof.
  intros He H2.
  unfold charts, histogram_part, scatter_part, line_part, bar_part.
  rewrite He, H2. cbn [negb and_then fst snd app].
  unfold scatter_3d_part.
  destruct (has_column processed_data "region_id"
            && has_column processed_data "datetime"); reflexivity.
Qed.

(** When the window selects no row, the chart section draws nothing: no
    histogram, scatter, line or bar chart, and, because the 3D part sits
    inside the bar chart's test, no 3D chart of the unfiltered table and no
    message about missing volume columns either. *)
Theorem empty_selection_draws_nothing (processed_data filtered_data : DataFrame)
    (c : choices) :
  rows filtered_data = [] ->
  charts processed_data filtered_data c = ([], None).
Proof.
  intros Hrows.
  assert (He : empty filtered_data = true)
    by (unfold empty; rewrite Hrows; now destruct (columns filtered_data)).
  unfold charts, histogram_part, scatter_part, line_part, bar_part.
  rewrite He. reflexivity.
Qed.

(** On a selection with rows but a single column, the bar chart's
    [columns[1]] raises [IndexError] after the histogram, the scatter plot
    and the line plot have been drawn; neither the bar chart nor any 3D
    chart is drawn. *)
Theorem single_column_raises (processed_data filtered_data : DataFrame)
    (c : choices) (only : string) :
  rows filtered_data <> [] ->
  columns filtered_data = [only] ->
  charts processed_data filtered_data c
  = ([plotly_chart (histogram (histogram_column c));
      plotly_chart (scatter (scatter_x c) (scatter_y c));
      plotly_chart (line (lineplot_x c) (lineplot_y c))],
     Some IndexError).
Proof.
  intros Hrows Hcols.
  assert (He : empty filtered_data = false)
    by (unfold empty; rewrite Hcols; now destruct (rows filtered_data)).
  unfold charts, histogram_part, scatter_part, line_part, bar_part.
  rewrite He, Hcols. reflexivity.
Qed.

Lemma in_after_four (e a b c d : shown) (l : list shown) :
  e <> a -> e <> b -> e <> c -> e <> d ->
  (In e ([a; b; c; d] ++ l) <-> In e l).
Proof.
  intros Ha Hb Hc Hd. simpl. split; [| tauto].
  intros [H | [H | [H | [H | H]]]]; congruence.
Qed.

Lemma scatter_3d_part_charts (processed_data : DataFrame) (x y z : string) :
  In (plotly_chart (scatter_3d x y z)) (fst (scatter_3d_part processed_data)) <->
  has_column processed_data "region_id" = true /\
  has_column processed_data "datetime" = true /\
  y = "datetime" /\ z = "region_id" /\
  In x (columns processed_data) /\ Mentions volume_keywords x.
Proof.
  unfold scatter_3d_part.
  destruct (has_column processed_data "region_id");
    destruct (has_column processed_data "datetime"); cbn [andb fst];
    try (split; [intros [] | intros (? & ? & _); discriminate]).
  pose proof (columns_mentioning_In volume_keywords (columns processed_data) x) as Hin.
  unfold detect_traffic_volume_columns.
  rewrite in_app_iff, in_map_iff. split.
  - intros [H | (col & [= <- <- <-] & Hcol)].
    + destruct (columns_mentioning _ _); destruct H as [H | []]; discriminate.
    + apply Hin in Hcol. tauto.
  - intros (_ & _ & -> & -> & Hx & Hm). right. exists x. split; [reflexivity |].
    apply Hin. auto.
Qed.

Lemma scatter_3d_part_message (processed_data : DataFrame) :
  In no_suitable_columns (fst (scatter_3d_part processed_data)) <->
  has_column processed_data "region_id" = true /\
  has_column processed_data "datetime" = true /\
  forall h, In h (columns processed_data) -> ~ Mentions volume_keywords h.
Proof.
  unfold scatter_3d_part.
  destruct (has_column processed_data "region_id");
    destruct (has_column processed_data "datetime"); cbn [andb fst];
    try (split; [intros [] | intros (? & ? & _); discriminate]).
  pose proof (columns_mentioning_In volume_keywords (columns processed_data)) as Hin.
  unfold detect_traffic_volume_columns.
  destruct (columns_mentioning volume_keywords (columns processed_data))
    as [|v vs].
  - split; [| intros _; now left].
    intros _. repeat split. intros h Hh Hm. apply (Hin h). auto.
  - split.
    + intros [H | H]; [discriminate |].
      apply in_map_iff in H. destruct H as (col & [=] & _).
    + intros (_ & _ & Hnone). exfalso.
      destruct (proj1 (Hin v) (or_introl eq_refl)) as [Hv Hm].
      exact (Hnone v Hv Hm).
Qed.

(** The 3D charts.  On a selection with rows and at least two columns the
    section ends normally, and: a 3D chart is drawn for a column exactly
    when the unfiltered table has the columns "region_id" and "datetime" and
    the column is one of its headers mentioning a volume keyword, always
    against "datetime" and "region_id"; the message that no suitable column
    was found is shown exactly when the two columns are there and no header
    mentions a volume keyword. *)
Theorem scatter_3d_charts (processed_data filtered_data : DataFrame)
    (c : choices) (second : string) :
  rows filtered_data <> [] ->
  nth_error (columns filtered_data) 1 = Some second ->
  snd (charts processed_data filtered_data c) = None /\
  (forall x y z,
      In (plotly_chart (scatter_3d x y z))
         (fst (charts processed_data filtered_data c)) <->
      has_column processed_data "region_id" = true /\
      has_column processed_data "datetime" = true /\
      y = "datetime" /\ z = "region_id" /\
      In x (columns processed_data) /\ Mentions volume_keywords x) /\
  (In no_suitable_columns (fst (charts processed_data filtered_data c)) <->
   has_column processed_data "region_id" = true /\
   has_column processed_data "datetime" = true /\
   forall h, In h (columns processed_data) -> ~ Mentions volume_keywords h).
Proof.
  intros Hrows H2.
  assert (He : empty filtered_data = false).
  { unfold empty. destruct (columns filtered_data); [discriminate |].
    now destruct (rows filtered_data). }
  rewrite (charts_nonempty _ _ _ _ He H2). cbn [fst snd].
  split; [reflexivity |]. split.
  - intros x y z.
    rewrite in_after_four;
      try discriminate; try (destruct (bar_vertical c); discriminate).
    apply scatter_3d_part_charts.
  - rewrite in_after_four;
      try discriminate; try (destruct (bar_vertical c); discriminate).
    apply scatter_3d_part_message.
Qed.

Lemma empty_selection_draws_nothing_witness :
  charts (mk_frame ["datetime"; "region_id"; "volume"] [Datetime64; Object; Object]
            [[Ts (mk_datetime 2021 5 1 8 0 0 0); Str "r1"; Str "5"]])
         (mk_frame ["datetime"; "region_id"; "volume"] [Datetime64; Object; Object] [])
         (mk_choices "volume" "datetime" "volume" "datetime" "volume" "volume" true)
  = ([], None).
Proof.
  apply empty_selection_draws_nothing. reflexivity.
Defined.

Lemma single_column_raises_witness :
  snd (charts (mk_frame ["datetime"] [Datetime64]
                 [[Ts (mk_datetime 2021 5 1 8 0 0 0)]])
              (mk_frame ["datetime"] [Datetime64]
                 [[Ts (mk_datetime 2021 5 1 8 0 0 0)]])
              (mk_choices "datetime" "datetime" "datetime" "datetime" "datetime"
                 "datetime" true))
  = Some IndexError.
Proof.
  rewrite (single_column_raises _ _ _ "datetime");
    [reflexivity | discriminate | reflexivity].
Defined.

Lemma scatter_3d_charts_witness :
  snd (charts
         (mk_frame ["datetime"; "region_id"; "volume"] [Datetime64; Object; Object]
            [[Ts (mk_datetime 2021 5 1 8 0 0 0); Str "r1"; Str "5"]])
         (mk_frame ["datetime"; "region_id"; "volume"] [Datetime64; Object; Object]
            [[Ts (mk_datetime 2021 5 1 8 0 0 0); Str "r1"; Str "5"]])
         (mk_choices "volume" "datetime" "volume" "datetime" "volume" "volume" true))
  = None.
Proof.
  apply (scatter_3d_charts _ _ _ "region_id"); [discriminate | reflexivity].
Defined.

End ChartFacts.
